(** * Credential and session lifecycle of the authentication service

    A shallow embedding of [src/modules/auth/auth.service.ts] (class
    [AuthService]) and of the parts of [EmailService] and of the Prisma
    tables it talks to, followed by the properties of the OTP and
    refresh-token life cycles.

    - Rows of the three tables are records; a table is the list of its
      rows in insertion order ([findFirst] returns the first match).
    - An [async] method is a computation [M A]: it threads the [World]
      (tables, id sequence, delivered mail) and either returns a value or
      throws.  Nothing is rolled back on a throw: the service opens no
      transaction, so the writes made before the exception stay.
    - The injected collaborators that are not part of the repository
      ([JwtService], [bcryptjs]) are interfaces; the clock, the host's
      time zone, [Math.random] and the outcome of the SMTP transport are
      read from an [Env].
    - [Date] arithmetic follows the ECMAScript definitions, local time
      included, and the arithmetic of the OTP draw is IEEE 754 binary64
      with its roundings. *)

From Stdlib Require Import ZArith NArith List String Ascii Bool Lia.
From Stdlib Require Floats.
Import ListNotations.
Open Scope string_scope.
Open Scope Z_scope.

(** ** Exceptions and the [async] monad *)

(** The exception classes the service can raise or let through.
    [PrismaClientKnownRequestError] carries the Prisma error code
    ([P2002] unique constraint, [P2025] record to update not found);
    [TypeError] is a property read on [null]. *)
Inductive Exception : Type :=
| UnauthorizedException (message : string)
| BadRequestException (message : string)
| NotFoundException (message : string)
| ConflictException (message : string)
| Error (message : string)
| PrismaClientKnownRequestError (code : string)
| TypeError (message : string).

(** [GlobalExceptionFilter.catch]: the status is [exception.getStatus()]
    for an [HttpException] and [INTERNAL_SERVER_ERROR] otherwise. *)
Definition getStatus (e : Exception) : Z :=
  match e with
  | UnauthorizedException _ => 401
  | BadRequestException _ => 400
  | NotFoundException _ => 404
  | ConflictException _ => 409
  | Error _ | PrismaClientKnownRequestError _ | TypeError _ => 500
  end.

Inductive Result (A : Type) : Type :=
| Ok (value : A)
| Throw (e : Exception).
Arguments Ok {A} value.
Arguments Throw {A} e.

Definition isOk {A} (r : Result A) : bool :=
  match r with Ok _ => true | Throw _ => false end.

(** Keys ([cuid()] strings in the schema) are opaque and only compared:
    a key is its number in the sequence of the store.  Instants are
    milliseconds since the epoch. *)
Definition Id := N.
Definition Time := Z.

Inductive UserRole : Type := ADMIN | CUSTOMER.
Inductive OtpType : Type := LOGIN | VERIFICATION | PASSWORD_RESET.

Definition OtpType_eqb (a b : OtpType) : bool :=
  match a, b with
  | LOGIN, LOGIN | VERIFICATION, VERIFICATION
  | PASSWORD_RESET, PASSWORD_RESET => true
  | _, _ => false
  end.

(** ** Tables (migration [CREATE TABLE users / otps], model [RefreshToken]) *)

Module User.
Record t : Type := mk {
  id : Id;
  email : string;
  password : string;
  firstName : option string;
  lastName : option string;
  avatar : option string;
  role : UserRole;
  isActive : bool;
  isEmailVerified : bool;
  emailVerificationToken : option string;
  passwordResetToken : option string;
  passwordResetExpires : option Time;
  lastLoginAt : option Time;
  createdAt : Time;
  updatedAt : Time
}.

(** [data: { isEmailVerified: v }] *)
Definition set_isEmailVerified (v : bool) (u : t) : t :=
  mk (id u) (email u) (password u) (firstName u) (lastName u) (avatar u)
     (role u) (isActive u) v (emailVerificationToken u)
     (passwordResetToken u) (passwordResetExpires u) (lastLoginAt u)
     (createdAt u) (updatedAt u).

(** [data: { password: v }] *)
Definition set_password (v : string) (u : t) : t :=
  mk (id u) (email u) v (firstName u) (lastName u) (avatar u)
     (role u) (isActive u) (isEmailVerified u) (emailVerificationToken u)
     (passwordResetToken u) (passwordResetExpires u) (lastLoginAt u)
     (createdAt u) (updatedAt u).

(** [data: { lastLoginAt: v }] *)
Definition set_lastLoginAt (v : Time) (u : t) : t :=
  mk (id u) (email u) (password u) (firstName u) (lastName u) (avatar u)
     (role u) (isActive u) (isEmailVerified u) (emailVerificationToken u)
     (passwordResetToken u) (passwordResetExpires u) (Some v)
     (createdAt u) (updatedAt u).

(** The [@updatedAt] column, written by the client on every update. *)
Definition touch (now : Time) (u : t) : t :=
  mk (id u) (email u) (password u) (firstName u) (lastName u) (avatar u)
     (role u) (isActive u) (isEmailVerified u) (emailVerificationToken u)
     (passwordResetToken u) (passwordResetExpires u) (lastLoginAt u)
     (createdAt u) now.
End User.

Module Otp.
Record t : Type := mk {
  id : Id;
  code : string;
  expiresAt : Time;
  isUsed : bool;
  type : OtpType;
  createdAt : Time;
  userId : Id
}.

(** [data: { isUsed: true }] *)
Definition set_isUsed (v : bool) (o : t) : t :=
  mk (id o) (code o) (expiresAt o) v (type o) (createdAt o) (userId o).
End Otp.

Module RefreshToken.
Record t : Type := mk {
  id : Id;
  token : string;
  expiresAt : Time;
  isRevoked : bool;
  userAgent : option string;
  ipAddress : option string;
  createdAt : Time;
  userId : Id
}.

(** [data: { isRevoked: true }] *)
Definition set_isRevoked (v : bool) (r : t) : t :=
  mk (id r) (token r) (expiresAt r) v (userAgent r) (ipAddress r)
     (createdAt r) (userId r).
End RefreshToken.

(** A message handed to [transporter.sendMail]: recipient, subject and the
    code interpolated in the HTML body. *)
Record Mail : Type := mkMail {
  mail_to : string;
  mail_subject : string;
  mail_otpCode : string
}.

(** The state the service acts on: the three tables, the sequence behind
    the [@default(cuid())] keys, and the mail accepted by the transport. *)
Record World : Type := mkWorld {
  users : list User.t;
  otps : list Otp.t;
  refreshTokens : list RefreshToken.t;
  nextId : Id;
  outbox : list Mail
}.

Definition initialWorld : World := mkWorld [] [] [] 0%N [].

Definition with_users (us : list User.t) (w : World) : World :=
  mkWorld us (otps w) (refreshTokens w) (nextId w) (outbox w).
Definition with_otps (os : list Otp.t) (w : World) : World :=
  mkWorld (users w) os (refreshTokens w) (nextId w) (outbox w).
Definition with_refreshTokens (rs : list RefreshToken.t) (w : World) : World :=
  mkWorld (users w) (otps w) rs (nextId w) (outbox w).
Definition with_nextId (n : Id) (w : World) : World :=
  mkWorld (users w) (otps w) (refreshTokens w) n (outbox w).
Definition with_outbox (ms : list Mail) (w : World) : World :=
  mkWorld (users w) (otps w) (refreshTokens w) (nextId w) ms.

(** ** [Date]: time values, the calendar and local time

    The abstract operations of ECMAScript on time values (milliseconds
    since the epoch).  [LocalTZA t isUTC] is the offset of the host's
    time zone in milliseconds: at the UTC time [t] when [isUTC], and for
    the local time [t] otherwise. *)

Module Date.
Definition msPerDay : Z := 86400000.
Definition Day (t : Time) : Z := t / msPerDay.
Definition TimeWithinDay (t : Time) : Z := t mod msPerDay.

Definition DaysInYear (y : Z) : Z :=
  if negb (y mod 4 =? 0) then 365
  else if negb (y mod 100 =? 0) then 366
  else if negb (y mod 400 =? 0) then 365
  else 366.

Definition DayFromYear (y : Z) : Z :=
  365 * (y - 1970) + (y - 1969) / 4 - (y - 1901) / 100 + (y - 1601) / 400.

Fixpoint yearDown (fuel : nat) (y day : Z) : Z :=
  match fuel with
  | O => y
  | S fuel' =>
      if day <? DayFromYear y then yearDown fuel' (y - 1) day else y
  end.

Fixpoint yearUp (fuel : nat) (y day : Z) : Z :=
  match fuel with
  | O => y
  | S fuel' =>
      if DayFromYear (y + 1) <=? day then yearUp fuel' (y + 1) day else y
  end.

(** The largest [y] with [TimeFromYear(y) <= t], searched from the
    estimate [1970 + Day(t) / 365]. *)
Definition YearFromTime (t : Time) : Z :=
  let day := Day t in
  let fuel := S (Z.to_nat (Z.abs day / 100000)) in
  yearUp fuel (yearDown fuel (1970 + day / 365) day) day.

Definition InLeapYear (t : Time) : Z :=
  if DaysInYear (YearFromTime t) =? 366 then 1 else 0.

Definition DayWithinYear (t : Time) : Z :=
  Day t - DayFromYear (YearFromTime t).

(** The day within the year on which [month] starts. *)
Definition monthStart (leap month : Z) : Z :=
  match month with
  | 0 => 0
  | 1 => 31
  | 2 => 59 + leap
  | 3 => 90 + leap
  | 4 => 120 + leap
  | 5 => 151 + leap
  | 6 => 181 + leap
  | 7 => 212 + leap
  | 8 => 243 + leap
  | 9 => 273 + leap
  | 10 => 304 + leap
  | _ => 334 + leap
  end.

Definition MonthFromTime (t : Time) : Z :=
  let d := DayWithinYear t in
  let leap := InLeapYear t in
  if d <? 31 then 0
  else if d <? 59 + leap then 1
  else if d <? 90 + leap then 2
  else if d <? 120 + leap then 3
  else if d <? 151 + leap then 4
  else if d <? 181 + leap then 5
  else if d <? 212 + leap then 6
  else if d <? 243 + leap then 7
  else if d <? 273 + leap then 8
  else if d <? 304 + leap then 9
  else if d <? 334 + leap then 10
  else 11.

Definition DateFromTime (t : Time) : Z :=
  DayWithinYear t - monthStart (InLeapYear t) (MonthFromTime t) + 1.

(** [MakeDay]: the day number of the first of the month, plus
    [date - 1]; a [date] past the end of the month runs on into the
    following months. *)
Definition MakeDay (year month date : Z) : Z :=
  let ym := year + month / 12 in
  let mn := month mod 12 in
  let leap := if DaysInYear ym =? 366 then 1 else 0 in
  DayFromYear ym + monthStart leap mn + date - 1.

Definition MakeDate (day time : Z) : Z := day * msPerDay + time.

Section Zone.
Variable LocalTZA : Time -> bool -> Z.

Definition LocalTime (t : Time) : Time := t + LocalTZA t true.
Definition UTC (t : Time) : Time := t - LocalTZA t false.

(** [Date.prototype.getDate] and [Date.prototype.setDate] on a [Date]
    whose time value is [t]; [setDate] answers the new time value
    ([TimeClip] leaves a time value of the range of [Date] as it is). *)
Definition getDate (t : Time) : Z := DateFromTime (LocalTime t).

Definition setDate (t : Time) (date : Z) : Time :=
  let t := LocalTime t in
  let newDate :=
    MakeDate (MakeDay (YearFromTime t) (MonthFromTime t) date)
             (TimeWithinDay t) in
  UTC newDate.
End Zone.
End Date.

(** What one call reads from outside: the clock ([new Date()],
    [Date.now()], in milliseconds; a call is taken at one instant), the
    draw of [Math.random()] as its 53-bit numerator, whether
    [transporter.sendMail] resolves, and the time zone of the host. *)
Record Env : Type := mkEnv {
  now : Time;
  random : Z;
  smtpUp : bool;
  localTZA : Time -> bool -> Z
}.

Definition M (A : Type) : Type := World -> World * Result A.

Definition ret {A} (a : A) : M A := fun w => (w, Ok a).
Definition throw {A} (e : Exception) : M A := fun w => (w, Throw e).
Definition bind {A B} (m : M A) (k : A -> M B) : M B :=
  fun w => match m w with
           | (w', Ok a) => k a w'
           | (w', Throw e) => (w', Throw e)
           end.
(** [try { m } catch (error) { h error }] *)
Definition try_catch {A} (m : M A) (h : Exception -> M A) : M A :=
  fun w => match m w with
           | (w', Ok a) => (w', Ok a)
           | (w', Throw e) => h e w'
           end.

Notation "x <- m ;; k" := (bind m (fun x => k))
  (at level 61, m at next level, right associativity).
Notation "m ;; k" := (bind m (fun _ => k))
  (at level 61, right associativity).

(** ** The Prisma client, table by table

    A [where] clause is a predicate on rows.  [findUnique]/[findFirst]
    return the first row that satisfies it, [update] rewrites the row with
    the given primary key and raises [P2025] when there is none,
    [updateMany] rewrites every row that satisfies the clause, [create]
    appends a row with the next key and raises [P2002] when a unique column
    ([users.email], [refresh_tokens.token]) would repeat. *)

Definition updateWhere {A} (where_ : A -> bool) (data : A -> A)
    (rows : list A) : list A :=
  map (fun r => if where_ r then data r else r) rows.

Definition deleteWhere {A} (where_ : A -> bool) (rows : list A) : list A :=
  filter (fun r => negb (where_ r)) rows.

Definition countWhere {A} (where_ : A -> bool) (rows : list A) : nat :=
  List.length (filter where_ rows).

Module prisma.
Module user.
Definition findUnique (where_ : User.t -> bool) : M (option User.t) :=
  fun w => (w, Ok (find where_ (users w))).

Definition create (now : Time) (email password : string)
    (firstName lastName : option string) : M User.t :=
  fun w =>
    if existsb (fun u => String.eqb (User.email u) email) (users w)
    then (w, Throw (PrismaClientKnownRequestError "P2002"))
    else
      let u := User.mk (nextId w) email password firstName lastName
                 None CUSTOMER true false None None None None now now in
      (with_nextId (N.succ (nextId w)) (with_users (users w ++ [u]) w),
       Ok u).

Definition update (now : Time) (id : Id) (data : User.t -> User.t)
    : M User.t :=
  fun w =>
    match find (fun u => N.eqb (User.id u) id) (users w) with
    | None => (w, Throw (PrismaClientKnownRequestError "P2025"))
    | Some u =>
        (with_users
           (updateWhere (fun u => N.eqb (User.id u) id)
                        (fun u => User.touch now (data u)) (users w)) w,
         Ok (User.touch now (data u)))
    end.
End user.

Module otp.
Definition findFirst (where_ : Otp.t -> bool) : M (option Otp.t) :=
  fun w => (w, Ok (find where_ (otps w))).

Definition create (now : Time) (code : string) (expiresAt : Time)
    (type : OtpType) (userId : Id) : M Otp.t :=
  fun w =>
    let o := Otp.mk (nextId w) code expiresAt false type now userId in
    (with_nextId (N.succ (nextId w)) (with_otps (otps w ++ [o]) w), Ok o).

Definition update (id : Id) (data : Otp.t -> Otp.t) : M Otp.t :=
  fun w =>
    match find (fun o => N.eqb (Otp.id o) id) (otps w) with
    | None => (w, Throw (PrismaClientKnownRequestError "P2025"))
    | Some o =>
        (with_otps
           (updateWhere (fun o => N.eqb (Otp.id o) id) data (otps w)) w,
         Ok (data o))
    end.

Definition updateMany (where_ : Otp.t -> bool) (data : Otp.t -> Otp.t)
    : M nat :=
  fun w => (with_otps (updateWhere where_ data (otps w)) w,
            Ok (countWhere where_ (otps w))).

Definition deleteMany (where_ : Otp.t -> bool) : M nat :=
  fun w => (with_otps (deleteWhere where_ (otps w)) w,
            Ok (countWhere where_ (otps w))).
End otp.

Module refreshToken.
Definition findUnique (token : string) : M (option RefreshToken.t) :=
  fun w => (w, Ok (find (fun r => String.eqb (RefreshToken.token r) token)
                        (refreshTokens w))).

Definition create (now : Time) (token : string) (userId : Id)
    (expiresAt : Time) (userAgent ipAddress : option string)
    : M RefreshToken.t :=
  fun w =>
    if existsb (fun r => String.eqb (RefreshToken.token r) token)
               (refreshTokens w)
    then (w, Throw (PrismaClientKnownRequestError "P2002"))
    else
      let r := RefreshToken.mk (nextId w) token expiresAt false
                 userAgent ipAddress now userId in
      (with_nextId (N.succ (nextId w))
         (with_refreshTokens (refreshTokens w ++ [r]) w),
       Ok r).

Definition update (id : Id) (data : RefreshToken.t -> RefreshToken.t)
    : M RefreshToken.t :=
  fun w =>
    match find (fun r => N.eqb (RefreshToken.id r) id)
               (refreshTokens w) with
    | None => (w, Throw (PrismaClientKnownRequestError "P2025"))
    | Some r =>
        (with_refreshTokens
           (updateWhere (fun r => N.eqb (RefreshToken.id r) id) data
                        (refreshTokens w)) w,
         Ok (data r))
    end.

Definition updateMany (where_ : RefreshToken.t -> bool)
    (data : RefreshToken.t -> RefreshToken.t) : M nat :=
  fun w => (with_refreshTokens
              (updateWhere where_ data (refreshTokens w)) w,
            Ok (countWhere where_ (refreshTokens w))).

Definition deleteMany (where_ : RefreshToken.t -> bool) : M nat :=
  fun w => (with_refreshTokens (deleteWhere where_ (refreshTokens w)) w,
            Ok (countWhere where_ (refreshTokens w))).
End refreshToken.
End prisma.

(** ** JavaScript values the service returns *)

Inductive JsValue : Type :=
| JsNull
| JsString (s : string)
| JsBoolean (b : bool)
| JsNumber (n : Z)
| JsDate (t : Time).

(** An object literal: its own properties in creation order. *)
Definition JsObject := list (string * JsValue).

Definition getProperty (key : string) (o : JsObject) : option JsValue :=
  option_map snd (find (fun kv => String.eqb (fst kv) key) o).

(** [const { [key]: _, ...result } = o] *)
Definition omit (key : string) (o : JsObject) : JsObject :=
  filter (fun kv => negb (String.eqb (fst kv) key)) o.

Definition JsOption {A} (inj : A -> JsValue) (v : option A) : JsValue :=
  match v with Some a => inj a | None => JsNull end.

Definition roleName (r : UserRole) : string :=
  match r with ADMIN => "ADMIN" | CUSTOMER => "CUSTOMER" end.

(** The object Prisma returns for a [users] row. *)
Definition userObject (u : User.t) : JsObject :=
  [ ("id", JsNumber (Z.of_N (User.id u)));
    ("email", JsString (User.email u));
    ("password", JsString (User.password u));
    ("firstName", JsOption JsString (User.firstName u));
    ("lastName", JsOption JsString (User.lastName u));
    ("avatar", JsOption JsString (User.avatar u));
    ("role", JsString (roleName (User.role u)));
    ("isActive", JsBoolean (User.isActive u));
    ("isEmailVerified", JsBoolean (User.isEmailVerified u));
    ("emailVerificationToken", JsOption JsString (User.emailVerificationToken u));
    ("passwordResetToken", JsOption JsString (User.passwordResetToken u));
    ("passwordResetExpires", JsOption JsDate (User.passwordResetExpires u));
    ("lastLoginAt", JsOption JsDate (User.lastLoginAt u));
    ("createdAt", JsDate (User.createdAt u));
    ("updatedAt", JsDate (User.updatedAt u)) ].

(** ** [Number.prototype.toString] on integers, and the OTP draw *)

Definition digitChar (d : Z) : ascii := ascii_of_nat (48 + Z.to_nat d).

Fixpoint toDigits (fuel : nat) (n : Z) (acc : string) : string :=
  match fuel with
  | O => acc
  | S fuel' =>
      let acc' := String (digitChar (n mod 10)) acc in
      if n / 10 =? 0 then acc' else toDigits fuel' (n / 10) acc'
  end.

Definition toString (n : Z) : string :=
  if n <? 0 then String "-" (toDigits (S (Z.to_nat (Z.log2 (- n)))) (- n) "")
  else toDigits (S (Z.to_nat (Z.log2 n))) n "".

(** IEEE 754 binary64 on the values the OTP draw goes through.  A
    double that is a non-negative multiple of [2^-53] is held as its
    numerator over [2^53]; all of them here are below [2^20], so the
    numerators are below [2^73] and no exponent leaves the range. *)
Module Double.
(** The unit in the last place of [n / 2^53], as a numerator: a double
    has 53 significant bits. *)
Definition ulp (n : Z) : Z := 2 ^ Z.max 0 (Z.log2 n - 52).

(** The double nearest to [n / 2^53], ties to the even significand. *)
Definition roundTiesToEven (n : Z) : Z :=
  let u := ulp n in
  let q := n / u in
  let rest := n mod u in
  let up := (u <? 2 * rest) || ((u =? 2 * rest) && Z.odd q) in
  (if up then q + 1 else q) * u.

(** An integer below [2^53] in magnitude is a double. *)
Definition ofInteger (i : Z) : Z := i * 2 ^ 53.

(** [x * i] for an integer [i], and [x + y]: the exact result, rounded. *)
Definition mul (x i : Z) : Z := roundTiesToEven (x * i).
Definition add (x y : Z) : Z := roundTiesToEven (x + y).

(** [Math.floor] *)
Definition floor (x : Z) : Z := x / 2 ^ 53.
End Double.

(** [Math.floor(100000 + Math.random() * 900000).toString()], with
    [Math.random()] = [random / 2^53]: the product is rounded to a
    double, then the sum is. *)
Definition generateOtpCode (random : Z) : string :=
  toString
    (Double.floor
       (Double.add (Double.ofInteger 100000) (Double.mul random 900000))).

(** The same expression on the binary64 numbers of the kernel, to
    compare [Double] with. *)
Module Binary64.
Definition ofInteger (i : Z) : PrimFloat.float :=
  PrimFloat.of_uint63 (Uint63.of_Z i).

(** [Math.floor] of a non-negative finite number. *)
Definition floor (x : PrimFloat.float) : Z :=
  match FloatOps.Prim2SF x with
  | SpecFloat.S754_finite false m e =>
      if 0 <=? e then Zpos m * 2 ^ e else Zpos m / 2 ^ (- e)
  | _ => 0
  end.

Definition otpNumber (random : Z) : Z :=
  let mathRandom := FloatOps.Z.ldexp (ofInteger random) (-53) in
  floor (PrimFloat.add (ofInteger 100000)
           (PrimFloat.mul mathRandom (ofInteger 900000))).

(** [count] draws, each from the one before. *)
Fixpoint draws (count : nat) (random : Z) : list Z :=
  match count with
  | O => []
  | S count' =>
      random
      :: draws count'
           ((random * 6364136223846793005 + 1442695040888963407) mod 2 ^ 53)
  end.
End Binary64.

Definition isDigit (c : ascii) : bool :=
  let n := nat_of_ascii c in (48 <=? n)%nat && (n <=? 57)%nat.

Fixpoint allDigits (s : string) : bool :=
  match s with
  | EmptyString => true
  | String c s' => isDigit c && allDigits s'
  end.

(** The draws [Math.random()] can return: [0 <= random / 2^53 < 1]. *)
Definition validRandom (random : Z) : Prop := 0 <= random < 2 ^ 53.

(** ** Injected collaborators *)

(** The claims set of a token: [{ email, sub, role }] for an access token,
    [{ sub, type: 'refresh' }] for a refresh token. *)
Inductive JwtPayload : Type :=
| AccessClaims (email : string) (sub : Id) (role : UserRole)
| RefreshClaims (sub : Id).

(** [@nestjs/jwt]'s [JwtService]: [sign payload { expiresIn }] reads the
    clock for the [iat]/[exp] claims; [verify] returns the payload or
    throws (here [None]) on a bad signature or a passed [exp] claim. *)
Class JwtService : Type := {
  sign : JwtPayload -> string -> Time -> string;
  verify : string -> Time -> option JwtPayload
}.

(** [bcryptjs]: [hash plain rounds] and [compare plain hashed]. *)
Class Bcrypt : Type := {
  bcrypt_hash : string -> Z -> string;
  bcrypt_compare : string -> string -> bool
}.

(** Modelled from the spec: [RegisterDto] of [dto/auth.dto.ts], which is
    not among the sources; the register input is "email, password, name
    fields". *)
Record RegisterDto : Type := mkRegisterDto {
  dto_email : string;
  dto_password : string;
  dto_firstName : option string;
  dto_lastName : option string
}.

(** Modelled from the spec: [ChangePasswordDto] of [dto/auth.dto.ts], the
    inputs "currentPassword, newPassword" of the change-password call. *)
Record ChangePasswordDto : Type := mkChangePasswordDto {
  currentPassword : string;
  newPassword : string
}.

(** ** [EmailService] *)

Module emailService.
(** [this.transporter.sendMail(mailOptions)] *)
Definition sendMail (env : Env) (m : Mail) : M unit :=
  fun w =>
    if smtpUp env then (with_outbox (outbox w ++ [m]) w, Ok tt)
    else (w, Throw (Error "SMTP transport error")).

Definition sendVerificationOtp (env : Env) (email otpCode : string)
    : M unit :=
  try_catch (sendMail env (mkMail email "Verify Your Email Address" otpCode))
    (fun _ => throw (Error "Failed to send verification email")).

Definition sendPasswordResetOtp (env : Env) (email otpCode : string)
    : M unit :=
  try_catch (sendMail env (mkMail email "Reset Your Password" otpCode))
    (fun _ => throw (Error "Failed to send password reset email")).

Definition sendOtpEmail (env : Env) (email otpCode : string) : M unit :=
  try_catch (sendMail env (mkMail email "Your OTP Code" otpCode))
    (fun _ => throw (Error "Failed to send OTP email")).
End emailService.

(** ** [AuthService] *)

(** The [user] object of a login response. *)
Record SessionUser : Type := mkSessionUser {
  su_id : Id;
  su_email : string;
  su_firstName : option string;
  su_lastName : option string;
  su_role : UserRole;
  su_isEmailVerified : bool
}.

Record Session : Type := mkSession {
  access_token : string;
  refresh_token : string;
  session_user : SessionUser
}.

Record TokenPair : Type := mkTokenPair {
  pair_access_token : string;
  pair_refresh_token : string
}.

Record Registered : Type := mkRegistered {
  reg_message : string;
  reg_user : JsObject
}.

Definition TEN_MINUTES : Z := 600000.

(** [const expiresAt = new Date();
     expiresAt.setDate(expiresAt.getDate() + 7)]: the same local time of
    day seven calendar days later, in the host's time zone. *)
Definition sevenDaysFromNow (env : Env) : Time :=
  Date.setDate (localTZA env) (now env)
    (Date.getDate (localTZA env) (now env) + 7).

(** The [where] clauses of the OTP look-ups. *)
Definition typedOtpWhere (userId : Id) (otpCode : string) (type : OtpType)
    (now : Time) (o : Otp.t) : bool :=
  N.eqb (Otp.userId o) userId && String.eqb (Otp.code o) otpCode
  && OtpType_eqb (Otp.type o) type && negb (Otp.isUsed o)
  && (Otp.expiresAt o >? now).

Definition anyOtpWhere (userId : Id) (otpCode : string) (now : Time)
    (o : Otp.t) : bool :=
  N.eqb (Otp.userId o) userId && String.eqb (Otp.code o) otpCode
  && negb (Otp.isUsed o) && (Otp.expiresAt o >? now).

Section AuthService.
Context {jwtService : JwtService} {bcrypt : Bcrypt}.

Definition validateUser (email password : string) : M (option JsObject) :=
  user <- prisma.user.findUnique (fun u => String.eqb (User.email u) email) ;;
  match user with
  | Some user =>
      if bcrypt_compare password (User.password user)
      then ret (Some (omit "password" (userObject user)))
      else ret None
  | None => ret None
  end.

Definition login (env : Env) (user : User.t)
    (userAgent ipAddress : option string) : M Session :=
  let payload := AccessClaims (User.email user) (User.id user)
                              (User.role user) in
  let accessToken := sign payload "1d" (now env) in
  let refreshTokenString :=
    sign (RefreshClaims (User.id user)) "7d" (now env) in
  let expiresAt := sevenDaysFromNow env in
  prisma.refreshToken.create (now env) refreshTokenString (User.id user)
    expiresAt userAgent ipAddress ;;
  ret (mkSession accessToken refreshTokenString
         (mkSessionUser (User.id user) (User.email user)
            (User.firstName user) (User.lastName user) (User.role user)
            (User.isEmailVerified user))).

Definition register (env : Env) (createUserDto : RegisterDto)
    : M Registered :=
  existingUser <- prisma.user.findUnique
    (fun u => String.eqb (User.email u) (dto_email createUserDto)) ;;
  match existingUser with
  | Some _ => throw (UnauthorizedException "User already exists")
  | None =>
      let hashedPassword := bcrypt_hash (dto_password createUserDto) 10 in
      user <- prisma.user.create (now env) (dto_email createUserDto)
                hashedPassword (dto_firstName createUserDto)
                (dto_lastName createUserDto) ;;
      let otpCode := generateOtpCode (random env) in
      let expiresAt := now env + TEN_MINUTES in
      prisma.otp.create (now env) otpCode expiresAt VERIFICATION
        (User.id user) ;;
      emailService.sendVerificationOtp env (User.email user) otpCode ;;
      ret (mkRegistered
             "User registered successfully. Please check your email for the verification code."
             (omit "password" (userObject user)))
  end.

Definition verifyEmail (env : Env) (email otpCode : string) : M string :=
  user <- prisma.user.findUnique (fun u => String.eqb (User.email u) email) ;;
  match user with
  | None => throw (NotFoundException "User not found")
  | Some user =>
      if User.isEmailVerified user
      then throw (BadRequestException "Email is already verified")
      else
        otp <- prisma.otp.findFirst
                 (typedOtpWhere (User.id user) otpCode VERIFICATION (now env)) ;;
        match otp with
        | None =>
            throw (BadRequestException "Invalid or expired verification code")
        | Some otp =>
            prisma.otp.update (Otp.id otp) (Otp.set_isUsed true) ;;
            prisma.user.update (now env) (User.id user)
              (User.set_isEmailVerified true) ;;
            ret "Email verified successfully"
        end
  end.

Definition resendVerificationEmail (env : Env) (email : string)
    : M string :=
  user <- prisma.user.findUnique (fun u => String.eqb (User.email u) email) ;;
  match user with
  | None => throw (NotFoundException "User not found")
  | Some user =>
      if User.isEmailVerified user
      then throw (BadRequestException "Email is already verified")
      else
        prisma.otp.updateMany
          (fun o => N.eqb (Otp.userId o) (User.id user)
                    && OtpType_eqb (Otp.type o) VERIFICATION
                    && negb (Otp.isUsed o))
          (Otp.set_isUsed true) ;;
        let otpCode := generateOtpCode (random env) in
        let expiresAt := now env + TEN_MINUTES in
        prisma.otp.create (now env) otpCode expiresAt VERIFICATION
          (User.id user) ;;
        emailService.sendVerificationOtp env email otpCode ;;
        ret "Verification code sent successfully"
  end.

Definition forgotPassword (env : Env) (email : string) : M string :=
  user <- prisma.user.findUnique (fun u => String.eqb (User.email u) email) ;;
  match user with
  | None =>
      ret "If an account with that email exists, we have sent a password reset code."
  | Some user =>
      prisma.otp.updateMany
        (fun o => N.eqb (Otp.userId o) (User.id user)
                  && OtpType_eqb (Otp.type o) PASSWORD_RESET
                  && negb (Otp.isUsed o))
        (Otp.set_isUsed true) ;;
      let otpCode := generateOtpCode (random env) in
      let expiresAt := now env + TEN_MINUTES in
      prisma.otp.create (now env) otpCode expiresAt PASSWORD_RESET
        (User.id user) ;;
      emailService.sendPasswordResetOtp env email otpCode ;;
      ret "If an account with that email exists, we have sent a password reset code."
  end.

Definition resetPassword (env : Env) (email otpCode newPassword : string)
    : M string :=
  user <- prisma.user.findUnique (fun u => String.eqb (User.email u) email) ;;
  match user with
  | None => throw (BadRequestException "User not found")
  | Some user =>
      otp <- prisma.otp.findFirst
               (typedOtpWhere (User.id user) otpCode PASSWORD_RESET (now env)) ;;
      match otp with
      | None => throw (BadRequestException "Invalid or expired reset code")
      | Some otp =>
          prisma.otp.update (Otp.id otp) (Otp.set_isUsed true) ;;
          let hashedPassword := bcrypt_hash newPassword 10 in
          prisma.user.update (now env) (User.id user)
            (User.set_password hashedPassword) ;;
          ret "Password reset successfully"
      end
  end.

Definition changePassword (env : Env) (userId : Id)
    (changePasswordDto : ChangePasswordDto) : M string :=
  user <- prisma.user.findUnique (fun u => N.eqb (User.id u) userId) ;;
  match user with
  | None => throw (NotFoundException "User not found")
  | Some user =>
      if bcrypt_compare (currentPassword changePasswordDto)
                        (User.password user)
      then
        let hashedNewPassword :=
          bcrypt_hash (newPassword changePasswordDto) 10 in
        prisma.user.update (now env) userId
          (User.set_password hashedNewPassword) ;;
        ret "Password changed successfully"
      else throw (BadRequestException "Current password is incorrect")
  end.

Definition sendOtp (env : Env) (email : string) : M string :=
  user <- prisma.user.findUnique (fun u => String.eqb (User.email u) email) ;;
  match user with
  | None => throw (NotFoundException "User not found")
  | Some user =>
      let otpCode := generateOtpCode (random env) in
      let expiresAt := now env + TEN_MINUTES in
      prisma.otp.updateMany
        (fun o => N.eqb (Otp.userId o) (User.id user)
                  && negb (Otp.isUsed o))
        (Otp.set_isUsed true) ;;
      prisma.otp.create (now env) otpCode expiresAt LOGIN (User.id user) ;;
      emailService.sendOtpEmail env email otpCode ;;
      ret "OTP sent successfully"
  end.

Definition verifyOtp (env : Env) (email otpCode : string)
    (userAgent ipAddress : option string) : M Session :=
  user <- prisma.user.findUnique (fun u => String.eqb (User.email u) email) ;;
  match user with
  | None => throw (NotFoundException "User not found")
  | Some user =>
      otp <- prisma.otp.findFirst
               (anyOtpWhere (User.id user) otpCode (now env)) ;;
      match otp with
      | None => throw (BadRequestException "Invalid or expired OTP")
      | Some otp =>
          prisma.otp.update (Otp.id otp) (Otp.set_isUsed true) ;;
          prisma.user.update (now env) (User.id user)
            (User.set_lastLoginAt (now env)) ;;
          login env user userAgent ipAddress
      end
  end.

Definition cleanupExpiredOtps (env : Env) : M string :=
  count <- prisma.otp.deleteMany
    (fun o => (Otp.expiresAt o <? now env)
              || (Otp.isUsed o && (Otp.createdAt o <? now env - 86400000))) ;;
  ret ("Cleaned up " ++ toString (Z.of_nat count) ++ " expired OTPs").

Definition findById (id : Id) : M (option JsObject) :=
  user <- prisma.user.findUnique (fun u => N.eqb (User.id u) id) ;;
  match user with
  | None => ret None
  | Some user => ret (Some (omit "password" (userObject user)))
  end.

Definition refreshAccessToken (env : Env) (refreshToken : string)
    (userAgent ipAddress : option string) : M TokenPair :=
  match verify refreshToken (now env) with
  | None => throw (UnauthorizedException "Invalid or expired refresh token")
  | Some _payload =>
      storedToken <- prisma.refreshToken.findUnique refreshToken ;;
      match storedToken with
      | None => throw (UnauthorizedException "Refresh token not found")
      | Some storedToken =>
          if RefreshToken.isRevoked storedToken
          then throw (UnauthorizedException "Refresh token has been revoked")
          else if RefreshToken.expiresAt storedToken <? now env
          then throw (UnauthorizedException "Refresh token has expired")
          else
            (* include: { user: true } *)
            storedUser <- prisma.user.findUnique
              (fun u => N.eqb (User.id u) (RefreshToken.userId storedToken)) ;;
            match storedUser with
            | None =>
                throw (TypeError "Cannot read properties of null (reading 'email')")
            | Some storedUser =>
                let accessTokenPayload :=
                  AccessClaims (User.email storedUser) (User.id storedUser)
                               (User.role storedUser) in
                let newAccessToken :=
                  sign accessTokenPayload "1d" (now env) in
                let newRefreshToken :=
                  sign (RefreshClaims (User.id storedUser)) "7d" (now env) in
                prisma.refreshToken.update (RefreshToken.id storedToken)
                  (RefreshToken.set_isRevoked true) ;;
                let expiresAt := sevenDaysFromNow env in
                prisma.refreshToken.create (now env) newRefreshToken
                  (User.id storedUser) expiresAt userAgent ipAddress ;;
                ret (mkTokenPair newAccessToken newRefreshToken)
            end
      end
  end.

Definition revokeRefreshToken (refreshToken : string) : M string :=
  storedToken <- prisma.refreshToken.findUnique refreshToken ;;
  match storedToken with
  | None => throw (NotFoundException "Refresh token not found")
  | Some storedToken =>
      prisma.refreshToken.update (RefreshToken.id storedToken)
        (RefreshToken.set_isRevoked true) ;;
      ret "Refresh token revoked successfully"
  end.

Definition revokeAllUserRefreshTokens (userId : Id) : M string :=
  prisma.refreshToken.updateMany
    (fun r => N.eqb (RefreshToken.userId r) userId
              && negb (RefreshToken.isRevoked r))
    (RefreshToken.set_isRevoked true) ;;
  ret "All refresh tokens revoked successfully".

Definition cleanupExpiredRefreshTokens (env : Env) : M string :=
  count <- prisma.refreshToken.deleteMany
    (fun r => (RefreshToken.expiresAt r <? now env)
              || (RefreshToken.isRevoked r
                  && (RefreshToken.createdAt r <? now env - 2592000000))) ;;
  ret ("Cleaned up " ++ toString (Z.of_nat count) ++ " expired refresh tokens").
End AuthService.

(** ** A concrete signer and hasher, to run the service on examples

    [jsonwebtoken] keeps [iat] and [exp] in whole seconds and its HMAC is
    a function of the claims, so a token is determined by its claims and
    the second it was signed in.  The signature itself is stood for by
    the algorithm tag: a string verifies when it carries the tag, parses
    as a claims set and its [exp] second has not been reached. *)

Module jsonwebtoken.
Definition timespan (expiresIn : string) : Z :=
  if String.eqb expiresIn "1d" then 86400
  else if String.eqb expiresIn "7d" then 604800
  else 0.

Fixpoint join (sep : string) (parts : list string) : string :=
  match parts with
  | [] => ""
  | [p] => p
  | p :: rest => p ++ sep ++ join sep rest
  end.

Fixpoint split (sep : ascii) (s : string) : list string :=
  match s with
  | EmptyString => [EmptyString]
  | String c s' =>
      if Ascii.eqb c sep then EmptyString :: split sep s'
      else match split sep s' with
           | [] => [String c EmptyString]
           | h :: t => String c h :: t
           end
  end.

Fixpoint parseDigits (s : string) (acc : Z) : option Z :=
  match s with
  | EmptyString => Some acc
  | String c s' =>
      if isDigit c
      then parseDigits s' (10 * acc + (Z.of_nat (nat_of_ascii c) - 48))
      else None
  end.

Definition parseInt (s : string) : option Z :=
  match s with
  | EmptyString => None
  | _ => parseDigits s 0
  end.

Definition parseRole (s : string) : option UserRole :=
  if String.eqb s "ADMIN" then Some ADMIN
  else if String.eqb s "CUSTOMER" then Some CUSTOMER
  else None.

Definition claims (p : JwtPayload) : list string :=
  match p with
  | AccessClaims email sub role =>
      ["access"; email; toString (Z.of_N sub); roleName role]
  | RefreshClaims sub => ["refresh"; toString (Z.of_N sub)]
  end.

Definition sign (p : JwtPayload) (expiresIn : string) (now : Time)
    : string :=
  let iat := now / 1000 in
  join "|" (["HS256"] ++ claims p
            ++ [toString iat; toString (iat + timespan expiresIn)]).

Definition notExpired (now : Time) (exp : string) : bool :=
  match parseInt exp with
  | Some exp => now / 1000 <? exp
  | None => false
  end.

Definition verify (token : string) (now : Time) : option JwtPayload :=
  match split "|" token with
  | [alg; kind; sub; _iat; exp] =>
      if String.eqb alg "HS256" && String.eqb kind "refresh"
         && notExpired now exp
      then option_map (fun s => RefreshClaims (Z.to_N s)) (parseInt sub)
      else None
  | [alg; kind; email; sub; role; _iat; exp] =>
      if String.eqb alg "HS256" && String.eqb kind "access"
         && notExpired now exp
      then match parseInt sub, parseRole role with
           | Some s, Some r => Some (AccessClaims email (Z.to_N s) r)
           | _, _ => None
           end
      else None
  | _ => None
  end.

Definition service : JwtService := Build_JwtService sign verify.
End jsonwebtoken.

Module bcryptjs.
Definition hash (plain : string) (rounds : Z) : string :=
  "$2a$" ++ toString rounds ++ "$" ++ plain.
Definition compare (plain hashed : string) : bool :=
  String.eqb hashed (hash plain 10).
Definition service : Bcrypt := Build_Bcrypt hash compare.
End bcryptjs.

(** ** Predicates of the specification *)

(** An OTP row is valid at [now]: unused and not yet expired. *)
Definition validOtp (now : Time) (o : Otp.t) : bool :=
  negb (Otp.isUsed o) && (Otp.expiresAt o >? now).

Definition validOtpOf (userId : Id) (type : OtpType) (now : Time)
    (o : Otp.t) : bool :=
  N.eqb (Otp.userId o) userId && OtpType_eqb (Otp.type o) type
  && validOtp now o.

(** At most one valid OTP per user and type at time [now]. *)
Definition atMostOneValidOtp (now : Time) (w : World) : Prop :=
  forall userId type,
    (countWhere (validOtpOf userId type now) (otps w) <= 1)%nat.

(** What the store guarantees: keys come from the sequence, and an OTP or
    a refresh token belongs to a stored user (foreign keys, cascade). *)
Definition userIds (w : World) : list Id := map User.id (users w).

Record integrity (w : World) : Prop := mkIntegrity {
  user_keys : forall i, In i (userIds w) -> (i < nextId w)%N;
  otp_owner : forall o, In o (otps w) -> In (Otp.userId o) (userIds w);
  token_owner : forall r, In r (refreshTokens w) ->
                  In (RefreshToken.userId r) (userIds w)
}.

(** Serving took [w] to [w'] and kept what the store guarantees and, at
    every instant, the bound on valid OTPs. *)
Definition keepsOtpInvariant (w w' : World) : Prop :=
  integrity w ->
  integrity w'
  /\ forall t, atMostOneValidOtp t w -> atMostOneValidOtp t w'.

(** Some stored OTP row matches the look-up of a validation: same user,
    same code, unused, expiring strictly after [now] and, on a type-scoped
    path, of that type. *)
Definition otpMatches (w : World) (userId : Id) (otpCode : string)
    (scope : option OtpType) (now : Time) : Prop :=
  exists o, In o (otps w)
    /\ Otp.userId o = userId /\ Otp.code o = otpCode
    /\ Otp.isUsed o = false /\ Otp.expiresAt o > now
    /\ match scope with Some type => Otp.type o = type | None => True end.

(** [o] is the only unused row of the user that carries the code. *)
Definition soleUnusedOtp (w : World) (userId : Id) (otpCode : string)
    (o : Otp.t) : Prop :=
  forall o', In o' (otps w) ->
    Otp.userId o' = userId -> Otp.code o' = otpCode ->
    Otp.isUsed o' = false -> o' = o.

(** The world after the OTP row [o] was consumed and the row of user
    [userId] rewritten by [data]. *)
Definition afterValidation (w : World) (now : Time) (o : Otp.t) (userId : Id)
    (data : User.t -> User.t) : World :=
  mkWorld
    (updateWhere (fun u => N.eqb (User.id u) userId)
                 (fun u => User.touch now (data u)) (users w))
    (updateWhere (fun x => N.eqb (Otp.id x) (Otp.id o))
                 (Otp.set_isUsed true) (otps w))
    (refreshTokens w) (nextId w) (outbox w).

(** The [where] clause of the bulk revocation. *)
Definition ownedAndLive (userId : Id) (r : RefreshToken.t) : bool :=
  N.eqb (RefreshToken.userId r) userId && negb (RefreshToken.isRevoked r).

(** The refresh-token string is not stored yet. *)
Definition freshToken (token : string) (w : World) : Prop :=
  forall r, In r (refreshTokens w) -> RefreshToken.token r <> token.

Definition storedToken (w : World) (token : string) : option RefreshToken.t :=
  find (fun r => String.eqb (RefreshToken.token r) token) (refreshTokens w).

Definition userByEmail (w : World) (email : string) : option User.t :=
  find (fun u => String.eqb (User.email u) email) (users w).

(** The row [include: { user: true }] joins to a refresh token. *)
Definition userById (w : World) (id : Id) : option User.t :=
  find (fun u => N.eqb (User.id u) id) (users w).

(** The rows the issuing calls insert. *)
Definition newUserRow (w : World) (env : Env) (dto : RegisterDto)
    (hashedPassword : string) : User.t :=
  User.mk (nextId w) (dto_email dto) hashedPassword (dto_firstName dto)
    (dto_lastName dto) None CUSTOMER true false None None None None
    (now env) (now env).

Definition newOtpRow (env : Env) (id : Id) (type : OtpType) (userId : Id)
    : Otp.t :=
  Otp.mk id (generateOtpCode (random env)) (now env + TEN_MINUTES) false
    type (now env) userId.

Definition REGISTERED_MESSAGE : string :=
  "User registered successfully. Please check your email for the verification code.".

Definition GENERIC_RESET_MESSAGE : string :=
  "If an account with that email exists, we have sent a password reset code.".

(** ** The public operations as requests, and the states they reach *)

Inductive Request : Type :=
| Login (email password : string) (userAgent ipAddress : option string)
| Register (dto : RegisterDto)
| VerifyEmail (email otpCode : string)
| ResendVerification (email : string)
| ForgotPassword (email : string)
| ResetPassword (email otpCode newPassword : string)
| ChangePassword (userId : Id) (dto : ChangePasswordDto)
| SendOtp (email : string)
| VerifyOtp (email otpCode : string) (userAgent ipAddress : option string)
| RefreshTokenRequest (refreshToken : string)
                      (userAgent ipAddress : option string)
| Logout (refreshToken : string)
| LogoutAll (userId : Id)
| CleanupExpiredOtps
| CleanupExpiredRefreshTokens.

Section Requests.
Context {jwtService : JwtService} {bcrypt : Bcrypt}.

(** The world after serving a request (whatever the outcome).  The
    password login goes through [LocalAuthGuard]: the row found by
    [validateUser]'s look-up is handed to [login] when the password
    matches. *)
Definition serve (env : Env) (rq : Request) (w : World) : World :=
  match rq with
  | Login email password ua ip =>
      match userByEmail w email with
      | Some u =>
          if bcrypt_compare password (User.password u)
          then fst (login env u ua ip w) else w
      | None => w
      end
  | Register dto => fst (register env dto w)
  | VerifyEmail email otpCode => fst (verifyEmail env email otpCode w)
  | ResendVerification email => fst (resendVerificationEmail env email w)
  | ForgotPassword email => fst (forgotPassword env email w)
  | ResetPassword email otpCode newPassword =>
      fst (resetPassword env email otpCode newPassword w)
  | ChangePassword userId dto => fst (changePassword env userId dto w)
  | SendOtp email => fst (sendOtp env email w)
  | VerifyOtp email otpCode ua ip =>
      fst (verifyOtp env email otpCode ua ip w)
  | RefreshTokenRequest token ua ip =>
      fst (refreshAccessToken env token ua ip w)
  | Logout token => fst (revokeRefreshToken token w)
  | LogoutAll userId => fst (revokeAllUserRefreshTokens userId w)
  | CleanupExpiredOtps => fst (cleanupExpiredOtps env w)
  | CleanupExpiredRefreshTokens => fst (cleanupExpiredRefreshTokens env w)
  end.

Inductive reachable : World -> Prop :=
  | reachable_initial : reachable initialWorld
  | reachable_serve env rq w :
      reachable w -> reachable (serve env rq w).
End Requests.

(** ** A small run of the service, for the worked examples

    Alice registers at 1.5 s (the draw gives the code 101233), logs in
    with that code at 2.5 s and so holds the refresh token [R1], signed in
    second 2 and stored, on a host on UTC, with [expiresAt] = 2.5 s + 7
    days. *)

Module Example.
Definition jwt : JwtService := jsonwebtoken.service.
Definition bc : Bcrypt := bcryptjs.service.

(** A host on UTC. *)
Definition utc (t : Time) (isUTC : bool) : Z := 0.

Definition online (t : Time) : Env := mkEnv t 12345678901234 true utc.
Definition offline (t : Time) : Env := mkEnv t 12345678901234 false utc.

Definition alice : RegisterDto :=
  mkRegisterDto "a@x.com" "Pw1@aaaa" (Some "Alice") None.
Definition code : string := "101233".

Definition registered : World :=
  fst (register (bcrypt := bc) (online 1500) alice initialWorld).

Definition loggedIn : World :=
  fst (verifyOtp (jwtService := jwt) (online 2500) "a@x.com" code None None
         registered).

Definition R1 : string := "HS256|refresh|0|2|604802".

Definition aliceRow : User.t :=
  User.mk 0%N "a@x.com" "$2a$10$Pw1@aaaa" (Some "Alice") None None CUSTOMER
    true false None None None (Some 2500) 1500 2500.

Definition R1Row : RefreshToken.t :=
  RefreshToken.mk 2%N R1 604802500 false None None 2500 0%N.

Definition codeRow : Otp.t :=
  Otp.mk 1%N code 601500 false VERIFICATION 1500 0%N.

(** Alice's row as [register] stored it. *)
Definition newAliceRow : User.t :=
  User.mk 0%N "a@x.com" "$2a$10$Pw1@aaaa" (Some "Alice") None None CUSTOMER
    true false None None None None 1500 1500.

(** [R1] was rotated at 5 s. *)
Definition rotated : World :=
  fst (refreshAccessToken (jwtService := jwt) (online 5000) R1 None None
         loggedIn).

(** A store whose row for [R1] expired at 3 s. *)
Definition stale : World :=
  with_refreshTokens
    [RefreshToken.mk 2%N R1 3000 false None None 2500 0%N] loggedIn.

(** The PASSWORD_RESET row of [twoCodes] below. *)
Definition resetRow : Otp.t :=
  Otp.mk 3%N code 604000 false PASSWORD_RESET 4000 0%N.
Definition loginRow : Otp.t :=
  Otp.mk 2%N code 603000 false LOGIN 3000 0%N.

(** Alice after [sendOtp] at 3 s and [forgotPassword] at 4 s with the same
    draw: a LOGIN and a PASSWORD_RESET row, both unused, same code. *)
Definition twoCodes : World :=
  fst (forgotPassword (online 4000) "a@x.com"
         (fst (sendOtp (online 3000) "a@x.com" registered))).


(** Central European time around the change of 29 March 2026, 01:00 UTC
    (1774746000000): one hour ahead of UTC before it, two hours after.
    A local time in the hour that is skipped takes the offset before
    the change. *)
Definition berlin (t : Time) (isUTC : bool) : Z :=
  if isUTC
  then if t <? 1774746000000 then 3600000 else 7200000
  else if t <? 1774746000000 + 7200000 then 3600000 else 7200000.

(** 25 March 2026, 12:00 UTC, on a host in that zone. *)
Definition march25 : Env := mkEnv 1774440000000 12345678901234 true berlin.

(** Alice after a password login on that host. *)
Definition berlinSession : World :=
  fst (login (jwtService := jwt) march25 newAliceRow None None registered).
End Example.

(** ** The response layer: values, envelope helpers, interceptor, filter

    [ResponseHelper], [ResponseInterceptor] and [GlobalExceptionFilter]
    work on arbitrary values ([T], [any], [unknown]); these are the
    JavaScript values with nesting. *)

Module Js.
Unset Elimination Schemes.
Inductive any : Type :=
| undefined
| null
| boolean (b : bool)
| number (n : Z)
| str (s : string)
| array (items : list any)
| object (fields : list (string * any)).
Set Elimination Schemes.

(** [ToBoolean]: what [data && ...] and [a || b] test. *)
Definition truthy (v : any) : bool :=
  match v with
  | undefined | null => false
  | boolean b => b
  | number n => negb (n =? 0)
  | str s => negb (String.eqb s "")
  | array _ | object _ => true
  end.

(** [key in o] on the fields of an object literal. *)
Definition hasField (key : string) (fields : list (string * any)) : bool :=
  existsb (fun kv => String.eqb (fst kv) key) fields.

(** [o[key]] on the fields of an object literal. *)
Definition field (key : string) (fields : list (string * any)) : any :=
  match find (fun kv => String.eqb (fst kv) key) fields with
  | Some kv => snd kv
  | None => undefined
  end.

(** [v.key], for the values that carry none of the keys read here
    ([undefined] on a primitive or an array). *)
Definition get (key : string) (v : any) : any :=
  match v with
  | object fields => field key fields
  | _ => undefined
  end.

(** [a || b] *)
Definition or (a b : any) : any := if truthy a then a else b.
End Js.

Definition Js_ofOption {A} (inj : A -> Js.any) (v : option A) : Js.any :=
  match v with Some a => inj a | None => Js.null end.

Definition Js_ofValue (v : JsValue) : Js.any :=
  match v with
  | JsNull => Js.null
  | JsString s => Js.str s
  | JsBoolean b => Js.boolean b
  | JsNumber n => Js.number n
  | JsDate t => Js.number t
  end.

Definition Js_ofObject (o : JsObject) : Js.any :=
  Js.object (map (fun kv => (fst kv, Js_ofValue (snd kv))) o).

(** [req.user.key]: the property, [undefined] when the object has none. *)
Definition Js_read (key : string) (o : JsObject) : Js.any :=
  match getProperty key o with
  | Some v => Js_ofValue v
  | None => Js.undefined
  end.

Definition DEFAULT_MESSAGE : string := "Request completed successfully".

(** [ResponseHelper]: an omitted [message] takes the default, an omitted
    [meta] or [details] is [undefined]. *)
Module ResponseHelper.
Definition success (data : Js.any) (message : option string) (meta : Js.any)
    : Js.any :=
  Js.object
    [ ("status", Js.str "success");
      ("message", Js.str (match message with
                          | Some m => m
                          | None => DEFAULT_MESSAGE
                          end));
      ("data", data);
      ("meta", meta) ].

Definition error (message : string) (code : Z) (details : Js.any) : Js.any :=
  Js.object
    [ ("status", Js.str "error");
      ("message", Js.str message);
      ("data", Js.null);
      ("error", Js.object [("code", Js.number code); ("details", details)]) ].

Definition paginated (data : list Js.any) (total page limit : Z)
    (message : option string) : Js.any :=
  Js.object
    [ ("status", Js.str "success");
      ("message", Js.str (match message with
                          | Some m => m
                          | None => DEFAULT_MESSAGE
                          end));
      ("data", Js.array data);
      ("meta", Js.object [ ("total", Js.number total);
                           ("page", Js.number page);
                           ("limit", Js.number limit) ]) ].
End ResponseHelper.

Module ResponseInterceptor.
(** [typeof data === 'object'] *)
Definition isObjectType (data : Js.any) : bool :=
  match data with
  | Js.null | Js.array _ | Js.object _ => true
  | _ => false
  end.

(** ['key' in data], on a value of object type: an array has neither
    of the two keys tested. *)
Definition has (key : string) (data : Js.any) : bool :=
  match data with
  | Js.object fields => Js.hasField key fields
  | _ => false
  end.

(** The function [intercept] maps over the handler's result. *)
Definition intercept (data : Js.any) : Js.any :=
  if Js.truthy data && isObjectType data && has "status" data
     && has "message" data
  then data
  else Js.object
         [ ("status", Js.str "success");
           ("message", Js.str DEFAULT_MESSAGE);
           ("data", data) ].
End ResponseInterceptor.

Module GlobalExceptionFilter.
(** What [catch] can be handed: an [HttpException] with its status, its
    [getResponse()] (a string or an object) and its [message]; another
    [Error] with its [message] and [stack]; or any other thrown value. *)
Inductive Thrown : Type :=
| HttpException (status : Z) (response : string + list (string * Js.any))
                (message : string)
| OtherError (message : string) (stack : Js.any)
| NotAnError (value : Js.any).

Definition INTERNAL_SERVER_ERROR : Z := 500.

(** [catch]: the status given to [response.status] and the body given to
    [json]; [nodeEnv] is [process.env.NODE_ENV]. *)
Definition catch (nodeEnv : option string) (exception : Thrown)
    : Z * Js.any :=
  let '(status, message, details) :=
    match exception with
    | HttpException status exceptionResponse exceptionMessage =>
        match exceptionResponse with
        | inl text => (status, Js.str text, Js.null)
        | inr fields =>
            (status,
             Js.or (Js.field "message" fields) (Js.str exceptionMessage),
             Js.object fields)
        end
    | OtherError exceptionMessage stack =>
        (INTERNAL_SERVER_ERROR, Js.str exceptionMessage,
         Js.object
           [("stack",
             match nodeEnv with
             | Some e => if String.eqb e "development" then stack else Js.null
             | None => Js.null
             end)])
    | NotAnError _ =>
        (INTERNAL_SERVER_ERROR, Js.str "Internal server error", Js.null)
    end in
  (status,
   Js.object
     [ ("status", Js.str "error");
       ("message", message);
       ("data", Js.null);
       ("error", Js.object [("code", Js.number status);
                            ("details", details)]) ]).
End GlobalExceptionFilter.

(** ** [AuthController]

    The handlers after the pipes and guards: a body arrives validated, and
    [req.user] is what the guard attached.  A service result
    [{ message }] is the object with that one property. *)

Definition messageObject (message : string) : Js.any :=
  Js.object [("message", Js.str message)].

Definition sessionUserObject (u : SessionUser) : Js.any :=
  Js.object
    [ ("id", Js.number (Z.of_N (su_id u)));
      ("email", Js.str (su_email u));
      ("firstName", Js_ofOption Js.str (su_firstName u));
      ("lastName", Js_ofOption Js.str (su_lastName u));
      ("role", Js.str (roleName (su_role u)));
      ("isEmailVerified", Js.boolean (su_isEmailVerified u)) ].

Definition sessionObject (s : Session) : Js.any :=
  Js.object
    [ ("access_token", Js.str (access_token s));
      ("refresh_token", Js.str (refresh_token s));
      ("user", sessionUserObject (session_user s)) ].

Definition tokenPairObject (p : TokenPair) : Js.any :=
  Js.object
    [ ("access_token", Js.str (pair_access_token p));
      ("refresh_token", Js.str (pair_refresh_token p)) ].

Definition registeredObject (r : Registered) : Js.any :=
  Js.object
    [ ("message", Js.str (reg_message r));
      ("user", Js_ofObject (reg_user r)) ].

Module AuthController.
Section Handlers.
Context {jwtService : JwtService} {bcrypt : Bcrypt}.

Definition login (env : Env) (reqUser : User.t)
    (userAgent ipAddress : option string) : M Js.any :=
  result <- login env reqUser userAgent ipAddress ;;
  ret (ResponseHelper.success (sessionObject result) (Some "Login successful")
         Js.undefined).

Definition register (env : Env) (registerDto : RegisterDto) : M Js.any :=
  result <- register env registerDto ;; ret (registeredObject result).

Definition verifyEmail (env : Env) (email otpCode : string) : M Js.any :=
  result <- verifyEmail env email otpCode ;; ret (messageObject result).

Definition resendVerificationEmail (env : Env) (email : string)
    : M Js.any :=
  result <- resendVerificationEmail env email ;; ret (messageObject result).

Definition forgotPassword (env : Env) (email : string) : M Js.any :=
  result <- forgotPassword env email ;; ret (messageObject result).

Definition resetPassword (env : Env) (email otpCode newPassword : string)
    : M Js.any :=
  result <- resetPassword env email otpCode newPassword ;;
  ret (messageObject result).

Definition changePassword (env : Env) (reqUserId : Id)
    (changePasswordDto : ChangePasswordDto) : M Js.any :=
  result <- changePassword env reqUserId changePasswordDto ;;
  ret (messageObject result).

Definition sendOtp (env : Env) (email : string) : M Js.any :=
  result <- sendOtp env email ;; ret (messageObject result).

Definition verifyOtp (env : Env) (email otpCode : string)
    (userAgent ipAddress : option string) : M Js.any :=
  result <- verifyOtp env email otpCode userAgent ipAddress ;;
  ret (sessionObject result).

Definition getProfile (reqUser : JsObject) : Js.any :=
  let userProfile :=
    Js.object
      [ ("id", Js_read "id" reqUser);
        ("email", Js_read "email" reqUser);
        ("firstName", Js_read "firstName" reqUser);
        ("lastName", Js_read "lastName" reqUser);
        ("role", Js_read "role" reqUser);
        ("isActive", Js_read "isActive" reqUser);
        ("avatar", Js_read "avatar" reqUser);
        ("createdAt", Js_read "createdAt" reqUser) ] in
  ResponseHelper.success userProfile (Some "Profile retrieved successfully")
    Js.undefined.

Definition refreshToken (env : Env) (refresh_token : string)
    (userAgent ipAddress : option string) : M Js.any :=
  result <- refreshAccessToken env refresh_token userAgent ipAddress ;;
  ret (ResponseHelper.success (tokenPairObject result)
         (Some "Token refreshed successfully") Js.undefined).

Definition logout (refresh_token : string) : M Js.any :=
  result <- revokeRefreshToken refresh_token ;; ret (messageObject result).

Definition logoutAll (reqUserId : Id) : M Js.any :=
  result <- revokeAllUserRefreshTokens reqUserId ;;
  ret (messageObject result).
End Handlers.
End AuthController.

(** What the client receives for a handler's result: the interceptor's
    image of a returned value. *)
Definition respond (r : Result Js.any) : Result Js.any :=
  match r with
  | Ok data => Ok (ResponseInterceptor.intercept data)
  | Throw e => Throw e
  end.

(** [handler] is [service] with its returned value turned into [toJs]:
    same writes, same exception. *)
Definition handlerOf {A} (toJs : A -> Js.any) (service : M A)
    (handler : M Js.any) : Prop :=
  forall w,
    handler w
    = (fst (service w),
       match snd (service w) with
       | Ok a => Ok (toJs a)
       | Throw e => Throw e
       end).

(** The envelope the interceptor builds around [data]. *)
Definition wrapped (data : Js.any) : Js.any :=
  Js.object
    [ ("status", Js.str "success");
      ("message", Js.str DEFAULT_MESSAGE);
      ("data", data) ].

(** ** The seed script

    [main] of the seed script: two [prisma.user.upsert] calls keyed by
    email, each with [update: {}].  The [console.log] lines write to no
    table and are left out. *)

Module seed.
Section Seed.
Context {bcrypt : Bcrypt}.

(** [prisma.user.upsert({ where: { email }, update: {}, create })]: the
    row found by email is returned as it is (an update without data
    writes nothing, not even [updatedAt]); otherwise the row is created
    with the columns given and the defaults of the table. *)
Definition upsert (now : Time) (email password : string)
    (firstName lastName : option string) (role : UserRole)
    (isEmailVerified isActive : bool) : M User.t :=
  fun w =>
    match find (fun u => String.eqb (User.email u) email) (users w) with
    | Some u => (w, Ok u)
    | None =>
        let u := User.mk (nextId w) email password firstName lastName
                   None role isActive isEmailVerified None None None None
                   now now in
        (with_nextId (N.succ (nextId w)) (with_users (users w ++ [u]) w),
         Ok u)
    end.

Definition main (env : Env) : M unit :=
  let adminPassword := bcrypt_hash "Admin@123" 10 in
  admin <- upsert (now env) "admin@example.com" adminPassword
             (Some "Admin") (Some "User") ADMIN true true ;;
  let customerPassword := bcrypt_hash "Customer@123" 10 in
  customer <- upsert (now env) "customer@example.com" customerPassword
                (Some "John") (Some "Doe") CUSTOMER true true ;;
  ret tt.
End Seed.
End seed.

(** ** How rows change from one store to the next *)

(** Every OTP row of [l'] is a row of [l], as it was or marked used, or a
    row inserted unused under a key of the sequence from [next] on. *)
Definition otpRowsEvolve (next : Id) (l l' : list Otp.t) : Prop :=
  forall o', In o' l' ->
    (exists o, In o l /\ (o' = o \/ o' = Otp.set_isUsed true o))
    \/ (Otp.isUsed o' = false /\ (next <= Otp.id o')%N).

(** Every refresh-token row of [l'] is a row of [l], as it was or
    revoked, or a row inserted unrevoked under a key from [next] on. *)
Definition tokenRowsEvolve (next : Id) (l l' : list RefreshToken.t) : Prop :=
  forall r', In r' l' ->
    (exists r, In r l /\ (r' = r \/ r' = RefreshToken.set_isRevoked true r))
    \/ (RefreshToken.isRevoked r' = false /\ (next <= RefreshToken.id r')%N).

(** The [where] clauses of the two purges. *)
Definition otpPurge (env : Env) (o : Otp.t) : bool :=
  (Otp.expiresAt o <? now env)
  || (Otp.isUsed o && (Otp.createdAt o <? now env - 86400000)).

Definition tokenPurge (env : Env) (r : RefreshToken.t) : bool :=
  (RefreshToken.expiresAt r <? now env)
  || (RefreshToken.isRevoked r
      && (RefreshToken.createdAt r <? now env - 2592000000)).

Definition rowsEvolve (w w' : World) : Prop :=
  otpRowsEvolve (nextId w) (otps w) (otps w')
  /\ tokenRowsEvolve (nextId w) (refreshTokens w) (refreshTokens w').

(** A hash made with the 10 rounds the service asks for compares equal
    to its plain text. *)
Definition bcryptVerifies (bcrypt : Bcrypt) : Prop :=
  forall plain, bcrypt_compare plain (bcrypt_hash plain 10) = true.

(** * Properties *)

(** ** Seven calendar days from now *)

Lemma MonthFromTime_range t : 0 <= Date.MonthFromTime t <= 11.
Proof.
  unfold Date.MonthFromTime.
  repeat match goal with
         | |- context [if ?b then _ else _] => destruct b
         end; lia.
Qed.

(** Setting the day of the month to the current one plus [days] moves
    the local time by whole days; the way back to UTC takes the offset
    in force at the new local time. *)
Lemma setDate_getDate tz t days :
  Date.setDate tz t (Date.getDate tz t + days)
  = Date.UTC tz (Date.LocalTime tz t + days * Date.msPerDay).
Proof.
  unfold Date.setDate, Date.getDate. set (l := Date.LocalTime tz t).
  f_equal. unfold Date.MakeDate, Date.MakeDay, Date.DateFromTime.
  pose proof (MonthFromTime_range l) as Hm.
  rewrite (Z.div_small (Date.MonthFromTime l) 12) by lia.
  rewrite (Z.mod_small (Date.MonthFromTime l) 12) by lia.
  rewrite Z.add_0_r. fold (Date.InLeapYear l).
  unfold Date.DayWithinYear, Date.TimeWithinDay, Date.Day.
  pose proof (Z.div_mod l Date.msPerDay ltac:(discriminate)) as Hd.
  lia.
Qed.

Lemma sevenDaysFromNow_local env :
  sevenDaysFromNow env
  = Date.UTC (localTZA env)
      (Date.LocalTime (localTZA env) (now env) + 604800000).
Proof. unfold sevenDaysFromNow. now rewrite setDate_getDate. Qed.

(** When the offset at the new local time is the offset now, the expiry
    is 604800000 ms away; otherwise it is off by the difference of the
    two offsets. *)
Lemma sevenDaysFromNow_offsets env :
  sevenDaysFromNow env
  = now env + 604800000
    + (localTZA env (now env) true
       - localTZA env (now env + localTZA env (now env) true + 604800000)
           false).
Proof.
  rewrite sevenDaysFromNow_local. unfold Date.UTC, Date.LocalTime. lia.
Qed.

(** ** Tables: look-ups after a rewrite *)

Lemma find_none_existsb {A} (p : A -> bool) (l : list A) :
  find p l = None -> existsb p l = false.
Proof.
  induction l as [|x l IH]; simpl; [reflexivity|].
  destruct (p x); [discriminate | exact IH].
Qed.

Lemma find_none_all {A} (p : A -> bool) (l : list A) :
  find p l = None <-> (forall x, In x l -> p x = false).
Proof.
  split.
  - intros H x Hx. exact (find_none _ _ H x Hx).
  - induction l as [|x l IH]; simpl; intros H; [reflexivity|].
    rewrite (H x (or_introl eq_refl)). apply IH. intros y Hy.
    apply H. now right.
Qed.

Lemma find_some_exists {A} (p : A -> bool) (l : list A) x :
  In x l -> p x = true -> exists y, find p l = Some y.
Proof.
  intros Hin Hp. destruct (find p l) as [y|] eqn:E; [now exists y|].
  rewrite (find_none _ _ E x Hin) in Hp. discriminate.
Qed.

Lemma find_app_fresh {A} (p : A -> bool) (l : list A) x :
  find p l = None -> p x = true -> find p (l ++ [x]) = Some x.
Proof.
  induction l as [|y l IH]; simpl; intros Hn Hp.
  - now rewrite Hp.
  - destruct (p y); [discriminate | now apply IH].
Qed.

Lemma find_app_found {A} (p : A -> bool) (l l' : list A) x :
  find p l = Some x -> find p (l ++ l') = Some x.
Proof.
  induction l as [|y l IH]; simpl; [discriminate|].
  destruct (p y); [trivial | exact IH].
Qed.

(** A look-up through a column the rewrite leaves alone finds the image of
    the row it found before. *)
Lemma find_updateWhere {A} (q p : A -> bool) (f : A -> A) (l : list A) :
  (forall x, q (f x) = q x) ->
  find q (updateWhere p f l)
  = option_map (fun x => if p x then f x else x) (find q l).
Proof.
  intros Hq. induction l as [|x l IH]; simpl; [reflexivity|].
  destruct (p x) eqn:Ep.
  - rewrite Hq. destruct (q x); simpl; [now rewrite Ep | exact IH].
  - destruct (q x); simpl; [now rewrite Ep | exact IH].
Qed.

Lemma In_updateWhere {A} (p : A -> bool) (f : A -> A) (l : list A) y :
  In y (updateWhere p f l) <->
  exists x, In x l /\ y = (if p x then f x else x).
Proof.
  unfold updateWhere. rewrite in_map_iff. split.
  - intros (x & E & Hx). exists x. now split.
  - intros (x & Hx & E). exists x. now split.
Qed.

Lemma updateWhere_idempotent {A} (p : A -> bool) (f : A -> A) (l : list A) :
  (forall x, p x = true -> p (f x) = true -> f (f x) = f x) ->
  updateWhere p f (updateWhere p f l) = updateWhere p f l.
Proof.
  intros Hf. unfold updateWhere. rewrite map_map. apply map_ext.
  intros x. destruct (p x) eqn:Ep; [|now rewrite Ep].
  destruct (p (f x)) eqn:Epf; [now apply Hf | reflexivity].
Qed.

Lemma updateWhere_id {A} (p : A -> bool) (f : A -> A) (l : list A) :
  (forall x, In x l -> p x = true -> f x = x) -> updateWhere p f l = l.
Proof.
  intros H. unfold updateWhere. rewrite <- (map_id l) at 2.
  apply map_ext_in. intros x Hx. destruct (p x) eqn:Ep; [now apply H | easy].
Qed.

Lemma countWhere_app {A} (p : A -> bool) (l l' : list A) :
  countWhere p (l ++ l') = (countWhere p l + countWhere p l')%nat.
Proof. unfold countWhere. now rewrite filter_app, length_app. Qed.

Lemma countWhere_zero {A} (p : A -> bool) (l : list A) :
  (forall x, In x l -> p x = false) -> countWhere p l = 0%nat.
Proof.
  unfold countWhere. induction l as [|x l IH]; simpl; intros H; [reflexivity|].
  rewrite (H x (or_introl eq_refl)). apply IH. intros y Hy. apply H. now right.
Qed.

(** Marking rows can only take rows out of a count the mark falsifies. *)
Lemma countWhere_updateWhere_le {A} (q p : A -> bool) (f : A -> A)
    (l : list A) :
  (forall x, q (f x) = true -> q x = true) ->
  (countWhere q (updateWhere p f l) <= countWhere q l)%nat.
Proof.
  intros Hq. unfold countWhere, updateWhere.
  induction l as [|x l IH]; simpl; [lia|].
  destruct (p x).
  - destruct (q (f x)) eqn:E.
    + rewrite (Hq x E). simpl. lia.
    + destruct (q x); simpl; lia.
  - destruct (q x); simpl; lia.
Qed.

Lemma countWhere_deleteWhere_le {A} (q p : A -> bool) (l : list A) :
  (countWhere q (deleteWhere p l) <= countWhere q l)%nat.
Proof.
  unfold countWhere, deleteWhere.
  induction l as [|x l IH]; simpl; [lia|].
  destruct (p x); simpl; destruct (q x); simpl; lia.
Qed.

(** Unfolds one call of the service down to the table operations. *)
Ltac run :=
  unfold bind, ret, throw, try_catch,
    prisma.user.findUnique, prisma.user.create, prisma.user.update,
    prisma.otp.findFirst, prisma.otp.create, prisma.otp.update,
    prisma.otp.updateMany, prisma.otp.deleteMany,
    prisma.refreshToken.findUnique, prisma.refreshToken.create,
    prisma.refreshToken.update, prisma.refreshToken.updateMany,
    prisma.refreshToken.deleteMany,
    emailService.sendVerificationOtp, emailService.sendPasswordResetOtp,
    emailService.sendOtpEmail, emailService.sendMail,
    storedToken, userByEmail, userById in *.

Section RefreshTokens.
Context {jwtService : JwtService}.

Lemma find_by_id_of_token w token r :
  storedToken w token = Some r ->
  exists r0, find (fun x => N.eqb (RefreshToken.id x) (RefreshToken.id r))
                  (refreshTokens w) = Some r0.
Proof.
  intros H. apply find_some in H as [Hin _].
  apply (find_some_exists _ _ _ Hin). apply N.eqb_refl.
Qed.

Lemma refresh_rejects_unverified env token ua ip w :
  verify token (now env) = None ->
  refreshAccessToken env token ua ip w
  = (w, Throw (UnauthorizedException "Invalid or expired refresh token")).
Proof. intros H. unfold refreshAccessToken. now rewrite H. Qed.

Lemma refresh_rejects_revoked env token ua ip w r :
  verify token (now env) <> None ->
  storedToken w token = Some r ->
  RefreshToken.isRevoked r = true ->
  refreshAccessToken env token ua ip w
  = (w, Throw (UnauthorizedException "Refresh token has been revoked")).
Proof.
  intros Hv Hs Hr. unfold refreshAccessToken. run.
  destruct (verify token (now env)); [|congruence]. now rewrite Hs, Hr.
Qed.

(** C2. [refreshAccessToken] rejects, in this order: a token whose
    signature or expiry claim does not verify (invalid), a verified token
    with no stored row (not found), a stored row that is revoked
    (revoked), a stored row whose [expiresAt] is before now (expired);
    every rejection is an [UnauthorizedException] and leaves the store
    as it was, so no token is issued. *)
Theorem refreshAccessToken_rejections env token ua ip w :
  (verify token (now env) = None ->
     refreshAccessToken env token ua ip w
     = (w, Throw (UnauthorizedException "Invalid or expired refresh token")))
  /\ (verify token (now env) <> None ->
      storedToken w token = None ->
      refreshAccessToken env token ua ip w
      = (w, Throw (UnauthorizedException "Refresh token not found")))
  /\ (forall r,
      verify token (now env) <> None ->
      storedToken w token = Some r ->
      RefreshToken.isRevoked r = true ->
      refreshAccessToken env token ua ip w
      = (w, Throw (UnauthorizedException "Refresh token has been revoked")))
  /\ (forall r,
      verify token (now env) <> None ->
      storedToken w token = Some r ->
      RefreshToken.isRevoked r = false ->
      RefreshToken.expiresAt r < now env ->
      refreshAccessToken env token ua ip w
      = (w, Throw (UnauthorizedException "Refresh token has expired"))).
Proof.
  unfold refreshAccessToken. run.
  repeat split.
  - intros ->. reflexivity.
  - intros Hv Hs. destruct (verify token (now env)); [|congruence].
    now rewrite Hs.
  - intros r Hv Hs Hr. destruct (verify token (now env)); [|congruence].
    now rewrite Hs, Hr.
  - intros r Hv Hs Hr He. destruct (verify token (now env)); [|congruence].
    rewrite Hs, Hr. apply Z.ltb_lt in He. now rewrite He.
Qed.

(** *** Logout from one device *)

Lemma with_refreshTokens_twice l l' w :
  with_refreshTokens l (with_refreshTokens l' w) = with_refreshTokens l w.
Proof. reflexivity. Qed.

Lemma revokeRefreshToken_found token w r :
  storedToken w token = Some r ->
  revokeRefreshToken token w
  = (with_refreshTokens
       (updateWhere (fun x => N.eqb (RefreshToken.id x) (RefreshToken.id r))
                    (RefreshToken.set_isRevoked true) (refreshTokens w)) w,
     Ok "Refresh token revoked successfully").
Proof.
  intros H. destruct (find_by_id_of_token _ _ _ H) as [r0 Hr0].
  unfold revokeRefreshToken. run. rewrite H. simpl. now rewrite Hr0.
Qed.

Lemma storedToken_after_revoke token w r :
  storedToken w token = Some r ->
  storedToken
    (with_refreshTokens
       (updateWhere (fun x => N.eqb (RefreshToken.id x) (RefreshToken.id r))
                    (RefreshToken.set_isRevoked true) (refreshTokens w)) w)
    token
  = Some (RefreshToken.set_isRevoked true r).
Proof.
  intros H. unfold storedToken in *. simpl.
  rewrite find_updateWhere by reflexivity.
  rewrite H. simpl. now rewrite N.eqb_refl.
Qed.

(** C10. Logout on a token whose row exists succeeds with the success
    message, also when the row is already revoked; only a token with no
    stored row gives the not-found error.  The row is revoked afterwards
    (an already revoked row is found unchanged), and a second logout
    returns the same message and leaves the store as the first left it. *)
Theorem revokeRefreshToken_idempotent token w :
  (storedToken w token = None ->
     revokeRefreshToken token w
     = (w, Throw (NotFoundException "Refresh token not found")))
  /\ (forall r, storedToken w token = Some r ->
      let w' := fst (revokeRefreshToken token w) in
      snd (revokeRefreshToken token w)
      = Ok "Refresh token revoked successfully"
      /\ storedToken w' token = Some (RefreshToken.set_isRevoked true r)
      /\ (RefreshToken.isRevoked r = true -> storedToken w' token = Some r)
      /\ revokeRefreshToken token w'
         = (w', Ok "Refresh token revoked successfully")).
Proof.
  split.
  - intros H. unfold revokeRefreshToken. run. now rewrite H.
  - intros r H. cbv zeta. rewrite (revokeRefreshToken_found _ _ _ H). simpl.
    pose proof (storedToken_after_revoke _ _ _ H) as H'.
    repeat split.
    + exact H'.
    + intros Hr. rewrite H'. f_equal. destruct r; simpl in *. now subst.
    + rewrite (revokeRefreshToken_found _ _ _ H'). simpl.
      rewrite with_refreshTokens_twice. do 2 f_equal.
      apply updateWhere_idempotent. reflexivity.
Qed.

(** *** Logout from all devices *)

Lemma revokeAll_world userId w :
  revokeAllUserRefreshTokens userId w
  = (with_refreshTokens
       (updateWhere (ownedAndLive userId) (RefreshToken.set_isRevoked true)
                    (refreshTokens w)) w,
     Ok "All refresh tokens revoked successfully").
Proof. reflexivity. Qed.

Lemma refresh_of_revoked_row env token ua ip w r :
  storedToken w token = Some r ->
  RefreshToken.isRevoked r = true ->
  exists m, refreshAccessToken env token ua ip w
            = (w, Throw (UnauthorizedException m)).
Proof.
  intros Hs Hr. destruct (verify token (now env)) eqn:Ev.
  - eexists. apply (refresh_rejects_revoked env token ua ip w r);
      [congruence | exact Hs | exact Hr].
  - eexists. now apply refresh_rejects_unverified.
Qed.

(** C8. [revokeAllUserRefreshTokens] answers with its message and leaves
    every refresh token of the user revoked (rows of other users and rows
    already revoked are untouched); a token that had a row of that user
    before the call cannot refresh afterwards, at any time and whatever
    its signature; and running the call twice gives the same store as
    running it once. *)
Theorem revokeAllUserRefreshTokens_idempotent userId w :
  let w' := fst (revokeAllUserRefreshTokens userId w) in
  snd (revokeAllUserRefreshTokens userId w)
  = Ok "All refresh tokens revoked successfully"
  /\ refreshTokens w'
     = map (fun r => if N.eqb (RefreshToken.userId r) userId
                     then RefreshToken.set_isRevoked true r else r)
           (refreshTokens w)
  /\ (forall r, In r (refreshTokens w') -> RefreshToken.userId r = userId ->
       RefreshToken.isRevoked r = true)
  /\ (forall env token ua ip r,
       storedToken w token = Some r -> RefreshToken.userId r = userId ->
       exists m, refreshAccessToken env token ua ip w'
                 = (w', Throw (UnauthorizedException m)))
  /\ fst (revokeAllUserRefreshTokens userId w') = w'.
Proof.
  cbv zeta. rewrite revokeAll_world. simpl.
  assert (Hrows : forall r, In r (updateWhere (ownedAndLive userId)
                     (RefreshToken.set_isRevoked true) (refreshTokens w)) ->
                   RefreshToken.userId r = userId ->
                   RefreshToken.isRevoked r = true).
  { intros r Hin Hu. apply In_updateWhere in Hin as (x & _ & ->).
    unfold ownedAndLive in *.
    destruct (N.eqb (RefreshToken.userId x) userId) eqn:Eu,
             (RefreshToken.isRevoked x) eqn:Ex; simpl in *;
      try reflexivity; try assumption.
    apply N.eqb_neq in Eu. contradiction. }
  repeat split.
  - unfold updateWhere. apply map_ext. intros r. unfold ownedAndLive.
    destruct (N.eqb (RefreshToken.userId r) userId); simpl; [|reflexivity].
    destruct (RefreshToken.isRevoked r) eqn:Er; simpl; [|reflexivity].
    destruct r; simpl in *. now subst.
  - exact Hrows.
  - intros env token ua ip r Hs Hu.
    apply refresh_of_revoked_row
      with (r := if ownedAndLive userId r
                 then RefreshToken.set_isRevoked true r else r).
    + unfold storedToken in *. simpl.
      rewrite find_updateWhere by reflexivity. now rewrite Hs.
    + apply Hrows.
      * apply In_updateWhere. exists r. split; [|reflexivity].
        unfold storedToken in Hs. now apply find_some in Hs.
      * now destruct (ownedAndLive userId r).
  - unfold with_refreshTokens. simpl.
    f_equal. apply updateWhere_idempotent. reflexivity.
Qed.
(** *** Rotation *)

Lemma freshToken_find token w :
  freshToken token w <-> storedToken w token = None.
Proof.
  unfold freshToken, storedToken. rewrite find_none_all. split.
  - intros H r Hr. apply String.eqb_neq. now apply H.
  - intros H r Hr. apply String.eqb_neq. now apply H.
Qed.

Lemma freshToken_after_update token w p f :
  (forall r, RefreshToken.token (f r) = RefreshToken.token r) ->
  freshToken token w ->
  freshToken token (with_refreshTokens (updateWhere p f (refreshTokens w)) w).
Proof.
  intros Hf H r Hr. simpl in Hr. apply In_updateWhere in Hr as (x & Hx & ->).
  destruct (p x); [rewrite Hf|]; now apply H.
Qed.

(** The world a successful rotation leaves. *)
Lemma refreshAccessToken_accepted env token ua ip w r u :
  verify token (now env) <> None ->
  storedToken w token = Some r ->
  RefreshToken.isRevoked r = false ->
  now env <= RefreshToken.expiresAt r ->
  userById w (RefreshToken.userId r) = Some u ->
  freshToken (sign (RefreshClaims (User.id u)) "7d" (now env)) w ->
  refreshAccessToken env token ua ip w
  = (mkWorld (users w) (otps w)
       (updateWhere (fun x => N.eqb (RefreshToken.id x) (RefreshToken.id r))
                    (RefreshToken.set_isRevoked true) (refreshTokens w)
        ++ [RefreshToken.mk (nextId w)
              (sign (RefreshClaims (User.id u)) "7d" (now env))
              (sevenDaysFromNow env) false ua ip (now env) (User.id u)])
       (N.succ (nextId w)) (outbox w),
     Ok (mkTokenPair
           (sign (AccessClaims (User.email u) (User.id u) (User.role u))
                 "1d" (now env))
           (sign (RefreshClaims (User.id u)) "7d" (now env)))).
Proof.
  intros Hv Hs Hr He Hu Hfresh.
  destruct (find_by_id_of_token _ _ _ Hs) as [r0 Hr0].
  pose proof (freshToken_after_update _ w
                (fun x => N.eqb (RefreshToken.id x) (RefreshToken.id r))
                (RefreshToken.set_isRevoked true)
                (fun x => eq_refl) Hfresh) as Hfresh'.
  apply freshToken_find in Hfresh'. apply find_none_existsb in Hfresh'.
  unfold refreshAccessToken. run.
  destruct (verify token (now env)); [|congruence].
  rewrite Hs, Hr. apply Z.ltb_ge in He. rewrite He.
  rewrite Hu. rewrite Hr0. simpl in *. rewrite Hfresh'. reflexivity.
Qed.

(** C1 (as amended). A refresh token that verifies and whose stored row
    is present, not revoked and not expired is rotated: the call returns
    a newly signed access token and refresh token, the presented row is
    revoked and the new refresh token is stored, expiring at the same
    local time of day seven calendar days later in the host's time zone
    (604800000 ms later when the zone's offset is then what it is now,
    and off by the difference of the two offsets otherwise), provided the
    owner row exists and the newly signed string is not stored already.
    Presenting the old token again is refused with an
    [UnauthorizedException] and changes nothing; presenting the new one,
    while it verifies and is not past that stored expiry, succeeds. *)
Theorem refreshAccessToken_rotation env token ua ip w r u :
  verify token (now env) <> None ->
  storedToken w token = Some r ->
  RefreshToken.isRevoked r = false ->
  now env <= RefreshToken.expiresAt r ->
  userById w (RefreshToken.userId r) = Some u ->
  let access2 :=
    sign (AccessClaims (User.email u) (User.id u) (User.role u))
         "1d" (now env) in
  let refresh2 := sign (RefreshClaims (User.id u)) "7d" (now env) in
  freshToken refresh2 w ->
  let w' := fst (refreshAccessToken env token ua ip w) in
  snd (refreshAccessToken env token ua ip w)
  = Ok (mkTokenPair access2 refresh2)
  /\ refresh2 <> token
  /\ storedToken w' token = Some (RefreshToken.set_isRevoked true r)
  /\ storedToken w' refresh2
     = Some (RefreshToken.mk (nextId w) refresh2 (sevenDaysFromNow env)
               false ua ip (now env) (User.id u))
  /\ (forall env' ua' ip',
        exists m, refreshAccessToken env' token ua' ip' w'
                  = (w', Throw (UnauthorizedException m)))
  /\ (forall env' ua' ip',
        verify refresh2 (now env') <> None ->
        now env' <= sevenDaysFromNow env ->
        freshToken (sign (RefreshClaims (User.id u)) "7d" (now env')) w' ->
        isOk (snd (refreshAccessToken env' refresh2 ua' ip' w')) = true)
  /\ sevenDaysFromNow env
     = now env + 604800000
       + (localTZA env (now env) true
          - localTZA env (now env + localTZA env (now env) true + 604800000)
              false).
Proof.
  intros Hv Hs Hr He Hu access2 refresh2 Hfresh w'.
  pose proof (refreshAccessToken_accepted env token ua ip w r u Hv Hs Hr He Hu Hfresh)
    as Hrun.
  subst w'. rewrite Hrun. cbn [fst snd].
  assert (Hold : storedToken
            (mkWorld (users w) (otps w)
               (updateWhere
                  (fun x => N.eqb (RefreshToken.id x) (RefreshToken.id r))
                  (RefreshToken.set_isRevoked true) (refreshTokens w)
                ++ [RefreshToken.mk (nextId w) refresh2
                      (sevenDaysFromNow env) false ua ip (now env)
                      (User.id u)])
               (N.succ (nextId w)) (outbox w)) token
          = Some (RefreshToken.set_isRevoked true r)).
  { unfold storedToken. cbn [refreshTokens]. apply find_app_found.
    exact (storedToken_after_revoke _ _ _ Hs). }
  assert (Hnew : storedToken
            (mkWorld (users w) (otps w)
               (updateWhere
                  (fun x => N.eqb (RefreshToken.id x) (RefreshToken.id r))
                  (RefreshToken.set_isRevoked true) (refreshTokens w)
                ++ [RefreshToken.mk (nextId w) refresh2
                      (sevenDaysFromNow env) false ua ip (now env)
                      (User.id u)])
               (N.succ (nextId w)) (outbox w)) refresh2
          = Some (RefreshToken.mk (nextId w) refresh2 (sevenDaysFromNow env)
                    false ua ip (now env) (User.id u))).
  { unfold storedToken. cbn [refreshTokens]. apply find_app_fresh.
    - apply (freshToken_find refresh2
               (with_refreshTokens
                  (updateWhere
                     (fun x => N.eqb (RefreshToken.id x) (RefreshToken.id r))
                     (RefreshToken.set_isRevoked true) (refreshTokens w)) w)).
      now apply freshToken_after_update.
    - cbn. apply String.eqb_refl. }
  split; [reflexivity|].
  split; [|split; [exact Hold|split; [exact Hnew|split; [|split]]]].
  4: apply sevenDaysFromNow_offsets.
  - apply find_some in Hs as [Hin Heq]. apply String.eqb_eq in Heq.
    intros E. apply (Hfresh r Hin). congruence.
  - intros env' ua' ip'. now apply refresh_of_revoked_row with (1 := Hold).
  - intros env' ua' ip' Hv' He' Hfresh'.
    erewrite refreshAccessToken_accepted with (u := u);
      [reflexivity | exact Hv' | exact Hnew | reflexivity | exact He'
      | | exact Hfresh'].
    unfold userById in *. cbn [users RefreshToken.userId].
    pose proof (find_some _ _ Hu) as [_ Hid]. apply N.eqb_eq in Hid.
    now rewrite Hid.
Qed.

End RefreshTokens.

(** ** The six-digit code *)

Lemma isDigit_digitChar d : 0 <= d < 10 -> isDigit (digitChar d) = true.
Proof.
  intros H.
  assert (E : d = 0 \/ d = 1 \/ d = 2 \/ d = 3 \/ d = 4 \/ d = 5 \/ d = 6
              \/ d = 7 \/ d = 8 \/ d = 9) by lia.
  repeat (destruct E as [-> | E]; [vm_compute; reflexivity|]).
  subst. vm_compute. reflexivity.
Qed.

Lemma toDigits_allDigits fuel : forall n acc,
  0 <= n -> allDigits acc = true -> allDigits (toDigits fuel n acc) = true.
Proof.
  induction fuel as [|fuel IH]; intros n acc Hn Hacc; cbn [toDigits];
    [exact Hacc|].
  assert (Hd : allDigits (String (digitChar (n mod 10)) acc) = true).
  { cbn [allDigits]. rewrite Hacc, isDigit_digitChar; [reflexivity|].
    apply Z.mod_pos_bound. lia. }
  destruct (n / 10 =? 0); [exact Hd|].
  apply IH; [apply Z.div_pos; lia | exact Hd].
Qed.

Lemma toDigits_length k : forall fuel n acc,
  10 ^ Z.of_nat k <= n < 10 ^ Z.of_nat (S k) -> (k < fuel)%nat ->
  String.length (toDigits fuel n acc) = (S k + String.length acc)%nat.
Proof.
  induction k as [|k IH]; intros fuel n acc Hn Hfuel;
    (destruct fuel as [|fuel]; [lia|]); cbn [toDigits].
  - change (10 ^ Z.of_nat 0) with 1 in Hn.
    change (10 ^ Z.of_nat 1) with 10 in Hn.
    rewrite (Z.div_small n 10) by lia. reflexivity.
  - assert (H10 : 10 ^ Z.of_nat (S k) = 10 * 10 ^ Z.of_nat k).
    { rewrite Nat2Z.inj_succ, Z.pow_succ_r by lia. reflexivity. }
    assert (H100 : 10 ^ Z.of_nat (S (S k)) = 10 * 10 ^ Z.of_nat (S k)).
    { rewrite (Nat2Z.inj_succ (S k)), Z.pow_succ_r by lia. reflexivity. }
    assert (Hpos : 0 < 10 ^ Z.of_nat k) by (apply Z.pow_pos_nonneg; lia).
    assert (Hq : 10 ^ Z.of_nat k <= n / 10 < 10 ^ Z.of_nat (S k)).
    { split.
      - apply Z.div_le_lower_bound; lia.
      - apply Z.div_lt_upper_bound; lia. }
    destruct (n / 10 =? 0) eqn:E; [apply Z.eqb_eq in E; lia|].
    rewrite (IH fuel (n / 10)); [cbn [String.length]; lia | exact Hq | lia].
Qed.

Lemma toString_six_digits n :
  100000 <= n < 1000000 ->
  String.length (toString n) = 6%nat /\ allDigits (toString n) = true.
Proof.
  intros Hn. unfold toString.
  destruct (n <? 0) eqn:E; [apply Z.ltb_lt in E; lia|].
  split.
  - rewrite (toDigits_length 5); [reflexivity | exact Hn |].
    assert (Z.log2 100000 <= Z.log2 n) by (apply Z.log2_le_mono; lia).
    change (Z.log2 100000) with 16 in H. lia.
  - apply toDigits_allDigits; [lia | reflexivity].
Qed.

(** *** The arithmetic of the draw *)

Lemma ulp_pos n : 0 < Double.ulp n.
Proof. unfold Double.ulp. apply Z.pow_pos_nonneg; lia. Qed.

(** The significand has at most 53 bits. *)
Lemma significand_bound n : 0 <= n -> n < 2 ^ 53 * Double.ulp n.
Proof.
  intros Hn. unfold Double.ulp. rewrite <- Z.pow_add_r by lia.
  destruct (Z.eq_dec n 0) as [->|Hz].
  - apply Z.pow_pos_nonneg; lia.
  - destruct (Z.log2_spec n ltac:(lia)) as [_ Hhi].
    eapply Z.lt_le_trans; [exact Hhi|].
    apply Z.pow_le_mono_r; lia.
Qed.

(** Rounding moves to one of the two neighbours, and to the lower one
    only when the rest is at most half a unit. *)
Lemma roundTiesToEven_neighbours n :
  0 <= n ->
  let u := Double.ulp n in
  (Double.roundTiesToEven n = n / u * u /\ 2 * (n mod u) <= u)
  \/ (Double.roundTiesToEven n = (n / u + 1) * u /\ u <= 2 * (n mod u)).
Proof.
  intros Hn u. unfold Double.roundTiesToEven. fold u.
  destruct (u <? 2 * (n mod u)) eqn:E1; cbn [orb].
  - right. apply Z.ltb_lt in E1. split; [reflexivity | lia].
  - apply Z.ltb_ge in E1.
    destruct (u =? 2 * (n mod u)) eqn:E2; cbn [andb].
    + apply Z.eqb_eq in E2. destruct (Z.odd (n / u)).
      * right. split; [reflexivity | lia].
      * left. split; [reflexivity | lia].
    + left. split; [reflexivity | lia].
Qed.

Lemma roundTiesToEven_le_pow n m :
  0 <= n < 2 ^ m -> 53 <= m -> 0 <= Double.roundTiesToEven n <= 2 ^ m.
Proof.
  intros [Hn Hm] H53.
  pose proof (ulp_pos n) as Hu.
  pose proof (significand_bound n Hn) as Hs.
  pose proof (Z.div_mod n (Double.ulp n) ltac:(lia)) as Hd.
  pose proof (Z.mod_pos_bound n (Double.ulp n) Hu) as Hr.
  assert (Hq : 0 <= n / Double.ulp n < 2 ^ 53).
  { split; [apply Z.div_pos; lia|].
    apply Z.div_lt_upper_bound; [exact Hu|]. lia. }
  assert (Hk : 2 ^ 53 * Double.ulp n <= 2 ^ m).
  { unfold Double.ulp. rewrite <- Z.pow_add_r by lia.
    apply Z.pow_le_mono_r; [lia|].
    destruct (Z.eq_dec n 0) as [->|Hz]; [cbn; lia|].
    assert (Z.log2 n < m) by (apply Z.log2_lt_pow2; lia). lia. }
  destruct (roundTiesToEven_neighbours n Hn) as [[-> _]|[-> _]]; nia.
Qed.

(** In the binade of [2^c], the unit is [2^(c - 52)]. *)
Lemma ulp_in_binade n c :
  52 <= c -> 2 ^ c <= n < 2 ^ (c + 1) -> Double.ulp n = 2 ^ (c - 52).
Proof.
  intros Hc Hn. unfold Double.ulp.
  assert (Hl : Z.log2 n = c).
  { apply Z.log2_unique; [lia|]. now rewrite <- Z.add_1_r. }
  rewrite Hl. now rewrite Z.max_r by lia.
Qed.

(** The product: below 900000 by at least one unit of the top binade. *)
Lemma product_bound random :
  0 <= random < 2 ^ 53 ->
  0 <= Double.mul random 900000 <= 900000 * 2 ^ 53 - 2 ^ 20.
Proof.
  intros Hr. unfold Double.mul.
  destruct (Z_lt_le_dec (random * 900000) (2 ^ 72)) as [Hlow|Htop].
  - pose proof (roundTiesToEven_le_pow (random * 900000) 72
                  ltac:(lia) ltac:(lia)) as H.
    change (2 ^ 72) with 4722366482869645213696 in *.
    change (2 ^ 53) with 9007199254740992 in *.
    change (2 ^ 20) with 1048576. lia.
  - assert (Hn : 0 <= random * 900000) by lia.
    assert (Hu : Double.ulp (random * 900000) = 2 ^ 20).
    { apply (ulp_in_binade _ 72); [lia|].
      change (2 ^ 72) with 4722366482869645213696 in *.
      change (2 ^ (72 + 1)) with 9444732965739290427392.
      change (2 ^ 53) with 9007199254740992 in *. lia. }
    pose proof (roundTiesToEven_neighbours _ Hn) as H. cbv zeta in H.
    rewrite Hu in H.
    change (2 ^ 72) with 4722366482869645213696 in *.
    change (2 ^ 53) with 9007199254740992 in *.
    change (2 ^ 20) with 1048576 in *.
    pose proof (Z.div_mod (random * 900000) 1048576 ltac:(lia)) as Hd.
    pose proof (Z.mod_pos_bound (random * 900000) 1048576 ltac:(lia)) as Hm.
    destruct H as [[-> H]|[-> H]]; lia.
Qed.

(** The sum stays in [100000, 1000000). *)
Lemma sum_in_binade n c u :
  52 <= c -> 2 ^ c <= n < 2 ^ (c + 1) -> 2 ^ (c - 52) = u ->
  0 < u ->
  (Double.roundTiesToEven n = n / u * u /\ 2 * (n mod u) <= u)
  \/ (Double.roundTiesToEven n = (n / u + 1) * u /\ u <= 2 * (n mod u)).
Proof.
  intros Hc Hb <- Hu.
  rewrite <- (ulp_in_binade n c Hc Hb).
  apply roundTiesToEven_neighbours.
  assert (0 < 2 ^ c) by (apply Z.pow_pos_nonneg; lia). lia.
Qed.

Lemma sum_bound p :
  0 <= p <= 900000 * 2 ^ 53 - 2 ^ 20 ->
  100000 * 2 ^ 53 <= Double.add (Double.ofInteger 100000) p
                  < 1000000 * 2 ^ 53.
Proof.
  intros Hp. unfold Double.add, Double.ofInteger.
  change (2 ^ 53) with 9007199254740992 in *.
  change (2 ^ 20) with 1048576 in *.
  set (n := 100000 * 9007199254740992 + p).
  assert (Hn : 590295810358705651712 <= n < 9444732965739290427392)
    by (subst n; lia).
  assert (H : exists u,
             (u = 131072 \/ u = 262144 \/ u = 524288 \/ u = 1048576)
             /\ ((Double.roundTiesToEven n = n / u * u
                  /\ 2 * (n mod u) <= u)
                 \/ (Double.roundTiesToEven n = (n / u + 1) * u
                     /\ u <= 2 * (n mod u)))).
  { destruct (Z_lt_le_dec n 1180591620717411303424).
    { exists 131072. split; [tauto|].
      apply (sum_in_binade n 69); [lia | | reflexivity | lia].
      change (2 ^ 69) with 590295810358705651712.
      change (2 ^ (69 + 1)) with 1180591620717411303424. lia. }
    destruct (Z_lt_le_dec n 2361183241434822606848).
    { exists 262144. split; [tauto|].
      apply (sum_in_binade n 70); [lia | | reflexivity | lia].
      change (2 ^ 70) with 1180591620717411303424.
      change (2 ^ (70 + 1)) with 2361183241434822606848. lia. }
    destruct (Z_lt_le_dec n 4722366482869645213696).
    { exists 524288. split; [tauto|].
      apply (sum_in_binade n 71); [lia | | reflexivity | lia].
      change (2 ^ 71) with 2361183241434822606848.
      change (2 ^ (71 + 1)) with 4722366482869645213696. lia. }
    exists 1048576. split; [tauto|].
    apply (sum_in_binade n 72); [lia | | reflexivity | lia].
    change (2 ^ 72) with 4722366482869645213696.
    change (2 ^ (72 + 1)) with 9444732965739290427392. lia. }
  destruct H as (u & Hu & H).
  assert (Hd : n = u * (n / u) + n mod u) by (apply Z.div_mod; lia).
  assert (Hm : 0 <= n mod u < u) by (apply Z.mod_pos_bound; lia).
  assert (Hn' : n = 100000 * 9007199254740992 + p) by reflexivity.
  clearbody n.
  destruct Hu as [-> | [-> | [-> | ->]]]; destruct H as [[-> H] | [-> H]];
    lia.
Qed.

Lemma otp_number_range random :
  0 <= random < 2 ^ 53 ->
  100000
  <= Double.floor
       (Double.add (Double.ofInteger 100000) (Double.mul random 900000))
  < 1000000.
Proof.
  intros Hr. pose proof (sum_bound _ (product_bound random Hr)) as H.
  unfold Double.floor. split.
  - apply Z.div_le_lower_bound; lia.
  - apply Z.div_lt_upper_bound; lia.
Qed.

Lemma generateOtpCode_six_digits random :
  validRandom random ->
  String.length (generateOtpCode random) = 6%nat
  /\ allDigits (generateOtpCode random) = true.
Proof.
  intros Hr. apply toString_six_digits. now apply otp_number_range.
Qed.

(** ** Registration and password-reset requests *)

Section Registration.
Context {bcrypt : Bcrypt}.

Lemma register_new_email env dto w :
  userByEmail w (dto_email dto) = None ->
  let u := newUserRow w env dto (bcrypt_hash (dto_password dto) 10) in
  let o := newOtpRow env (N.succ (nextId w)) VERIFICATION (nextId w) in
  register env dto w
  = (mkWorld (users w ++ [u]) (otps w ++ [o]) (refreshTokens w)
       (N.succ (N.succ (nextId w)))
       (if smtpUp env
        then outbox w ++ [mkMail (dto_email dto) "Verify Your Email Address"
                            (generateOtpCode (random env))]
        else outbox w),
     if smtpUp env
     then Ok (mkRegistered REGISTERED_MESSAGE (omit "password" (userObject u)))
     else Throw (Error "Failed to send verification email")).
Proof.
  intros H. cbv zeta. unfold register. run. rewrite H.
  rewrite (find_none_existsb _ _ H). cbn.
  destruct (smtpUp env); reflexivity.
Qed.

Lemma register_known_email env dto w :
  userByEmail w (dto_email dto) <> None ->
  register env dto w = (w, Throw (UnauthorizedException "User already exists")).
Proof.
  intros H. unfold register. run.
  destruct (find _ (users w)); [reflexivity | congruence].
Qed.

(** C5 (as amended). [register] rejects an email that is already stored
    with an [UnauthorizedException] (status 401, "User already exists")
    and writes nothing.  Otherwise it stores an unverified user with the
    hashed password and a VERIFICATION OTP of six decimal digits expiring
    ten minutes after the call; when the transport accepts the mail the
    code is sent to the user's address and the call returns the user
    object without its [password] property. *)
Theorem register_contract env dto w :
  validRandom (random env) ->
  (userByEmail w (dto_email dto) <> None ->
     register env dto w
     = (w, Throw (UnauthorizedException "User already exists"))
     /\ getStatus (UnauthorizedException "User already exists") = 401)
  /\ (userByEmail w (dto_email dto) = None ->
      let w' := fst (register env dto w) in
      let u := newUserRow w env dto (bcrypt_hash (dto_password dto) 10) in
      let code := generateOtpCode (random env) in
      let o := Otp.mk (N.succ (nextId w)) code (now env + 600000) false
                 VERIFICATION (now env) (User.id u) in
      users w' = (users w ++ [u])%list
      /\ User.isEmailVerified u = false
      /\ User.password u = bcrypt_hash (dto_password dto) 10
      /\ otps w' = (otps w ++ [o])%list
      /\ String.length code = 6%nat /\ allDigits code = true
      /\ (smtpUp env = true ->
          outbox w'
          = (outbox w
             ++ [mkMail (dto_email dto) "Verify Your Email Address" code])%list
          /\ snd (register env dto w)
             = Ok (mkRegistered REGISTERED_MESSAGE
                     (omit "password" (userObject u)))
          /\ getProperty "password" (omit "password" (userObject u)) = None
          /\ getProperty "email" (omit "password" (userObject u))
             = Some (JsString (dto_email dto)))).
Proof.
  intros Hrand. split.
  - intros H. split; [now apply register_known_email | reflexivity].
  - intros H. cbv zeta. rewrite (register_new_email env dto w H).
    cbn [fst snd users otps outbox].
    destruct (generateOtpCode_six_digits _ Hrand) as [Hlen Hdig].
    split; [reflexivity|]. do 2 (split; [reflexivity|]).
    split; [reflexivity|]. do 2 (split; [assumption|]).
    intros ->. repeat split.
Qed.
End Registration.

Lemma forgotPassword_known_email env email w u :
  userByEmail w email = Some u ->
  forgotPassword env email w
  = (mkWorld (users w)
       (updateWhere (fun o => N.eqb (Otp.userId o) (User.id u)
                              && OtpType_eqb (Otp.type o) PASSWORD_RESET
                              && negb (Otp.isUsed o))
                    (Otp.set_isUsed true) (otps w)
        ++ [newOtpRow env (nextId w) PASSWORD_RESET (User.id u)])
       (refreshTokens w) (N.succ (nextId w))
       (if smtpUp env
        then outbox w ++ [mkMail email "Reset Your Password"
                            (generateOtpCode (random env))]
        else outbox w),
     if smtpUp env then Ok GENERIC_RESET_MESSAGE
     else Throw (Error "Failed to send password reset email")).
Proof.
  intros H. unfold forgotPassword. run. rewrite H. cbn.
  destruct (smtpUp env); reflexivity.
Qed.

Lemma forgotPassword_unknown_email env email w :
  userByEmail w email = None ->
  forgotPassword env email w = (w, Ok GENERIC_RESET_MESSAGE).
Proof. intros H. unfold forgotPassword. run. now rewrite H. Qed.

(** C7 (as amended). For a stored email and an email that is not stored,
    [forgotPassword] returns the same message when the transport accepts
    the mail: the call on the unknown email always returns the generic
    text, and the call on the known email returns it exactly when the
    mail is accepted.  When the transport refuses the mail the call on
    the known email throws the mail error instead, so the two answers
    differ; any two messages that are returned are equal strings. *)
Theorem forgotPassword_same_message env1 env2 known unknown w :
  userByEmail w known <> None ->
  userByEmail w unknown = None ->
  snd (forgotPassword env2 unknown w) = Ok GENERIC_RESET_MESSAGE
  /\ (smtpUp env1 = true ->
      snd (forgotPassword env1 known w) = Ok GENERIC_RESET_MESSAGE)
  /\ (smtpUp env1 = false ->
      snd (forgotPassword env1 known w)
      = Throw (Error "Failed to send password reset email"))
  /\ (forall m1 m2,
      snd (forgotPassword env1 known w) = Ok m1 ->
      snd (forgotPassword env2 unknown w) = Ok m2 -> m1 = m2).
Proof.
  intros Hk Hu. destruct (userByEmail w known) as [u|] eqn:E; [|congruence].
  rewrite (forgotPassword_known_email env1 known w u E).
  rewrite (forgotPassword_unknown_email env2 unknown w Hu). cbn [snd].
  split; [reflexivity|]. split; [|split].
  - intros ->. reflexivity.
  - intros ->. reflexivity.
  - intros m1 m2 H1 H2. destruct (smtpUp env1); congruence.
Qed.

Section Notification.
Context {bcrypt : Bcrypt}.

(** C9. When the transport refuses the mail, [register] (on a new email)
    and [forgotPassword] (on a stored email) throw the mail error to the
    caller instead of returning their success message, although the OTP
    row they created is in the store by then; nothing was delivered. *)
Theorem mail_failure_is_raised env w :
  smtpUp env = false ->
  (forall dto, userByEmail w (dto_email dto) = None ->
     snd (register env dto w)
     = Throw (Error "Failed to send verification email")
     /\ In (newOtpRow env (N.succ (nextId w)) VERIFICATION (nextId w))
           (otps (fst (register env dto w)))
     /\ outbox (fst (register env dto w)) = outbox w)
  /\ (forall email u, userByEmail w email = Some u ->
     snd (forgotPassword env email w)
     = Throw (Error "Failed to send password reset email")
     /\ In (newOtpRow env (nextId w) PASSWORD_RESET (User.id u))
           (otps (fst (forgotPassword env email w)))
     /\ outbox (fst (forgotPassword env email w)) = outbox w).
Proof.
  intros Hdown. split.
  - intros dto H. rewrite (register_new_email env dto w H).
    cbn [fst snd otps outbox]. rewrite Hdown.
    repeat split. apply in_or_app. right. now left.
  - intros email u H. rewrite (forgotPassword_known_email env email w u H).
    cbn [fst snd otps outbox]. rewrite Hdown.
    repeat split. apply in_or_app. right. now left.
Qed.
End Notification.

(** ** One-time codes *)

Lemma OtpType_eqb_eq a b : OtpType_eqb a b = true <-> a = b.
Proof. destruct a, b; simpl; split; congruence. Qed.

Lemma typedOtpWhere_spec userId otpCode type now o :
  typedOtpWhere userId otpCode type now o = true <->
  Otp.userId o = userId /\ Otp.code o = otpCode /\ Otp.type o = type
  /\ Otp.isUsed o = false /\ Otp.expiresAt o > now.
Proof.
  unfold typedOtpWhere.
  rewrite !andb_true_iff, N.eqb_eq, String.eqb_eq, OtpType_eqb_eq,
    negb_true_iff, Z.gtb_gt.
  tauto.
Qed.

Lemma anyOtpWhere_spec userId otpCode now o :
  anyOtpWhere userId otpCode now o = true <->
  Otp.userId o = userId /\ Otp.code o = otpCode
  /\ Otp.isUsed o = false /\ Otp.expiresAt o > now.
Proof.
  unfold anyOtpWhere.
  rewrite !andb_true_iff, N.eqb_eq, String.eqb_eq, negb_true_iff, Z.gtb_gt.
  tauto.
Qed.

Lemma validOtpOf_spec userId type t o :
  validOtpOf userId type t o = true <->
  Otp.userId o = userId /\ Otp.type o = type /\ Otp.isUsed o = false
  /\ Otp.expiresAt o > t.
Proof.
  unfold validOtpOf, validOtp.
  rewrite !andb_true_iff, N.eqb_eq, OtpType_eqb_eq, negb_true_iff, Z.gtb_gt.
  tauto.
Qed.

Lemma find_is_some {A} (p : A -> bool) (l : list A) :
  find p l <> None <-> exists x, In x l /\ p x = true.
Proof.
  split.
  - destruct (find p l) as [x|] eqn:E; [|congruence].
    intros _. exists x. exact (find_some _ _ E).
  - intros (x & Hin & Hp) E. rewrite (find_none _ _ E x Hin) in Hp.
    discriminate.
Qed.

Lemma otpMatches_typed w userId otpCode type now :
  otpMatches w userId otpCode (Some type) now <->
  find (typedOtpWhere userId otpCode type now) (otps w) <> None.
Proof.
  rewrite find_is_some. unfold otpMatches. split.
  - intros (o & Hin & H). exists o. split; [exact Hin|].
    apply typedOtpWhere_spec. tauto.
  - intros (o & Hin & H). exists o. split; [exact Hin|].
    apply typedOtpWhere_spec in H. tauto.
Qed.

Lemma otpMatches_any w userId otpCode now :
  otpMatches w userId otpCode None now <->
  find (anyOtpWhere userId otpCode now) (otps w) <> None.
Proof.
  rewrite find_is_some. unfold otpMatches. split.
  - intros (o & Hin & H). exists o. split; [exact Hin|].
    apply anyOtpWhere_spec. tauto.
  - intros (o & Hin & H). exists o. split; [exact Hin|].
    apply anyOtpWhere_spec in H. tauto.
Qed.

Lemma find_otp_by_id w o :
  In o (otps w) ->
  exists o0, find (fun x => N.eqb (Otp.id x) (Otp.id o)) (otps w) = Some o0.
Proof. intros H. apply (find_some_exists _ _ o H). apply N.eqb_refl. Qed.

Lemma find_user_by_id w email u :
  userByEmail w email = Some u ->
  exists u0, find (fun x => N.eqb (User.id x) (User.id u)) (users w) = Some u0.
Proof.
  intros H. apply find_some in H as [Hin _].
  apply (find_some_exists _ _ u Hin). apply N.eqb_refl.
Qed.

(** The consumed row is in the table, marked used. *)
Lemma consumed_in_table l o :
  In o l ->
  In (Otp.set_isUsed true o)
     (updateWhere (fun x => N.eqb (Otp.id x) (Otp.id o))
                  (Otp.set_isUsed true) l).
Proof.
  intros H. apply In_updateWhere. exists o. split; [exact H|].
  now rewrite N.eqb_refl.
Qed.

(** Once the only unused row with the code is consumed, no look-up for
    the code finds a row, whatever the time. *)
Lemma no_candidate_after_consumption w userId otpCode o now :
  soleUnusedOtp w userId otpCode o ->
  find (anyOtpWhere userId otpCode now)
       (updateWhere (fun x => N.eqb (Otp.id x) (Otp.id o))
                    (Otp.set_isUsed true) (otps w)) = None.
Proof.
  intros Hsole. apply find_none_all. intros y Hy.
  apply In_updateWhere in Hy as (x & Hx & ->).
  destruct (anyOtpWhere userId otpCode now
              (if N.eqb (Otp.id x) (Otp.id o) then Otp.set_isUsed true x
               else x)) eqn:E; [|reflexivity].
  apply anyOtpWhere_spec in E. destruct (N.eqb (Otp.id x) (Otp.id o)) eqn:Eid.
  - simpl in E. destruct E as (_ & _ & E & _). discriminate.
  - destruct E as (E1 & E2 & E3 & _).
    rewrite (Hsole x Hx E1 E2 E3), N.eqb_refl in Eid. discriminate.
Qed.

Lemma two_rows_count_two {A} (p : A -> bool) (l : list A) x y :
  In x l -> In y l -> x <> y -> p x = true -> p y = true ->
  (2 <= countWhere p l)%nat.
Proof.
  unfold countWhere. induction l as [|z l IH]; simpl; [tauto|].
  intros [-> | Hx] [-> | Hy] Hne Hpx Hpy.
  - congruence.
  - rewrite Hpx. simpl.
    assert (1 <= List.length (filter p l))%nat; [|lia].
    clear IH. induction l as [|z l IH]; simpl in *; [tauto|].
    destruct Hy as [-> | Hy]; [rewrite Hpy; simpl; lia|].
    specialize (IH Hy). destruct (p z); simpl; lia.
  - rewrite Hpy. simpl.
    assert (1 <= List.length (filter p l))%nat; [|lia].
    clear IH. induction l as [|z l IH]; simpl in *; [tauto|].
    destruct Hx as [-> | Hx]; [rewrite Hpx; simpl; lia|].
    specialize (IH Hx). destruct (p z); simpl; lia.
  - specialize (IH Hx Hy Hne Hpx Hpy). destruct (p z); simpl; lia.
Qed.

(** In a store with at most one valid OTP per user and type, a typed
    look-up at a later time finds nothing once the row it returned has
    been consumed. *)
Lemma no_typed_candidate_after_consumption w userId otpCode type o now now' :
  atMostOneValidOtp now w ->
  find (typedOtpWhere userId otpCode type now) (otps w) = Some o ->
  now <= now' ->
  find (typedOtpWhere userId otpCode type now')
       (updateWhere (fun x => N.eqb (Otp.id x) (Otp.id o))
                    (Otp.set_isUsed true) (otps w)) = None.
Proof.
  intros Hb Hf Hle. apply find_some in Hf as [Hin Ho].
  apply typedOtpWhere_spec in Ho as (Ho1 & _ & Ho3 & Ho4 & Ho5).
  apply find_none_all. intros y Hy.
  apply In_updateWhere in Hy as (x & Hx & ->).
  destruct (typedOtpWhere userId otpCode type now'
              (if N.eqb (Otp.id x) (Otp.id o) then Otp.set_isUsed true x
               else x)) eqn:E; [|reflexivity].
  apply typedOtpWhere_spec in E.
  destruct (N.eqb (Otp.id x) (Otp.id o)) eqn:Eid.
  - simpl in E. destruct E as (_ & _ & _ & E & _). discriminate.
  - destruct E as (E1 & _ & E3 & E4 & E5). exfalso.
    assert (Hne : x <> o).
    { intros ->. rewrite N.eqb_refl in Eid. discriminate. }
    pose proof (two_rows_count_two (validOtpOf userId type now) (otps w)
                  x o Hx Hin Hne) as H2.
    specialize (Hb userId type).
    assert (validOtpOf userId type now x = true)
      by (apply validOtpOf_spec; repeat split; auto; lia).
    assert (validOtpOf userId type now o = true)
      by (apply validOtpOf_spec; repeat split; auto).
    specialize (H2 H H0). lia.
Qed.

Lemma userByEmail_after_update w email u now data userId :
  (forall x, User.email (data x) = User.email x) ->
  userByEmail w email = Some u ->
  find (fun x => String.eqb (User.email x) email)
       (updateWhere (fun x => N.eqb (User.id x) userId)
                    (fun x => User.touch now (data x)) (users w))
  = Some (if N.eqb (User.id u) userId then User.touch now (data u) else u).
Proof.
  intros Hd H. unfold userByEmail in H.
  rewrite find_updateWhere; [now rewrite H|].
  intros x. simpl. now rewrite Hd.
Qed.

Section OtpValidation.
Context {jwtService : JwtService} {bcrypt : Bcrypt}.

Lemma verifyEmail_no_match env email otpCode w u :
  userByEmail w email = Some u -> User.isEmailVerified u = false ->
  find (typedOtpWhere (User.id u) otpCode VERIFICATION (now env)) (otps w)
  = None ->
  verifyEmail env email otpCode w
  = (w, Throw (BadRequestException "Invalid or expired verification code")).
Proof.
  intros Hu Hv Hf. unfold verifyEmail. run. now rewrite Hu, Hv, Hf.
Qed.

Lemma verifyEmail_match env email otpCode w u o :
  userByEmail w email = Some u -> User.isEmailVerified u = false ->
  find (typedOtpWhere (User.id u) otpCode VERIFICATION (now env)) (otps w)
  = Some o ->
  verifyEmail env email otpCode w
  = (afterValidation w (now env) o (User.id u) (User.set_isEmailVerified true),
     Ok "Email verified successfully").
Proof.
  intros Hu Hv Hf.
  destruct (find_otp_by_id w o) as [o0 Ho0]; [now apply find_some in Hf|].
  destruct (find_user_by_id w email u Hu) as [u0 Hu0].
  unfold verifyEmail. run. rewrite Hu, Hv, Hf. rewrite Ho0. cbn.
  now rewrite Hu0.
Qed.

Lemma verifyEmail_already_verified env email otpCode w u :
  userByEmail w email = Some u -> User.isEmailVerified u = true ->
  verifyEmail env email otpCode w
  = (w, Throw (BadRequestException "Email is already verified")).
Proof. intros Hu Hv. unfold verifyEmail. run. now rewrite Hu, Hv. Qed.

Lemma resetPassword_no_match env email otpCode newPassword w u :
  userByEmail w email = Some u ->
  find (typedOtpWhere (User.id u) otpCode PASSWORD_RESET (now env)) (otps w)
  = None ->
  resetPassword env email otpCode newPassword w
  = (w, Throw (BadRequestException "Invalid or expired reset code")).
Proof. intros Hu Hf. unfold resetPassword. run. now rewrite Hu, Hf. Qed.

Lemma resetPassword_match env email otpCode newPassword w u o :
  userByEmail w email = Some u ->
  find (typedOtpWhere (User.id u) otpCode PASSWORD_RESET (now env)) (otps w)
  = Some o ->
  resetPassword env email otpCode newPassword w
  = (afterValidation w (now env) o (User.id u)
       (User.set_password (bcrypt_hash newPassword 10)),
     Ok "Password reset successfully").
Proof.
  intros Hu Hf.
  destruct (find_otp_by_id w o) as [o0 Ho0]; [now apply find_some in Hf|].
  destruct (find_user_by_id w email u Hu) as [u0 Hu0].
  unfold resetPassword. run. rewrite Hu, Hf. rewrite Ho0. cbn.
  now rewrite Hu0.
Qed.

Lemma verifyOtp_no_match env email otpCode ua ip w u :
  userByEmail w email = Some u ->
  find (anyOtpWhere (User.id u) otpCode (now env)) (otps w) = None ->
  verifyOtp env email otpCode ua ip w
  = (w, Throw (BadRequestException "Invalid or expired OTP")).
Proof. intros Hu Hf. unfold verifyOtp. run. now rewrite Hu, Hf. Qed.

(** After the code is consumed and [lastLoginAt] written, [verifyOtp] is
    [login] on the row read at the start of the call. *)
Lemma verifyOtp_match env email otpCode ua ip w u o :
  userByEmail w email = Some u ->
  find (anyOtpWhere (User.id u) otpCode (now env)) (otps w) = Some o ->
  verifyOtp env email otpCode ua ip w
  = login env u ua ip
      (afterValidation w (now env) o (User.id u)
         (User.set_lastLoginAt (now env))).
Proof.
  intros Hu Hf.
  destruct (find_otp_by_id w o) as [o0 Ho0]; [now apply find_some in Hf|].
  destruct (find_user_by_id w email u Hu) as [u0 Hu0].
  unfold verifyOtp. run. rewrite Hu, Hf. rewrite Ho0. cbn.
  now rewrite Hu0.
Qed.

Lemma login_fresh env u ua ip w :
  freshToken (sign (RefreshClaims (User.id u)) "7d" (now env)) w ->
  login env u ua ip w
  = (mkWorld (users w) (otps w)
       (refreshTokens w
        ++ [RefreshToken.mk (nextId w)
              (sign (RefreshClaims (User.id u)) "7d" (now env))
              (sevenDaysFromNow env) false ua ip (now env) (User.id u)])
       (N.succ (nextId w)) (outbox w),
     Ok (mkSession
           (sign (AccessClaims (User.email u) (User.id u) (User.role u))
                 "1d" (now env))
           (sign (RefreshClaims (User.id u)) "7d" (now env))
           (mkSessionUser (User.id u) (User.email u) (User.firstName u)
              (User.lastName u) (User.role u) (User.isEmailVerified u)))).
Proof.
  intros H. apply freshToken_find in H. apply find_none_existsb in H.
  unfold login. run. unfold storedToken in H. now rewrite H.
Qed.

(** [login] writes to the refresh-token table only. *)
Lemma login_tables env u ua ip w :
  users (fst (login env u ua ip w)) = users w
  /\ otps (fst (login env u ua ip w)) = otps w.
Proof.
  unfold login. run.
  destruct (existsb _ (refreshTokens w)); split; reflexivity.
Qed.


Lemma login_only_unique_violation env u ua ip w e :
  snd (login env u ua ip w) = Throw e ->
  e = PrismaClientKnownRequestError "P2002".
Proof.
  unfold login. run. destruct (existsb _ (refreshTokens w)); simpl;
    congruence.
Qed.
Lemma verifyEmail_validation env email otpCode w u :
  userByEmail w email = Some u -> User.isEmailVerified u = false ->
  (isOk (snd (verifyEmail env email otpCode w)) = true
   <-> otpMatches w (User.id u) otpCode (Some VERIFICATION) (now env))
  /\ (~ otpMatches w (User.id u) otpCode (Some VERIFICATION) (now env) ->
      verifyEmail env email otpCode w
      = (w, Throw (BadRequestException "Invalid or expired verification code")))
  /\ (forall o,
      find (typedOtpWhere (User.id u) otpCode VERIFICATION (now env)) (otps w)
      = Some o ->
      let w' := fst (verifyEmail env email otpCode w) in
      In (Otp.set_isUsed true o) (otps w')
      /\ forall env',
           verifyEmail env' email otpCode w'
           = (w', Throw (BadRequestException "Email is already verified"))).
Proof.
  intros Hu Hv. rewrite otpMatches_typed.
  destruct (find (typedOtpWhere (User.id u) otpCode VERIFICATION (now env))
                 (otps w)) as [o|] eqn:Hf.
  - rewrite (verifyEmail_match env email otpCode w u o Hu Hv Hf).
    cbn [fst snd isOk]. split; [split; congruence|].
    split; [intros H; exfalso; apply H; congruence|].
    intros o' [= <-]. split.
    + apply consumed_in_table. now apply find_some in Hf.
    + intros env'. apply verifyEmail_already_verified
        with (u := User.touch (now env) (User.set_isEmailVerified true u));
        [|reflexivity].
      unfold userByEmail, afterValidation. cbn [users].
      rewrite (userByEmail_after_update w email u) by (reflexivity || assumption).
      now rewrite N.eqb_refl.
  - rewrite (verifyEmail_no_match env email otpCode w u Hu Hv Hf).
    cbn [fst snd isOk]. split; [split; congruence|].
    split; [reflexivity | discriminate].
Qed.

Lemma resetPassword_validation env email otpCode newPassword w u :
  userByEmail w email = Some u ->
  (isOk (snd (resetPassword env email otpCode newPassword w)) = true
   <-> otpMatches w (User.id u) otpCode (Some PASSWORD_RESET) (now env))
  /\ (~ otpMatches w (User.id u) otpCode (Some PASSWORD_RESET) (now env) ->
      resetPassword env email otpCode newPassword w
      = (w, Throw (BadRequestException "Invalid or expired reset code")))
  /\ (forall o,
      find (typedOtpWhere (User.id u) otpCode PASSWORD_RESET (now env))
           (otps w) = Some o ->
      let w' := fst (resetPassword env email otpCode newPassword w) in
      In (Otp.set_isUsed true o) (otps w')
      /\ (atMostOneValidOtp (now env) w ->
          forall env' newPassword', now env <= now env' ->
            resetPassword env' email otpCode newPassword' w'
            = (w', Throw (BadRequestException "Invalid or expired reset code")))).
Proof.
  intros Hu. rewrite otpMatches_typed.
  destruct (find (typedOtpWhere (User.id u) otpCode PASSWORD_RESET (now env))
                 (otps w)) as [o|] eqn:Hf.
  - rewrite (resetPassword_match env email otpCode newPassword w u o Hu Hf).
    cbn [fst snd isOk]. split; [split; congruence|].
    split; [intros H; exfalso; apply H; congruence|].
    intros o' [= <-]. split.
    + apply consumed_in_table. now apply find_some in Hf.
    + intros Hb env' newPassword' Hle.
      apply resetPassword_no_match
        with (u := User.touch (now env)
                     (User.set_password (bcrypt_hash newPassword 10) u)).
      * unfold userByEmail, afterValidation. cbn [users].
        rewrite (userByEmail_after_update w email u)
          by (reflexivity || assumption).
        now rewrite N.eqb_refl.
      * cbn [afterValidation otps User.touch User.set_password User.id].
        now apply (no_typed_candidate_after_consumption w (User.id u)
                     otpCode PASSWORD_RESET o (now env)).
  - rewrite (resetPassword_no_match env email otpCode newPassword w u Hu Hf).
    cbn [fst snd isOk]. split; [split; congruence|].
    split; [reflexivity | discriminate].
Qed.

Lemma verifyOtp_validation env email otpCode ua ip w u :
  userByEmail w email = Some u ->
  (~ otpMatches w (User.id u) otpCode None (now env) ->
     verifyOtp env email otpCode ua ip w
     = (w, Throw (BadRequestException "Invalid or expired OTP")))
  /\ (isOk (snd (verifyOtp env email otpCode ua ip w)) = true ->
      otpMatches w (User.id u) otpCode None (now env))
  /\ (otpMatches w (User.id u) otpCode None (now env) ->
      freshToken (sign (RefreshClaims (User.id u)) "7d" (now env)) w ->
      isOk (snd (verifyOtp env email otpCode ua ip w)) = true)
  /\ (forall o,
      find (anyOtpWhere (User.id u) otpCode (now env)) (otps w) = Some o ->
      let w' := fst (verifyOtp env email otpCode ua ip w) in
      In (Otp.set_isUsed true o) (otps w')
      /\ (soleUnusedOtp w (User.id u) otpCode o ->
          forall env' ua' ip',
            verifyOtp env' email otpCode ua' ip' w'
            = (w', Throw (BadRequestException "Invalid or expired OTP")))).
Proof.
  intros Hu. rewrite otpMatches_any.
  destruct (find (anyOtpWhere (User.id u) otpCode (now env)) (otps w))
    as [o|] eqn:Hf.
  - rewrite (verifyOtp_match env email otpCode ua ip w u o Hu Hf).
    split; [intros H; exfalso; apply H; congruence|].
    split; [congruence|].
    split.
    + intros _ Hfresh. rewrite login_fresh; [reflexivity|].
      intros r Hr. exact (Hfresh r Hr).
    + intros o' [= <-].
      destruct (login_tables env u ua ip
                  (afterValidation w (now env) o (User.id u)
                     (User.set_lastLoginAt (now env)))) as [Husers Hotps].
      cbv zeta. split.
      * rewrite Hotps. apply consumed_in_table. now apply find_some in Hf.
      * intros Hsole env' ua' ip'.
        apply verifyOtp_no_match
          with (u := User.touch (now env)
                       (User.set_lastLoginAt (now env) u)).
        -- unfold userByEmail. rewrite Husers.
           unfold afterValidation. cbn [users].
           rewrite (userByEmail_after_update w email u)
             by (reflexivity || assumption).
           now rewrite N.eqb_refl.
        -- rewrite Hotps.
           cbn [afterValidation otps User.touch User.set_lastLoginAt User.id].
           now apply no_candidate_after_consumption.
  - rewrite (verifyOtp_no_match env email otpCode ua ip w u Hu Hf).
    cbn [fst snd isOk]. split; [reflexivity|].
    split; [discriminate|]. split; [congruence | discriminate].
Qed.

Lemma expired_code_matches_nothing w userId otpCode scope now :
  (forall o, In o (otps w) -> Otp.userId o = userId ->
             Otp.code o = otpCode -> Otp.expiresAt o <= now) ->
  ~ otpMatches w userId otpCode scope now.
Proof.
  intros H (o & Hin & Hu & Hc & _ & He & _).
  specialize (H o Hin Hu Hc). lia.
Qed.

(** C3 (as amended). For a stored user, each validation succeeds exactly
    when some stored OTP row matches (same user, same code, unused,
    [expiresAt] strictly after now, and the own type on [verifyEmail] and
    [resetPassword]); [verifyOtp] in addition needs the session it then
    issues to be storable.  A success marks the row the look-up returned
    as used.  Validating the same code again then fails: on [verifyEmail]
    with "Email is already verified" (the first success verified the
    user); on [resetPassword] with the invalid-or-expired error, in a
    store with at most one valid OTP per user and type; on [verifyOtp]
    with the invalid-or-expired error when the consumed row was the only
    unused row of the user carrying the code.  A code whose rows have all
    reached [expiresAt] never validates. *)
Theorem otp_validation_consumes env email otpCode w u :
  userByEmail w email = Some u ->
  (User.isEmailVerified u = false ->
     (isOk (snd (verifyEmail env email otpCode w)) = true
      <-> otpMatches w (User.id u) otpCode (Some VERIFICATION) (now env))
     /\ (~ otpMatches w (User.id u) otpCode (Some VERIFICATION) (now env) ->
         verifyEmail env email otpCode w
         = (w, Throw (BadRequestException
                        "Invalid or expired verification code")))
     /\ (forall o,
         find (typedOtpWhere (User.id u) otpCode VERIFICATION (now env))
              (otps w) = Some o ->
         let w' := fst (verifyEmail env email otpCode w) in
         In (Otp.set_isUsed true o) (otps w')
         /\ forall env',
              verifyEmail env' email otpCode w'
              = (w', Throw (BadRequestException "Email is already verified"))))
  /\ (forall newPassword,
     (isOk (snd (resetPassword env email otpCode newPassword w)) = true
      <-> otpMatches w (User.id u) otpCode (Some PASSWORD_RESET) (now env))
     /\ (~ otpMatches w (User.id u) otpCode (Some PASSWORD_RESET) (now env) ->
         resetPassword env email otpCode newPassword w
         = (w, Throw (BadRequestException "Invalid or expired reset code")))
     /\ (forall o,
         find (typedOtpWhere (User.id u) otpCode PASSWORD_RESET (now env))
              (otps w) = Some o ->
         let w' := fst (resetPassword env email otpCode newPassword w) in
         In (Otp.set_isUsed true o) (otps w')
         /\ (atMostOneValidOtp (now env) w ->
             forall env' newPassword', now env <= now env' ->
               resetPassword env' email otpCode newPassword' w'
               = (w', Throw (BadRequestException
                               "Invalid or expired reset code")))))
  /\ (forall ua ip,
     (~ otpMatches w (User.id u) otpCode None (now env) ->
        verifyOtp env email otpCode ua ip w
        = (w, Throw (BadRequestException "Invalid or expired OTP")))
     /\ (isOk (snd (verifyOtp env email otpCode ua ip w)) = true ->
         otpMatches w (User.id u) otpCode None (now env))
     /\ (otpMatches w (User.id u) otpCode None (now env) ->
         freshToken (sign (RefreshClaims (User.id u)) "7d" (now env)) w ->
         isOk (snd (verifyOtp env email otpCode ua ip w)) = true)
     /\ (forall o,
         find (anyOtpWhere (User.id u) otpCode (now env)) (otps w) = Some o ->
         let w' := fst (verifyOtp env email otpCode ua ip w) in
         In (Otp.set_isUsed true o) (otps w')
         /\ (soleUnusedOtp w (User.id u) otpCode o ->
             forall env' ua' ip',
               verifyOtp env' email otpCode ua' ip' w'
               = (w', Throw (BadRequestException "Invalid or expired OTP")))))
  /\ ((forall o, In o (otps w) -> Otp.userId o = User.id u ->
                 Otp.code o = otpCode -> Otp.expiresAt o <= now env) ->
      isOk (snd (verifyEmail env email otpCode w)) = false
      /\ (forall newPassword,
          isOk (snd (resetPassword env email otpCode newPassword w)) = false)
      /\ (forall ua ip,
          isOk (snd (verifyOtp env email otpCode ua ip w)) = false)).
Proof.
  intros Hu. split; [|split; [|split]].
  - intros Hv. exact (verifyEmail_validation env email otpCode w u Hu Hv).
  - intros newPassword.
    exact (resetPassword_validation env email otpCode newPassword w u Hu).
  - intros ua ip. exact (verifyOtp_validation env email otpCode ua ip w u Hu).
  - intros Hexp. split; [|split].
    + destruct (User.isEmailVerified u) eqn:Hv.
      * now rewrite (verifyEmail_already_verified env email otpCode w u Hu Hv).
      * destruct (verifyEmail_validation env email otpCode w u Hu Hv)
          as (_ & Hno & _).
        rewrite Hno; [reflexivity|].
        now apply expired_code_matches_nothing.
    + intros newPassword.
      destruct (resetPassword_validation env email otpCode newPassword w u Hu)
        as (_ & Hno & _).
      rewrite Hno; [reflexivity|]. now apply expired_code_matches_nothing.
    + intros ua ip.
      destruct (verifyOtp_validation env email otpCode ua ip w u Hu)
        as (Hno & _).
      rewrite Hno; [reflexivity|]. now apply expired_code_matches_nothing.
Qed.

End OtpValidation.

(** ** At most one valid code per user and type *)

Lemma used_is_not_valid userId type t o :
  validOtpOf userId type t (Otp.set_isUsed true o) = true ->
  validOtpOf userId type t o = true.
Proof. intros H. apply validOtpOf_spec in H. simpl in H. now destruct H as (_ & _ & H & _). Qed.

Lemma countWhere_singleton {A} (p : A -> bool) x :
  countWhere p [x] = if p x then 1%nat else 0%nat.
Proof. unfold countWhere. simpl. now destruct (p x). Qed.

(** Invalidate-then-issue on a table: when the [where] clause [p] covers
    every unused row of the user with the type of the new row, the bound
    survives the insertion. *)
Lemma issue_keeps_bound t (l : list Otp.t) (p : Otp.t -> bool) o :
  Otp.isUsed o = false ->
  (forall x, In x l -> Otp.userId x = Otp.userId o ->
             Otp.type x = Otp.type o -> Otp.isUsed x = false -> p x = true) ->
  (forall userId type, (countWhere (validOtpOf userId type t) l <= 1)%nat) ->
  forall userId type,
    (countWhere (validOtpOf userId type t)
       (updateWhere p (Otp.set_isUsed true) l ++ [o]) <= 1)%nat.
Proof.
  intros Ho Hp Hl userId type.
  rewrite countWhere_app, countWhere_singleton.
  destruct (validOtpOf userId type t o) eqn:Ev.
  - apply validOtpOf_spec in Ev as (Hu & Hty & _ & _).
    rewrite countWhere_zero; [lia|].
    intros y Hy. apply In_updateWhere in Hy as (x & Hx & ->).
    destruct (p x) eqn:Epx.
    + unfold validOtpOf, validOtp. simpl. now rewrite !andb_false_r.
    + destruct (validOtpOf userId type t x) eqn:Ex; [|reflexivity].
      apply validOtpOf_spec in Ex as (Hu' & Hty' & Hused & _).
      rewrite (Hp x Hx) in Epx; congruence.
  - specialize (Hl userId type).
    pose proof (countWhere_updateWhere_le (validOtpOf userId type t) p
                  (Otp.set_isUsed true) l (used_is_not_valid userId type t)).
    lia.
Qed.

Lemma userIds_updateWhere p f (l : list User.t) :
  (forall x, User.id (f x) = User.id x) ->
  map User.id (updateWhere p f l) = map User.id l.
Proof.
  intros Hf. unfold updateWhere. rewrite map_map. apply map_ext.
  intros x. destruct (p x); [apply Hf | reflexivity].
Qed.

Lemma found_user_id (q : User.t -> bool) w u :
  find q (users w) = Some u -> In (User.id u) (userIds w).
Proof.
  intros H. apply find_some in H as [Hin _]. unfold userIds.
  now apply in_map.
Qed.

Lemma issue_keeps_invariant w (p : Otp.t -> bool) o ob :
  In (Otp.userId o) (userIds w) ->
  Otp.isUsed o = false ->
  (forall x, In x (otps w) -> Otp.userId x = Otp.userId o ->
             Otp.type x = Otp.type o -> Otp.isUsed x = false -> p x = true) ->
  keepsOtpInvariant w
    (mkWorld (users w)
       (updateWhere p (Otp.set_isUsed true) (otps w) ++ [o])
       (refreshTokens w) (N.succ (nextId w)) ob).
Proof.
  intros Hown Ho Hp [Hk Hotp Htok]. split.
  - constructor; unfold userIds in *; cbn [users otps refreshTokens nextId].
    + intros i Hi. specialize (Hk i Hi). lia.
    + intros x Hx. apply in_app_or in Hx as [Hx | [<- | []]]; [|exact Hown].
      apply In_updateWhere in Hx as (y & Hy & ->).
      destruct (p y); exact (Hotp y Hy).
    + exact Htok.
  - intros t Hb userId type. cbn [otps].
    now apply issue_keeps_bound.
Qed.

Lemma same_keeps_invariant w : keepsOtpInvariant w w.
Proof. intros H. split; [exact H | auto]. Qed.

Lemma sendOtp_known_email env email w u :
  userByEmail w email = Some u ->
  sendOtp env email w
  = (mkWorld (users w)
       (updateWhere (fun o => N.eqb (Otp.userId o) (User.id u)
                              && negb (Otp.isUsed o))
                    (Otp.set_isUsed true) (otps w)
        ++ [newOtpRow env (nextId w) LOGIN (User.id u)])
       (refreshTokens w) (N.succ (nextId w))
       (if smtpUp env
        then outbox w ++ [mkMail email "Your OTP Code"
                            (generateOtpCode (random env))]
        else outbox w),
     if smtpUp env then Ok "OTP sent successfully"
     else Throw (Error "Failed to send OTP email")).
Proof.
  intros H. unfold sendOtp. run. rewrite H. cbn.
  destruct (smtpUp env); reflexivity.
Qed.

Lemma resendVerificationEmail_unverified env email w u :
  userByEmail w email = Some u -> User.isEmailVerified u = false ->
  resendVerificationEmail env email w
  = (mkWorld (users w)
       (updateWhere (fun o => N.eqb (Otp.userId o) (User.id u)
                              && OtpType_eqb (Otp.type o) VERIFICATION
                              && negb (Otp.isUsed o))
                    (Otp.set_isUsed true) (otps w)
        ++ [newOtpRow env (nextId w) VERIFICATION (User.id u)])
       (refreshTokens w) (N.succ (nextId w))
       (if smtpUp env
        then outbox w ++ [mkMail email "Verify Your Email Address"
                            (generateOtpCode (random env))]
        else outbox w),
     if smtpUp env then Ok "Verification code sent successfully"
     else Throw (Error "Failed to send verification email")).
Proof.
  intros H Hv. unfold resendVerificationEmail. run. rewrite H, Hv. cbn.
  destruct (smtpUp env); reflexivity.
Qed.

Lemma sendOtp_keeps env email w :
  keepsOtpInvariant w (fst (sendOtp env email w)).
Proof.
  destruct (userByEmail w email) as [u|] eqn:Hu.
  - rewrite (sendOtp_known_email env email w u Hu). cbn [fst].
    apply issue_keeps_invariant; [exact (found_user_id _ w u Hu) | reflexivity|].
    cbn. intros x _ Hx _ Hused. now rewrite Hx, Hused, N.eqb_refl.
  - unfold sendOtp. run. rewrite Hu. apply same_keeps_invariant.
Qed.

Lemma forgotPassword_keeps env email w :
  keepsOtpInvariant w (fst (forgotPassword env email w)).
Proof.
  destruct (userByEmail w email) as [u|] eqn:Hu.
  - rewrite (forgotPassword_known_email env email w u Hu). cbn [fst].
    apply issue_keeps_invariant; [exact (found_user_id _ w u Hu) | reflexivity|].
    cbn. intros x _ Hx Hty Hused. now rewrite Hx, Hty, Hused, N.eqb_refl.
  - rewrite (forgotPassword_unknown_email env email w Hu).
    apply same_keeps_invariant.
Qed.

Lemma resendVerificationEmail_keeps env email w :
  keepsOtpInvariant w (fst (resendVerificationEmail env email w)).
Proof.
  destruct (userByEmail w email) as [u|] eqn:Hu.
  - destruct (User.isEmailVerified u) eqn:Hv.
    + unfold resendVerificationEmail. run. rewrite Hu, Hv.
      apply same_keeps_invariant.
    + rewrite (resendVerificationEmail_unverified env email w u Hu Hv).
      cbn [fst].
      apply issue_keeps_invariant;
        [exact (found_user_id _ w u Hu) | reflexivity|].
      cbn. intros x _ Hx Hty Hused. now rewrite Hx, Hty, Hused, N.eqb_refl.
  - unfold resendVerificationEmail. run. rewrite Hu.
    apply same_keeps_invariant.
Qed.

Section RegistrationInvariant.
Context {bcrypt : Bcrypt}.

Lemma register_keeps env dto w :
  keepsOtpInvariant w (fst (register env dto w)).
Proof.
  destruct (userByEmail w (dto_email dto)) as [u|] eqn:Hu.
  - rewrite register_known_email by congruence. apply same_keeps_invariant.
  - rewrite (register_new_email env dto w Hu). cbn [fst].
    intros [Hk Hotp Htok]. split.
    + constructor; unfold userIds in *;
        cbn [users otps refreshTokens nextId]; rewrite map_app.
      * intros i Hi. apply in_app_or in Hi as [Hi | [<- | []]].
        -- specialize (Hk i Hi). lia.
        -- cbn. lia.
      * intros x Hx. apply in_or_app.
        apply in_app_or in Hx as [Hx | [<- | []]].
        -- left. now apply Hotp.
        -- right. now left.
      * intros x Hx. apply in_or_app. left. now apply Htok.
    + intros t Hb userId type. cbn [otps].
      rewrite <- (updateWhere_id (fun _ => false) (Otp.set_isUsed true)
                    (otps w)) by discriminate.
      apply issue_keeps_bound; [reflexivity | | exact Hb].
      intros x Hx Hown _ _. cbn in Hown.
      specialize (Hk _ (Hotp x Hx)). rewrite Hown in Hk. lia.
Qed.
End RegistrationInvariant.

(** *** Every request keeps the bound *)

Lemma keepsOtpInvariant_trans w1 w2 w3 :
  keepsOtpInvariant w1 w2 -> keepsOtpInvariant w2 w3 ->
  keepsOtpInvariant w1 w3.
Proof.
  intros H12 H23 Hi. destruct (H12 Hi) as [Hi2 Hb2].
  destruct (H23 Hi2) as [Hi3 Hb3]. split; auto.
Qed.

(** A step that keeps the user keys, inserts no OTP and gives new refresh
    tokens to stored users keeps the invariant. *)
Lemma shrink_keeps_invariant w us os rs n ob :
  map User.id us = userIds w ->
  (forall o, In o os -> exists o0, In o0 (otps w)
                                   /\ Otp.userId o = Otp.userId o0) ->
  (forall userId type t,
     (countWhere (validOtpOf userId type t) os
      <= countWhere (validOtpOf userId type t) (otps w))%nat) ->
  (forall r, In r rs ->
     In (RefreshToken.userId r) (userIds w)
     \/ exists r0, In r0 (refreshTokens w)
                   /\ RefreshToken.userId r = RefreshToken.userId r0) ->
  (nextId w <= n)%N ->
  keepsOtpInvariant w (mkWorld us os rs n ob).
Proof.
  intros Hus Hos Hcount Hrs Hn [Hk Hotp Htok]. split.
  - constructor; unfold userIds in *; cbn [users otps refreshTokens nextId];
      rewrite Hus.
    + intros i Hi. specialize (Hk i Hi). lia.
    + intros o Ho. destruct (Hos o Ho) as (o0 & Ho0 & ->). now apply Hotp.
    + intros r Hr. destruct (Hrs r Hr) as [H | (r0 & Hr0 & ->)];
        [exact H | now apply Htok].
  - intros t Hb userId type. cbn [otps].
    specialize (Hcount userId type t). specialize (Hb userId type). lia.
Qed.

Lemma same_otps l :
  (forall o : Otp.t, In o l -> exists o0, In o0 l
                                          /\ Otp.userId o = Otp.userId o0)
  /\ (forall userId type t,
      (countWhere (validOtpOf userId type t) l
       <= countWhere (validOtpOf userId type t) l)%nat).
Proof. split; [intros o Ho; now exists o | intros; lia]. Qed.

Lemma marked_otps p l :
  (forall o, In o (updateWhere p (Otp.set_isUsed true) l) ->
     exists o0, In o0 l /\ Otp.userId o = Otp.userId o0)
  /\ (forall userId type t,
      (countWhere (validOtpOf userId type t)
         (updateWhere p (Otp.set_isUsed true) l)
       <= countWhere (validOtpOf userId type t) l)%nat).
Proof.
  split.
  - intros o Ho. apply In_updateWhere in Ho as (x & Hx & ->).
    exists x. split; [exact Hx | now destruct (p x)].
  - intros userId type t. apply countWhere_updateWhere_le.
    apply used_is_not_valid.
Qed.

Lemma deleted_otps p l :
  (forall o : Otp.t, In o (deleteWhere p l) ->
     exists o0, In o0 l /\ Otp.userId o = Otp.userId o0)
  /\ (forall userId type t,
      (countWhere (validOtpOf userId type t) (deleteWhere p l)
       <= countWhere (validOtpOf userId type t) l)%nat).
Proof.
  split.
  - intros o Ho. unfold deleteWhere in Ho. apply filter_In in Ho as [Ho _].
    now exists o.
  - intros userId type t. apply countWhere_deleteWhere_le.
Qed.

Lemma same_tokens (l : list RefreshToken.t) ids :
  forall r, In r l ->
    In (RefreshToken.userId r) ids
    \/ exists r0, In r0 l /\ RefreshToken.userId r = RefreshToken.userId r0.
Proof. intros r Hr. right. now exists r. Qed.

Lemma revoked_tokens p l ids :
  forall r, In r (updateWhere p (RefreshToken.set_isRevoked true) l) ->
    In (RefreshToken.userId r) ids
    \/ exists r0, In r0 l /\ RefreshToken.userId r = RefreshToken.userId r0.
Proof.
  intros r Hr. apply In_updateWhere in Hr as (x & Hx & ->).
  right. exists x. split; [exact Hx | now destruct (p x)].
Qed.

Lemma deleted_tokens p (l : list RefreshToken.t) ids :
  forall r, In r (deleteWhere p l) ->
    In (RefreshToken.userId r) ids
    \/ exists r0, In r0 l /\ RefreshToken.userId r = RefreshToken.userId r0.
Proof.
  intros r Hr. unfold deleteWhere in Hr. apply filter_In in Hr as [Hr _].
  right. now exists r.
Qed.

Lemma issued_token ids (l l0 : list RefreshToken.t) r :
  (forall x, In x l ->
     In (RefreshToken.userId x) ids
     \/ exists r0, In r0 l0 /\ RefreshToken.userId x = RefreshToken.userId r0) ->
  In (RefreshToken.userId r) ids ->
  forall x, In x (l ++ [r]) ->
    In (RefreshToken.userId x) ids
    \/ exists r0, In r0 l0 /\ RefreshToken.userId x = RefreshToken.userId r0.
Proof.
  intros Hl Hr x Hx. apply in_app_or in Hx as [Hx | [<- | []]];
    [now apply Hl | now left].
Qed.

Lemma afterValidation_keeps w now o userId data :
  (forall x, User.id (data x) = User.id x) ->
  keepsOtpInvariant w (afterValidation w now o userId data).
Proof.
  intros Hd. unfold afterValidation.
  apply shrink_keeps_invariant.
  - apply userIds_updateWhere. intros x. cbn. apply Hd.
  - apply marked_otps.
  - apply marked_otps.
  - apply same_tokens.
  - lia.
Qed.

Lemma cleanupExpiredOtps_keeps env w :
  keepsOtpInvariant w (fst (cleanupExpiredOtps env w)).
Proof.
  unfold cleanupExpiredOtps. run. cbn [fst]. unfold with_otps.
  apply shrink_keeps_invariant;
    [reflexivity | apply deleted_otps | apply deleted_otps
    | apply same_tokens | lia].
Qed.

Lemma cleanupExpiredRefreshTokens_keeps env w :
  keepsOtpInvariant w (fst (cleanupExpiredRefreshTokens env w)).
Proof.
  unfold cleanupExpiredRefreshTokens. run. cbn [fst].
  unfold with_refreshTokens.
  apply shrink_keeps_invariant;
    [reflexivity | apply same_otps | apply same_otps
    | apply deleted_tokens | lia].
Qed.

Lemma revokeAllUserRefreshTokens_keeps userId w :
  keepsOtpInvariant w (fst (revokeAllUserRefreshTokens userId w)).
Proof.
  unfold revokeAllUserRefreshTokens. run. cbn [fst].
  unfold with_refreshTokens.
  apply shrink_keeps_invariant;
    [reflexivity | apply same_otps | apply same_otps
    | apply revoked_tokens | lia].
Qed.

Lemma revokeRefreshToken_keeps token w :
  keepsOtpInvariant w (fst (revokeRefreshToken token w)).
Proof.
  unfold revokeRefreshToken. run.
  destruct (find _ (refreshTokens w)) as [r|]; cbn [fst];
    [|apply same_keeps_invariant].
  destruct (find _ (refreshTokens w)); cbn [fst];
    [|apply same_keeps_invariant].
  unfold with_refreshTokens.
  apply shrink_keeps_invariant;
    [reflexivity | apply same_otps | apply same_otps
    | apply revoked_tokens | lia].
Qed.

Section RequestsInvariant.
Context {jwtService : JwtService} {bcrypt : Bcrypt}.

Lemma login_keeps env u ua ip w :
  In (User.id u) (userIds w) ->
  keepsOtpInvariant w (fst (login env u ua ip w)).
Proof.
  intros Hu. unfold login. run.
  destruct (existsb _ (refreshTokens w)); cbn [fst];
    [apply same_keeps_invariant|].
  unfold with_nextId, with_refreshTokens.
  cbn [users otps refreshTokens nextId outbox].
  apply shrink_keeps_invariant;
    [reflexivity | apply same_otps | apply same_otps | | lia].
  apply issued_token; [apply same_tokens | exact Hu].
Qed.

Lemma verifyEmail_keeps env email otpCode w :
  keepsOtpInvariant w (fst (verifyEmail env email otpCode w)).
Proof.
  destruct (userByEmail w email) as [u|] eqn:Hu.
  - destruct (User.isEmailVerified u) eqn:Hv.
    + rewrite (verifyEmail_already_verified env email otpCode w u Hu Hv).
      apply same_keeps_invariant.
    + destruct (find (typedOtpWhere (User.id u) otpCode VERIFICATION (now env))
                     (otps w)) as [o|] eqn:Hf.
      * rewrite (verifyEmail_match env email otpCode w u o Hu Hv Hf).
        now apply afterValidation_keeps.
      * rewrite (verifyEmail_no_match env email otpCode w u Hu Hv Hf).
        apply same_keeps_invariant.
  - unfold verifyEmail. run. rewrite Hu. apply same_keeps_invariant.
Qed.

Lemma resetPassword_keeps env email otpCode newPassword w :
  keepsOtpInvariant w (fst (resetPassword env email otpCode newPassword w)).
Proof.
  destruct (userByEmail w email) as [u|] eqn:Hu.
  - destruct (find (typedOtpWhere (User.id u) otpCode PASSWORD_RESET (now env))
                   (otps w)) as [o|] eqn:Hf.
    + rewrite (resetPassword_match env email otpCode newPassword w u o Hu Hf).
      now apply afterValidation_keeps.
    + rewrite (resetPassword_no_match env email otpCode newPassword w u Hu Hf).
      apply same_keeps_invariant.
  - unfold resetPassword. run. rewrite Hu. apply same_keeps_invariant.
Qed.

Lemma verifyOtp_keeps env email otpCode ua ip w :
  keepsOtpInvariant w (fst (verifyOtp env email otpCode ua ip w)).
Proof.
  destruct (userByEmail w email) as [u|] eqn:Hu.
  - destruct (find (anyOtpWhere (User.id u) otpCode (now env)) (otps w))
      as [o|] eqn:Hf.
    + rewrite (verifyOtp_match env email otpCode ua ip w u o Hu Hf).
      eapply keepsOtpInvariant_trans.
      * apply afterValidation_keeps
          with (data := User.set_lastLoginAt (now env)). reflexivity.
      * apply login_keeps. unfold userIds, afterValidation. cbn [users].
        rewrite userIds_updateWhere by reflexivity.
        exact (found_user_id _ w u Hu).
    + rewrite (verifyOtp_no_match env email otpCode ua ip w u Hu Hf).
      apply same_keeps_invariant.
  - unfold verifyOtp. run. rewrite Hu. apply same_keeps_invariant.
Qed.

Lemma changePassword_keeps env userId dto w :
  keepsOtpInvariant w (fst (changePassword env userId dto w)).
Proof.
  unfold changePassword. run.
  destruct (find _ (users w)) as [u|] eqn:Hu; cbn [fst];
    [|apply same_keeps_invariant].
  destruct (bcrypt_compare _ _); cbn [fst]; [|apply same_keeps_invariant].
  rewrite Hu. cbn [fst]. unfold with_users.
  apply shrink_keeps_invariant;
    [now apply userIds_updateWhere | apply same_otps | apply same_otps
    | apply same_tokens | lia].
Qed.

Lemma refreshAccessToken_keeps env token ua ip w :
  keepsOtpInvariant w (fst (refreshAccessToken env token ua ip w)).
Proof.
  unfold refreshAccessToken. run.
  destruct (verify token (now env)); [|apply same_keeps_invariant].
  destruct (find _ (refreshTokens w)) as [r|]; cbn [fst];
    [|apply same_keeps_invariant].
  destruct (RefreshToken.isRevoked r); [apply same_keeps_invariant|].
  destruct (RefreshToken.expiresAt r <? now env);
    [apply same_keeps_invariant|].
  destruct (find _ (users w)) as [u|] eqn:Hu; cbn [fst];
    [|apply same_keeps_invariant].
  destruct (find _ (refreshTokens w)); cbn [fst];
    [|apply same_keeps_invariant].
  cbn [with_refreshTokens refreshTokens].
  destruct (existsb _ _); cbn [fst].
  - apply shrink_keeps_invariant;
      [reflexivity | apply same_otps | apply same_otps
      | apply revoked_tokens | lia].
  - unfold with_nextId, with_refreshTokens.
    cbn [users otps refreshTokens nextId outbox].
    apply shrink_keeps_invariant;
      [reflexivity | apply same_otps | apply same_otps | | lia].
    apply issued_token; [apply revoked_tokens|].
    exact (found_user_id _ w u Hu).
Qed.

Lemma serve_keeps env rq w : keepsOtpInvariant w (serve env rq w).
Proof.
  destruct rq; cbn [serve].
  - destruct (userByEmail w email) as [u|] eqn:Hu;
      [|apply same_keeps_invariant].
    destruct (bcrypt_compare _ _); [|apply same_keeps_invariant].
    apply login_keeps. exact (found_user_id _ w u Hu).
  - apply register_keeps.
  - apply verifyEmail_keeps.
  - apply resendVerificationEmail_keeps.
  - apply forgotPassword_keeps.
  - apply resetPassword_keeps.
  - apply changePassword_keeps.
  - apply sendOtp_keeps.
  - apply verifyOtp_keeps.
  - apply refreshAccessToken_keeps.
  - apply revokeRefreshToken_keeps.
  - apply revokeAllUserRefreshTokens_keeps.
  - apply cleanupExpiredOtps_keeps.
  - apply cleanupExpiredRefreshTokens_keeps.
Qed.

Lemma initialWorld_invariant :
  integrity initialWorld /\ forall t, atMostOneValidOtp t initialWorld.
Proof.
  split; [constructor; intros x [] | intros t userId type; cbn; lia].
Qed.

(** In every store the service can reach from the empty one, whatever the
    requests and their outcomes, each user has at most one unused,
    unexpired OTP per type at every instant. *)
Lemma reachable_at_most_one_valid_otp w :
  reachable w -> integrity w /\ forall t, atMostOneValidOtp t w.
Proof.
  induction 1 as [|env rq w Hw [Hi Hb]].
  - exact initialWorld_invariant.
  - destruct (serve_keeps env rq w Hi) as [Hi' Hb']. split; auto.
Qed.

(** C4. At most one unused, unexpired OTP per user and type, at any time.
    Each issuing call keeps the bound: from a store with intact keys and
    owners in which it holds at a time [t], [sendOtp], [forgotPassword],
    [resendVerificationEmail] and [register] lead, whatever their outcome,
    to a store with intact keys and owners in which it holds at [t] (the
    unused rows in the scope of the call are marked used before the new
    row is inserted; [register] inserts for a user that has no row yet).
    Hence it holds at every instant in every store the service reaches
    from the empty one. *)
Theorem issuing_keeps_at_most_one_valid_otp env w t :
  integrity w -> atMostOneValidOtp t w ->
  (forall email,
     integrity (fst (sendOtp env email w))
     /\ atMostOneValidOtp t (fst (sendOtp env email w)))
  /\ (forall email,
     integrity (fst (forgotPassword env email w))
     /\ atMostOneValidOtp t (fst (forgotPassword env email w)))
  /\ (forall email,
     integrity (fst (resendVerificationEmail env email w))
     /\ atMostOneValidOtp t (fst (resendVerificationEmail env email w)))
  /\ (forall dto,
     integrity (fst (register env dto w))
     /\ atMostOneValidOtp t (fst (register env dto w)))
  /\ (forall w0, reachable w0 -> forall t0, atMostOneValidOtp t0 w0).
Proof.
  intros Hi Hb.
  assert (K : forall w', keepsOtpInvariant w w' ->
                integrity w' /\ atMostOneValidOtp t w').
  { intros w' H. destruct (H Hi) as [H1 H2]. split; auto. }
  split; [intros email; apply K, sendOtp_keeps|].
  split; [intros email; apply K, forgotPassword_keeps|].
  split; [intros email; apply K, resendVerificationEmail_keeps|].
  split; [intros dto; apply K, register_keeps|].
  intros w0 Hw0. now apply reachable_at_most_one_valid_otp.
Qed.
End RequestsInvariant.

(** * Worked examples

    The theorems above at the run of [Example], and the inputs at which
    the statements of the specification that had to be amended fail. *)

Import Example.

Ltac single_row H := vm_compute in H; destruct H as [<- | []].

(** C1 at Alice's session: [R1] is rotated at 5 s; afterwards [R1] is
    refused and the new token refreshes. *)
Lemma refreshAccessToken_rotation_witness :
  verify (JwtService := jwt) R1 5000 <> None
  /\ storedToken loggedIn R1 = Some R1Row
  /\ snd (refreshAccessToken (jwtService := jwt) (online 5000) R1 None None
            loggedIn)
     = Ok (mkTokenPair "HS256|access|a@x.com|0|CUSTOMER|5|86405"
                       "HS256|refresh|0|5|604805")
  /\ isOk (snd (refreshAccessToken (jwtService := jwt) (online 9000) R1 None
                  None rotated)) = false
  /\ isOk (snd (refreshAccessToken (jwtService := jwt) (online 9000)
                  "HS256|refresh|0|5|604805" None None rotated)) = true.
Proof.
  assert (Hv : verify (JwtService := jwt) R1 (now (online 5000)) <> None)
    by (vm_compute; discriminate).
  assert (Hs : storedToken loggedIn R1 = Some R1Row)
    by (vm_compute; reflexivity).
  assert (Hr : RefreshToken.isRevoked R1Row = false) by reflexivity.
  assert (He : now (online 5000) <= RefreshToken.expiresAt R1Row)
    by (vm_compute; discriminate).
  assert (Hu : userById loggedIn (RefreshToken.userId R1Row) = Some aliceRow)
    by (vm_compute; reflexivity).
  assert (Hf : freshToken
                 (sign (JwtService := jwt) (RefreshClaims (User.id aliceRow))
                       "7d" (now (online 5000))) loggedIn)
    by (apply freshToken_find; vm_compute; reflexivity).
  destruct (@refreshAccessToken_rotation jwt (online 5000) R1 None None
              loggedIn R1Row aliceRow Hv Hs Hr He Hu Hf)
    as (Hok & _ & _ & _ & Hagain & Hnext & _).
  split; [exact Hv|]. split; [exact Hs|]. split; [exact Hok|]. split.
  - destruct (Hagain (online 9000) None None) as [m Hm].
    unfold rotated. now rewrite Hm.
  - apply (Hnext (online 9000) None None).
    + vm_compute; discriminate.
    + vm_compute; discriminate.
    + apply freshToken_find. vm_compute. reflexivity.
Defined.

(** C1 as stated fails: seven days after the login, half a second before
    the stored [expiresAt], the row of [R1] is present, not revoked and
    not expired, but the [exp] claim of [R1] (whole seconds) has been
    reached, and the call is refused. *)
Lemma refresh_refused_with_live_row :
  storedToken loggedIn R1 = Some R1Row
  /\ RefreshToken.isRevoked R1Row = false
  /\ (RefreshToken.expiresAt R1Row <? 604802000) = false
  /\ refreshAccessToken (jwtService := jwt) (online 604802000) R1 None None
       loggedIn
     = (loggedIn,
        Throw (UnauthorizedException "Invalid or expired refresh token")).
Proof. vm_compute. repeat split. Qed.

(** The rotation in the second the token was signed in: the new string is
    [R1] again, the insert violates the unique column and the call throws
    after it has revoked [R1]. *)
Example rotation_within_the_signing_second :
  snd (refreshAccessToken (jwtService := jwt) (online 2900) R1 None None
         loggedIn)
  = Throw (PrismaClientKnownRequestError "P2002")
  /\ option_map RefreshToken.isRevoked
       (storedToken
          (fst (refreshAccessToken (jwtService := jwt) (online 2900) R1 None
                  None loggedIn)) R1)
     = Some true.
Proof. vm_compute. split; reflexivity. Qed.

(** C2 at four tokens: a string that is no token, a signed token that was
    never stored, the rotated [R1], and [R1] with a stored expiry in the
    past. *)
Lemma refreshAccessToken_rejections_witness :
  refreshAccessToken (jwtService := jwt) (online 5000) "not-a-token" None None
    loggedIn
  = (loggedIn, Throw (UnauthorizedException "Invalid or expired refresh token"))
  /\ refreshAccessToken (jwtService := jwt) (online 5000)
       "HS256|refresh|7|2|604802" None None loggedIn
     = (loggedIn, Throw (UnauthorizedException "Refresh token not found"))
  /\ refreshAccessToken (jwtService := jwt) (online 9000) R1 None None rotated
     = (rotated, Throw (UnauthorizedException "Refresh token has been revoked"))
  /\ refreshAccessToken (jwtService := jwt) (online 5000) R1 None None stale
     = (stale, Throw (UnauthorizedException "Refresh token has expired")).
Proof.
  split; [|split; [|split]].
  - apply (proj1 (@refreshAccessToken_rejections jwt (online 5000)
                    "not-a-token" None None loggedIn)).
    vm_compute. reflexivity.
  - apply (proj1 (proj2 (@refreshAccessToken_rejections jwt (online 5000)
                           "HS256|refresh|7|2|604802" None None loggedIn))).
    + vm_compute. discriminate.
    + vm_compute. reflexivity.
  - apply (proj1 (proj2 (proj2 (@refreshAccessToken_rejections jwt
                                  (online 9000) R1 None None rotated)))
             (RefreshToken.set_isRevoked true R1Row)).
    + vm_compute. discriminate.
    + vm_compute. reflexivity.
    + reflexivity.
  - apply (proj2 (proj2 (proj2 (@refreshAccessToken_rejections jwt
                                  (online 5000) R1 None None stale)))
             (RefreshToken.mk 2%N R1 3000 false None None 2500 0%N)).
    + vm_compute. discriminate.
    + vm_compute. reflexivity.
    + reflexivity.
    + vm_compute. reflexivity.
Defined.

(** C3 at Alice's codes: the VERIFICATION code validates once on
    [verifyEmail] and is then refused as already verified; in [twoCodes]
    the PASSWORD_RESET code validates once on [resetPassword] and is then
    refused as invalid or expired; at its [expiresAt] the code validates
    on no path. *)
Lemma otp_validation_consumes_witness :
  isOk (snd (verifyEmail (online 2000) "a@x.com" code registered)) = true
  /\ In (Otp.set_isUsed true codeRow)
        (otps (fst (verifyEmail (online 2000) "a@x.com" code registered)))
  /\ verifyEmail (online 3000) "a@x.com" code
       (fst (verifyEmail (online 2000) "a@x.com" code registered))
     = (fst (verifyEmail (online 2000) "a@x.com" code registered),
        Throw (BadRequestException "Email is already verified"))
  /\ isOk (snd (resetPassword (bcrypt := bc) (online 5000) "a@x.com" code
                  "Pw2@bbbb" twoCodes)) = true
  /\ resetPassword (bcrypt := bc) (online 6000) "a@x.com" code "Pw3@cccc"
       (fst (resetPassword (bcrypt := bc) (online 5000) "a@x.com" code
               "Pw2@bbbb" twoCodes))
     = (fst (resetPassword (bcrypt := bc) (online 5000) "a@x.com" code
               "Pw2@bbbb" twoCodes),
        Throw (BadRequestException "Invalid or expired reset code"))
  /\ isOk (snd (verifyOtp (jwtService := jwt) (online 601500) "a@x.com" code
                  None None registered)) = false.
Proof.
  assert (Hu : userByEmail registered "a@x.com" = Some newAliceRow)
    by (vm_compute; reflexivity).
  assert (Hv : User.isEmailVerified newAliceRow = false) by reflexivity.
  assert (Hf : find (typedOtpWhere (User.id newAliceRow) code VERIFICATION
                       (now (online 2000))) (otps registered) = Some codeRow)
    by (vm_compute; reflexivity).
  destruct (@otp_validation_consumes jwt bc (online 2000) "a@x.com" code
              registered newAliceRow Hu) as (Hmail & _ & _ & _).
  destruct (Hmail Hv) as (Hiff & _ & Hused).
  destruct (Hused codeRow Hf) as (Hin & Hagain).
  split; [|split; [exact Hin|split; [exact (Hagain (online 3000))|]]].
  { apply Hiff. exists codeRow. vm_compute.
    repeat split; try reflexivity. left; reflexivity. }
  assert (Hu2 : userByEmail twoCodes "a@x.com" = Some newAliceRow)
    by (vm_compute; reflexivity).
  assert (Hf2 : find (typedOtpWhere (User.id newAliceRow) code PASSWORD_RESET
                        (now (online 5000))) (otps twoCodes) = Some resetRow)
    by (vm_compute; reflexivity).
  assert (Hb : atMostOneValidOtp (now (online 5000)) twoCodes).
  { apply (@reachable_at_most_one_valid_otp jwt bc). unfold twoCodes.
    apply (reachable_serve (online 4000) (ForgotPassword "a@x.com")).
    apply (reachable_serve (online 3000) (SendOtp "a@x.com")).
    apply (reachable_serve (online 1500) (Register alice)).
    apply reachable_initial. }
  destruct (@otp_validation_consumes jwt bc (online 5000) "a@x.com" code
              twoCodes newAliceRow Hu2) as (_ & Hreset & _ & _).
  destruct (Hreset "Pw2@bbbb") as (Hiff2 & _ & Hused2).
  destruct (Hused2 resetRow Hf2) as (_ & Hagain2).
  split; [|split; [apply (Hagain2 Hb (online 6000) "Pw3@cccc");
                   vm_compute; discriminate|]].
  { apply Hiff2. exists resetRow. vm_compute.
    repeat split; try reflexivity. right. right. left; reflexivity. }
  destruct (@otp_validation_consumes jwt bc (online 601500) "a@x.com" code
              registered newAliceRow Hu) as (_ & _ & _ & Hexpired).
  apply Hexpired.
  intros o Hin' _ _. single_row Hin'. vm_compute. discriminate.
Defined.

(** C3 as stated fails: the scenario of the specification.  The second
    [verifyEmail] with the code that just validated is refused with
    "Email is already verified", not with the invalid-or-expired error. *)
Lemma second_verifyEmail_is_already_verified :
  snd (verifyEmail (online 2000) "a@x.com" code registered)
  = Ok "Email verified successfully"
  /\ snd (verifyEmail (online 3000) "a@x.com" code
            (fst (verifyEmail (online 2000) "a@x.com" code registered)))
     = Throw (BadRequestException "Email is already verified")
  /\ snd (verifyEmail (online 3000) "a@x.com" code
            (fst (verifyEmail (online 2000) "a@x.com" code registered)))
     <> Throw (BadRequestException "Invalid or expired verification code").
Proof. vm_compute. repeat split. discriminate. Qed.

(** Without a type in the look-up, the same code validates twice on
    [verifyOtp] when two unused rows of the user carry it. *)
Example verifyOtp_same_code_twice :
  In loginRow (otps twoCodes) /\ In resetRow (otps twoCodes)
  /\ isOk (snd (verifyOtp (jwtService := jwt) (online 5000) "a@x.com" code
                  None None twoCodes)) = true
  /\ isOk (snd (verifyOtp (jwtService := jwt) (online 7000) "a@x.com" code
                  None None
                  (fst (verifyOtp (jwtService := jwt) (online 5000) "a@x.com"
                          code None None twoCodes)))) = true.
Proof. vm_compute. repeat split; auto. Qed.

Lemma single_row_bound t (o : Otp.t) w :
  otps w = [o] -> atMostOneValidOtp t w.
Proof.
  intros H userId type. rewrite H, countWhere_singleton.
  destruct (validOtpOf userId type t o); lia.
Qed.

(** C4 at Alice's store: after each issuing call at 3 s the bound holds,
    and [sendOtp] leaves exactly one valid LOGIN code. *)
Lemma issuing_keeps_at_most_one_valid_otp_witness :
  integrity registered /\ atMostOneValidOtp 3000 registered
  /\ atMostOneValidOtp 3000 (fst (sendOtp (online 3000) "a@x.com" registered))
  /\ atMostOneValidOtp 3000
       (fst (forgotPassword (online 3000) "a@x.com" registered))
  /\ atMostOneValidOtp 3000
       (fst (resendVerificationEmail (online 3000) "a@x.com" registered))
  /\ atMostOneValidOtp 3000
       (fst (register (bcrypt := bc) (online 3000)
               (mkRegisterDto "b@x.com" "Pw1@aaaa" None None) registered))
  /\ atMostOneValidOtp 3000 twoCodes.
Proof.
  assert (Hi : integrity registered).
  { constructor; vm_compute.
    - intros i [<- | []]. reflexivity.
    - intros o [<- | []]. now left.
    - intros r []. }
  assert (Hb : atMostOneValidOtp 3000 registered)
    by (apply (single_row_bound 3000 codeRow); vm_compute; reflexivity).
  destruct (@issuing_keeps_at_most_one_valid_otp jwt bc (online 3000)
              registered 3000 Hi Hb) as (H1 & H2 & H3 & H4 & H5).
  split; [exact Hi|]. split; [exact Hb|].
  split; [exact (proj2 (H1 "a@x.com"))|].
  split; [exact (proj2 (H2 "a@x.com"))|].
  split; [exact (proj2 (H3 "a@x.com"))|].
  split; [exact (proj2 (H4 (mkRegisterDto "b@x.com" "Pw1@aaaa" None None)))|].
  apply H5. unfold twoCodes.
  apply (reachable_serve (online 4000) (ForgotPassword "a@x.com")).
  apply (reachable_serve (online 3000) (SendOtp "a@x.com")).
  apply (reachable_serve (online 1500) (Register alice)).
  apply reachable_initial.
Defined.

(** C5 at Alice's registration: the first [register] stores her row and a
    six-digit code and returns her object without the password; the
    second is refused. *)
Lemma register_contract_witness :
  validRandom (random (online 1500))
  /\ register (bcrypt := bc) (online 1500) alice registered
     = (registered, Throw (UnauthorizedException "User already exists"))
  /\ users registered = [newAliceRow]
  /\ otps registered = [codeRow]
  /\ String.length code = 6%nat
  /\ outbox registered = [mkMail "a@x.com" "Verify Your Email Address" code]
  /\ snd (register (bcrypt := bc) (online 1500) alice initialWorld)
     = Ok (mkRegistered REGISTERED_MESSAGE
             (omit "password" (userObject newAliceRow)))
  /\ getProperty "password" (omit "password" (userObject newAliceRow)) = None.
Proof.
  assert (Hr : validRandom (random (online 1500)))
    by (unfold validRandom; cbn; lia).
  destruct (@register_contract bc (online 1500) alice registered Hr)
    as (Hknown & _).
  destruct (@register_contract bc (online 1500) alice initialWorld Hr)
    as (_ & Hnew).
  destruct Hknown as (Hthrow & _); [vm_compute; discriminate|].
  destruct Hnew as (Husers & _ & _ & Hotps & Hlen & _ & Hsent);
    [reflexivity|].
  destruct Hsent as (Hout & Hret & Hpw & _); [reflexivity|].
  split; [exact Hr|]. split; [exact Hthrow|].
  split; [exact Husers|]. split; [exact Hotps|]. split; [exact Hlen|].
  split; [exact Hout|]. split; [exact Hret | exact Hpw].
Defined.

(** C5 as stated fails: a second registration of Alice's email is refused
    with an [UnauthorizedException] (401), which is not a Conflict. *)
Lemma register_duplicate_is_unauthorized :
  userByEmail registered (dto_email alice) = Some newAliceRow
  /\ snd (register (bcrypt := bc) (online 9000) alice registered)
     = Throw (UnauthorizedException "User already exists")
  /\ getStatus (UnauthorizedException "User already exists") = 401
  /\ getStatus (UnauthorizedException "User already exists")
     <> getStatus (ConflictException "User already exists").
Proof. vm_compute. repeat split. discriminate. Qed.


(** C7 at Alice's store: her email and an unknown one get the same text. *)
Lemma forgotPassword_same_message_witness :
  snd (forgotPassword (online 3000) "a@x.com" registered)
  = Ok GENERIC_RESET_MESSAGE
  /\ snd (forgotPassword (offline 3000) "nobody@x.com" registered)
     = Ok GENERIC_RESET_MESSAGE.
Proof.
  destruct (forgotPassword_same_message (online 3000) (offline 3000)
              "a@x.com" "nobody@x.com" registered)
    as (Hunknown & Hknown & _ & _).
  - vm_compute. discriminate.
  - vm_compute. reflexivity.
  - split; [apply Hknown; reflexivity | exact Hunknown].
Defined.


(** C7 as stated fails: with the transport down, the call on Alice's
    email throws and the call on an unknown email returns the message. *)
Lemma forgotPassword_differs_when_mail_fails :
  userByEmail registered "a@x.com" = Some newAliceRow
  /\ userByEmail registered "nobody@x.com" = None
  /\ snd (forgotPassword (offline 3000) "a@x.com" registered)
     = Throw (Error "Failed to send password reset email")
  /\ snd (forgotPassword (offline 3000) "nobody@x.com" registered)
     = Ok GENERIC_RESET_MESSAGE.
Proof. vm_compute. repeat split. Qed.

(** Across the change to summer time the stored expiry is an hour short
    of 7 x 24 hours: a login on 25 March 2026, 12:00 UTC, in the zone
    [berlin] stores a row that expires after 601200000 ms, and one
    millisecond later the token, whose [exp] claim is 604800 s after the
    login, is refused as expired. *)
Example expiry_across_the_clock_change :
  sevenDaysFromNow march25 = now march25 + 601200000
  /\ option_map RefreshToken.expiresAt
       (storedToken berlinSession "HS256|refresh|0|1774440000|1775044800")
     = Some (1774440000000 + 601200000)
  /\ verify (JwtService := jwt) "HS256|refresh|0|1774440000|1775044800"
       (1774440000000 + 601200001) <> None
  /\ refreshAccessToken (jwtService := jwt)
       (mkEnv (1774440000000 + 601200001) 12345678901234 true berlin)
       "HS256|refresh|0|1774440000|1775044800" None None berlinSession
     = (berlinSession,
        Throw (UnauthorizedException "Refresh token has expired")).
Proof.
  vm_compute. split; [reflexivity|]. split; [reflexivity|].
  split; [discriminate | reflexivity].
Qed.

(** The arithmetic of [Double] gives the number the kernel's binary64
    arithmetic gives: at a draw where the rounding of the product
    decides the code (126371, where exact arithmetic has 126370), at the
    ends of the range, and along 2000 draws. *)
Example generateOtpCode_on_binary64 :
  generateOtpCode 263920946163083 = "126371"
  /\ Binary64.otpNumber 263920946163083 = 126371
  /\ 100000 + 263920946163083 * 900000 / 2 ^ 53 = 126370
  /\ forallb
       (fun random =>
          String.eqb (generateOtpCode random)
                     (toString (Binary64.otpNumber random)))
       (0 :: 1 :: 2 ^ 53 - 1 :: 2 ^ 52 :: 2 ^ 52 + 1
          :: Binary64.draws 2000 263920946163083)
     = true.
Proof. vm_compute. repeat split. Qed.

(** C8 at Alice's session: after logout-all [R1] no longer refreshes, and
    a second logout-all changes nothing. *)
Lemma revokeAllUserRefreshTokens_idempotent_witness :
  storedToken loggedIn R1 = Some R1Row
  /\ isOk (snd (refreshAccessToken (jwtService := jwt) (online 5000) R1 None
                  None (fst (revokeAllUserRefreshTokens 0%N loggedIn))))
     = false
  /\ fst (revokeAllUserRefreshTokens 0%N
            (fst (revokeAllUserRefreshTokens 0%N loggedIn)))
     = fst (revokeAllUserRefreshTokens 0%N loggedIn).
Proof.
  assert (Hs : storedToken loggedIn R1 = Some R1Row)
    by (vm_compute; reflexivity).
  destruct (@revokeAllUserRefreshTokens_idempotent jwt 0%N loggedIn)
    as (_ & _ & _ & Hrefuse & Hidem).
  split; [exact Hs|]. split; [|exact Hidem].
  destruct (Hrefuse (online 5000) R1 None None R1Row Hs eq_refl) as [m Hm].
  now rewrite Hm.
Defined.

(** C9 with the transport down: Alice's registration and her later reset
    request throw, and the code rows are stored. *)
Lemma mail_failure_is_raised_witness :
  snd (register (bcrypt := bc) (offline 1500) alice initialWorld)
  = Throw (Error "Failed to send verification email")
  /\ In codeRow
        (otps (fst (register (bcrypt := bc) (offline 1500) alice initialWorld)))
  /\ snd (forgotPassword (offline 4000) "a@x.com" registered)
     = Throw (Error "Failed to send password reset email")
  /\ In (Otp.mk 2%N code 604000 false PASSWORD_RESET 4000 0%N)
        (otps (fst (forgotPassword (offline 4000) "a@x.com" registered))).
Proof.
  destruct (@mail_failure_is_raised bc (offline 1500) initialWorld eq_refl)
    as (Hreg & _).
  destruct (@mail_failure_is_raised bc (offline 4000) registered eq_refl)
    as (_ & Hforgot).
  destruct (Hreg alice eq_refl) as (H1 & H2 & _).
  destruct (Hforgot "a@x.com" newAliceRow) as (H3 & H4 & _);
    [vm_compute; reflexivity|].
  split; [exact H1|]. split; [exact H2|]. split; [exact H3 | exact H4].
Defined.

(** C10 at Alice's session: logout of [R1], logout of the already revoked
    [R1], and logout of a token that was never stored. *)
Lemma revokeRefreshToken_idempotent_witness :
  snd (revokeRefreshToken R1 loggedIn)
  = Ok "Refresh token revoked successfully"
  /\ RefreshToken.isRevoked (RefreshToken.set_isRevoked true R1Row) = true
  /\ revokeRefreshToken R1 rotated
     = (fst (revokeRefreshToken R1 rotated),
        Ok "Refresh token revoked successfully")
  /\ storedToken (fst (revokeRefreshToken R1 rotated)) R1
     = Some (RefreshToken.set_isRevoked true R1Row)
  /\ revokeRefreshToken "HS256|refresh|7|2|604802" loggedIn
     = (loggedIn, Throw (NotFoundException "Refresh token not found")).
Proof.
  destruct (revokeRefreshToken_idempotent R1 loggedIn) as (_ & Hlive).
  destruct (revokeRefreshToken_idempotent R1 rotated) as (_ & Hrevoked).
  destruct (revokeRefreshToken_idempotent "HS256|refresh|7|2|604802" loggedIn)
    as (Hnone & _).
  destruct (Hlive R1Row) as (H1 & _); [vm_compute; reflexivity|].
  destruct (Hrevoked (RefreshToken.set_isRevoked true R1Row))
    as (H2 & _ & H3 & _); [vm_compute; reflexivity|].
  split; [exact H1|]. split; [reflexivity|].
  split; [|split; [exact (H3 eq_refl)|apply Hnone; vm_compute; reflexivity]].
  rewrite <- H2. apply surjective_pairing.
Defined.


(** * More of the service

    Properties of the methods the claims do not reach, of the calls in
    sequence, and of the response layer. *)

(** ** Reading users: [validateUser], [findById] *)

Lemma password_omitted u :
  getProperty "password" (omit "password" (userObject u)) = None
  /\ getProperty "email" (omit "password" (userObject u))
     = Some (JsString (User.email u)).
Proof. split; reflexivity. Qed.

Section ReadingUsers.
Context {bcrypt : Bcrypt}.

Lemma validateUser_accepts email password w u :
  userByEmail w email = Some u ->
  bcrypt_compare password (User.password u) = true ->
  snd (validateUser email password w)
  = Ok (Some (omit "password" (userObject u))).
Proof.
  unfold validateUser. run. intros -> Hc. cbn [fst snd]. now rewrite Hc.
Qed.

(** X1. [validateUser] only reads.  It answers [null] for an email that
    is not stored and for a password that does not compare, the same
    answer in both cases; when the password compares it answers the row
    found by email without its [password] property. *)
Theorem validateUser_contract email password w :
  fst (validateUser email password w) = w
  /\ (userByEmail w email = None ->
      snd (validateUser email password w) = Ok None)
  /\ (forall u, userByEmail w email = Some u ->
      bcrypt_compare password (User.password u) = false ->
      snd (validateUser email password w) = Ok None)
  /\ (forall u, userByEmail w email = Some u ->
      bcrypt_compare password (User.password u) = true ->
      snd (validateUser email password w)
      = Ok (Some (omit "password" (userObject u))))
  /\ (forall result,
      snd (validateUser email password w) = Ok (Some result) ->
      getProperty "password" result = None).
Proof.
  unfold validateUser. run.
  destruct (find _ (users w)) as [u|] eqn:Hu; cbn [fst snd].
  - destruct (bcrypt_compare password (User.password u)) eqn:Hc; cbn [fst snd].
    + split; [reflexivity|]. split; [discriminate|].
      split; [intros u' [= <-]; congruence|].
      split; [intros u' [= <-] _; reflexivity|].
      intros result [= <-]. reflexivity.
    + split; [reflexivity|]. split; [discriminate|].
      split; [reflexivity|].
      split; [intros u' [= <-]; congruence | discriminate].
  - split; [reflexivity|]. split; [reflexivity|].
    split; [discriminate|]. split; discriminate.
Qed.

(** X2. A registration can be logged into: with a hasher whose hashes
    compare equal to their plain text, after [register] on a new email
    (whether or not the mail went out) [validateUser] with the same email
    and password answers the new user, without the password. *)
Theorem register_then_validateUser env dto w :
  bcryptVerifies bcrypt ->
  userByEmail w (dto_email dto) = None ->
  snd (validateUser (dto_email dto) (dto_password dto)
         (fst (register env dto w)))
  = Ok (Some (omit "password"
                (userObject
                   (newUserRow w env dto
                      (bcrypt_hash (dto_password dto) 10))))).
Proof.
  intros Hb Hnew. rewrite (register_new_email env dto w Hnew). cbn [fst].
  apply validateUser_accepts.
  - unfold userByEmail. cbn [users]. apply find_app_fresh; [exact Hnew|].
    cbn. apply String.eqb_refl.
  - cbn. apply Hb.
Qed.

(** X3. [findById] only reads: [null] for a key that is not stored,
    otherwise the row with that key without its [password] property. *)
Theorem findById_contract id w :
  fst (findById id w) = w
  /\ (userById w id = None -> snd (findById id w) = Ok None)
  /\ (forall u, userById w id = Some u ->
      snd (findById id w) = Ok (Some (omit "password" (userObject u)))
      /\ User.id u = id)
  /\ (forall result, snd (findById id w) = Ok (Some result) ->
      getProperty "password" result = None).
Proof.
  unfold findById. run.
  destruct (find _ (users w)) as [u|] eqn:Hu; cbn [fst snd].
  - split; [reflexivity|]. split; [discriminate|].
    split.
    + intros u' [= <-]. split; [reflexivity|].
      apply find_some in Hu as [_ Hu]. now apply N.eqb_eq.
    + intros result [= <-]. reflexivity.
  - split; [reflexivity|]. split; [reflexivity|]. split; discriminate.
Qed.

End ReadingUsers.

(** ** Issuing a code, then validating it *)

(** After invalidate-then-issue, the inserted row is the only unused row
    in the scope [q] the [where] clause [p] covers. *)
Lemma issued_is_only_unused (p q : Otp.t -> bool) l o x :
  (forall y, q y = true -> Otp.isUsed y = false -> p y = true) ->
  In x (updateWhere p (Otp.set_isUsed true) l ++ [o]) ->
  q x = true -> Otp.isUsed x = false ->
  (forall y, q (Otp.set_isUsed true y) = q y) ->
  x = o.
Proof.
  intros Hp Hin Hq Hunused Hqused.
  apply in_app_or in Hin as [Hin | [<- | []]]; [|reflexivity].
  apply In_updateWhere in Hin as (y & _ & ->).
  destruct (p y) eqn:Epy; [discriminate|].
  rewrite (Hp y Hq Hunused) in Epy. discriminate.
Qed.

Lemma untouched_outside_scope (p : Otp.t -> bool) l o x :
  p x = false -> (forall y, p y = true -> Otp.set_isUsed true y <> x) ->
  x <> o ->
  (In x (updateWhere p (Otp.set_isUsed true) l ++ [o]) <-> In x l).
Proof.
  intros Hpx Hused Hne. split.
  - intros Hin. apply in_app_or in Hin as [Hin | [<- | []]]; [|congruence].
    apply In_updateWhere in Hin as (y & Hy & ->).
    destruct (p y) eqn:Epy; [|exact Hy]. exfalso. now apply (Hused y).
  - intros Hin. apply in_or_app. left. apply In_updateWhere.
    exists x. split; [exact Hin | now rewrite Hpx].
Qed.

Lemma newOtpRow_matches env id type userId otpCode t :
  typedOtpWhere userId otpCode type t (newOtpRow env id type userId) = true
  <-> otpCode = generateOtpCode (random env) /\ t < now env + 600000.
Proof.
  rewrite typedOtpWhere_spec. cbn. unfold TEN_MINUTES. split.
  - intros (_ & <- & _ & _ & H). split; [reflexivity | lia].
  - intros [-> H]. repeat split. lia.
Qed.

Section IssueThenValidate.
Context {jwtService : JwtService} {bcrypt : Bcrypt}.

(** X5. A reset code works for its ten minutes and for nothing else.
    After [forgotPassword] on a stored email (whether or not the mail went
    out), [resetPassword] for that email succeeds exactly when it is given
    the issued code less than 600000 ms after the issuance; it then stores
    the hash of the new password on that user's row; every other call is
    refused with the invalid-or-expired error and writes nothing. *)
Theorem forgotPassword_then_resetPassword env env' email otpCode
    newPassword w u :
  userByEmail w email = Some u ->
  let w1 := fst (forgotPassword env email w) in
  (isOk (snd (resetPassword env' email otpCode newPassword w1)) = true
   <-> otpCode = generateOtpCode (random env)
       /\ now env' < now env + 600000)
  /\ (isOk (snd (resetPassword env' email otpCode newPassword w1)) = true ->
      userByEmail (fst (resetPassword env' email otpCode newPassword w1)) email
      = Some (User.touch (now env')
                (User.set_password (bcrypt_hash newPassword 10) u)))
  /\ (isOk (snd (resetPassword env' email otpCode newPassword w1)) = false ->
      resetPassword env' email otpCode newPassword w1
      = (w1, Throw (BadRequestException "Invalid or expired reset code"))).
Proof.
  intros Hu w1. subst w1.
  rewrite (forgotPassword_known_email env email w u Hu). cbn [fst].
  set (w1 := mkWorld _ _ _ _ _).
  assert (Hu1 : userByEmail w1 email = Some u) by exact Hu.
  destruct (resetPassword_validation env' email otpCode newPassword w1 u Hu1)
    as (Hiff & Hno & _).
  assert (Hm : otpMatches w1 (User.id u) otpCode (Some PASSWORD_RESET)
                 (now env')
               <-> otpCode = generateOtpCode (random env)
                   /\ now env' < now env + 600000).
  { split.
    - intros (o & Hin & Ho1 & Ho2 & Ho3 & Ho4 & Ho5).
      assert (o = newOtpRow env (nextId w) PASSWORD_RESET (User.id u)).
      { refine (issued_is_only_unused _
                  (fun y => N.eqb (Otp.userId y) (User.id u)
                            && OtpType_eqb (Otp.type y) PASSWORD_RESET)
                  _ _ _ _ Hin _ _ _).
        - intros y Hy Hy'. now rewrite Hy, Hy'.
        - rewrite Ho1, Ho5, N.eqb_refl. reflexivity.
        - exact Ho3.
        - reflexivity. }
      subst o. cbn in Ho2, Ho4. unfold TEN_MINUTES in Ho4.
      split; [congruence | lia].
    - intros H. exists (newOtpRow env (nextId w) PASSWORD_RESET (User.id u)).
      split; [apply in_or_app; right; now left|].
      apply (newOtpRow_matches env (nextId w) PASSWORD_RESET (User.id u))
        in H.
      apply typedOtpWhere_spec in H. tauto. }
  split; [now rewrite Hiff|]. split.
  - intros Hok. apply Hiff in Hok. apply otpMatches_typed in Hok.
    destruct (find (typedOtpWhere (User.id u) otpCode PASSWORD_RESET
                      (now env')) (otps w1)) as [o|] eqn:Hf; [|congruence].
    rewrite (resetPassword_match env' email otpCode newPassword w1 u o Hu1 Hf).
    unfold userByEmail, afterValidation. cbn [fst users].
    rewrite (userByEmail_after_update w1 email u)
      by (reflexivity || assumption).
    now rewrite N.eqb_refl.
  - intros Hfail. apply Hno. intros Hyes. apply Hiff in Hyes. congruence.
Qed.

(** X6. A verification code works for its ten minutes and for nothing
    else.  After [register] on a new email, in a store with intact keys
    and owners, [verifyEmail] for that email succeeds exactly when it is
    given the issued code less than 600000 ms after the registration; the
    user is then verified, and asking for another code is refused. *)
Theorem register_then_verifyEmail env env' dto otpCode w :
  integrity w ->
  userByEmail w (dto_email dto) = None ->
  let w1 := fst (register env dto w) in
  (isOk (snd (verifyEmail env' (dto_email dto) otpCode w1)) = true
   <-> otpCode = generateOtpCode (random env)
       /\ now env' < now env + 600000)
  /\ (isOk (snd (verifyEmail env' (dto_email dto) otpCode w1)) = true ->
      let w2 := fst (verifyEmail env' (dto_email dto) otpCode w1) in
      (exists u', userByEmail w2 (dto_email dto) = Some u'
                  /\ User.isEmailVerified u' = true)
      /\ forall env'',
           resendVerificationEmail env'' (dto_email dto) w2
           = (w2, Throw (BadRequestException "Email is already verified"))).
Proof.
  intros [Hk Hown _] Hnew w1. subst w1.
  rewrite (register_new_email env dto w Hnew). cbn [fst].
  set (u := newUserRow w env dto _). set (w1 := mkWorld _ _ _ _ _).
  assert (Hu1 : userByEmail w1 (dto_email dto) = Some u).
  { unfold userByEmail, w1. cbn [users]. apply find_app_fresh; [exact Hnew|].
    cbn. apply String.eqb_refl. }
  assert (Hv : User.isEmailVerified u = false) by reflexivity.
  destruct (verifyEmail_validation env' (dto_email dto) otpCode w1 u Hu1 Hv)
    as (Hiff & _ & _).
  assert (Hm : otpMatches w1 (User.id u) otpCode (Some VERIFICATION)
                 (now env')
               <-> otpCode = generateOtpCode (random env)
                   /\ now env' < now env + 600000).
  { split.
    - intros (o & Hin & Ho1 & Ho2 & Ho3 & Ho4 & Ho5).
      unfold w1 in Hin. cbn [otps] in Hin.
      apply in_app_or in Hin as [Hin | [<- | []]].
      + exfalso. specialize (Hk _ (Hown o Hin)). rewrite Ho1 in Hk.
        cbn in Hk. lia.
      + cbn in Ho2, Ho4. unfold TEN_MINUTES in Ho4.
        split; [congruence | lia].
    - intros H.
      exists (newOtpRow env (N.succ (nextId w)) VERIFICATION (nextId w)).
      split; [apply in_or_app; right; now left|].
      apply (newOtpRow_matches env (N.succ (nextId w)) VERIFICATION
               (nextId w)) in H.
      apply typedOtpWhere_spec in H. cbn [User.id u newUserRow]. tauto. }
  split; [now rewrite Hiff|].
  intros Hok. apply Hiff in Hok. apply otpMatches_typed in Hok.
  destruct (find (typedOtpWhere (User.id u) otpCode VERIFICATION (now env'))
                 (otps w1)) as [o|] eqn:Hf; [|congruence].
  rewrite (verifyEmail_match env' (dto_email dto) otpCode w1 u o Hu1 Hv Hf).
  cbn [fst].
  assert (Hu2 : userByEmail
                  (afterValidation w1 (now env') o (User.id u)
                     (User.set_isEmailVerified true)) (dto_email dto)
                = Some (User.touch (now env')
                          (User.set_isEmailVerified true u))).
  { unfold userByEmail, afterValidation. cbn [users].
    rewrite (userByEmail_after_update w1 (dto_email dto) u)
      by (reflexivity || assumption).
    now rewrite N.eqb_refl. }
  split.
  - eexists. split; [exact Hu2 | reflexivity].
  - intros env''. unfold resendVerificationEmail. run. now rewrite Hu2.
Qed.

(** X7. [sendOtp] refuses an email that is not stored without a write;
    for a stored one it leaves the new LOGIN code as the user's only
    unused OTP: every earlier code of the user, of any type, is used up,
    so a pending password reset or email verification can no longer be
    completed with it.  Rows of other users are as before. *)
Theorem sendOtp_supersedes_all_codes env email w :
  (userByEmail w email = None ->
     sendOtp env email w = (w, Throw (NotFoundException "User not found")))
  /\ (forall u, userByEmail w email = Some u ->
      let w' := fst (sendOtp env email w) in
      In (newOtpRow env (nextId w) LOGIN (User.id u)) (otps w')
      /\ (forall o, In o (otps w') -> Otp.userId o = User.id u ->
            Otp.isUsed o = false ->
            o = newOtpRow env (nextId w) LOGIN (User.id u))
      /\ (forall o, Otp.userId o <> User.id u ->
            (In o (otps w') <-> In o (otps w)))
      /\ (forall env' otpCode newPassword,
            resetPassword env' email otpCode newPassword w'
            = (w', Throw (BadRequestException "Invalid or expired reset code")))
      /\ (forall env' otpCode,
            isOk (snd (verifyEmail env' email otpCode w')) = false)).
Proof.
  split.
  - intros H. unfold sendOtp. run. now rewrite H.
  - intros u Hu. cbv zeta.
    rewrite (sendOtp_known_email env email w u Hu). cbn [fst].
    set (w1 := mkWorld _ _ _ _ _).
    assert (Hu1 : userByEmail w1 email = Some u) by exact Hu.
    assert (Honly : forall o, In o (otps w1) -> Otp.userId o = User.id u ->
                      Otp.isUsed o = false ->
                      o = newOtpRow env (nextId w) LOGIN (User.id u)).
    { intros o Hin Ho Hunused.
      refine (issued_is_only_unused _
                (fun y => N.eqb (Otp.userId y) (User.id u))
                _ _ _ _ Hin _ _ _).
      - intros y Hy Hy'. now rewrite Hy, Hy'.
      - rewrite Ho. apply N.eqb_refl.
      - exact Hunused.
      - reflexivity. }
    split; [apply in_or_app; right; now left|].
    split; [exact Honly|]. split; [|split].
    + intros o Ho. unfold w1. cbn [otps].
      apply untouched_outside_scope.
      * apply N.eqb_neq in Ho. now rewrite Ho.
      * intros y Hy E. apply andb_true_iff in Hy as [Hy _].
        apply N.eqb_eq in Hy. subst o. now apply Ho.
      * intros ->. now apply Ho.
    + intros env' otpCode newPassword.
      apply (resetPassword_no_match env' email otpCode newPassword w1 u Hu1).
      apply find_none_all. intros o Hin.
      destruct (typedOtpWhere (User.id u) otpCode PASSWORD_RESET (now env') o)
        eqn:E; [|reflexivity].
      apply typedOtpWhere_spec in E as (E1 & _ & E3 & E4 & _).
      rewrite (Honly o Hin E1 E4) in E3. discriminate.
    + intros env' otpCode.
      destruct (User.isEmailVerified u) eqn:Hv.
      * now rewrite (verifyEmail_already_verified env' email otpCode w1 u
                       Hu1 Hv).
      * rewrite (verifyEmail_no_match env' email otpCode w1 u Hu1 Hv);
          [reflexivity|].
        apply find_none_all. intros o Hin.
        destruct (typedOtpWhere (User.id u) otpCode VERIFICATION (now env') o)
          eqn:E; [|reflexivity].
        apply typedOtpWhere_spec in E as (E1 & _ & E3 & E4 & _).
        rewrite (Honly o Hin E1 E4) in E3. discriminate.
Qed.

(** X8. The login code works for its ten minutes and for nothing else.
    After [sendOtp] on a stored email, [verifyOtp] for that email refuses
    the code as invalid or expired exactly when it is not the issued code
    presented less than 600000 ms after the issuance; the issued code in
    time opens the session, the refresh token being storable. *)
Theorem sendOtp_then_verifyOtp env env' email otpCode ua ip w u :
  userByEmail w email = Some u ->
  let w1 := fst (sendOtp env email w) in
  (snd (verifyOtp env' email otpCode ua ip w1)
   = Throw (BadRequestException "Invalid or expired OTP")
   <-> ~ (otpCode = generateOtpCode (random env)
          /\ now env' < now env + 600000))
  /\ (otpCode = generateOtpCode (random env) ->
      now env' < now env + 600000 ->
      freshToken (sign (RefreshClaims (User.id u)) "7d" (now env')) w ->
      isOk (snd (verifyOtp env' email otpCode ua ip w1)) = true).
Proof.
  intros Hu w1. subst w1.
  rewrite (sendOtp_known_email env email w u Hu). cbn [fst].
  set (w1 := mkWorld _ _ _ _ _).
  assert (Hu1 : userByEmail w1 email = Some u) by exact Hu.
  destruct (verifyOtp_validation env' email otpCode ua ip w1 u Hu1)
    as (Hno & _ & Hyes & _).
  assert (Hm : otpMatches w1 (User.id u) otpCode None (now env')
               <-> otpCode = generateOtpCode (random env)
                   /\ now env' < now env + 600000).
  { split.
    - intros (o & Hin & Ho1 & Ho2 & Ho3 & Ho4 & _).
      assert (o = newOtpRow env (nextId w) LOGIN (User.id u)).
      { refine (issued_is_only_unused _
                  (fun y => N.eqb (Otp.userId y) (User.id u))
                  _ _ _ _ Hin _ _ _).
        - intros y Hy Hy'. now rewrite Hy, Hy'.
        - rewrite Ho1. apply N.eqb_refl.
        - exact Ho3.
        - reflexivity. }
      subst o. cbn in Ho2, Ho4. unfold TEN_MINUTES in Ho4.
      split; [congruence | lia].
    - intros [-> H]. exists (newOtpRow env (nextId w) LOGIN (User.id u)).
      split; [apply in_or_app; right; now left|].
      cbn. unfold TEN_MINUTES. repeat split. lia. }
  split.
  - split.
    + intros Hthrow Hcode. apply Hm in Hcode. apply otpMatches_any in Hcode.
      destruct (find (anyOtpWhere (User.id u) otpCode (now env')) (otps w1))
        as [o|] eqn:Hf; [|congruence].
      rewrite (verifyOtp_match env' email otpCode ua ip w1 u o Hu1 Hf)
        in Hthrow.
      apply login_only_unique_violation in Hthrow. discriminate.
    + intros Hcode. rewrite Hno; [reflexivity|]. now rewrite Hm.
  - intros Hc Ht Hfresh. apply Hyes; [apply Hm; now split|].
    intros r Hr. exact (Hfresh r Hr).
Qed.

(** X9. [resendVerificationEmail] refuses an email that is not stored
    (not found) and a verified user (bad request) without a write.  For
    an unverified user, [verifyEmail] then succeeds exactly with the new
    code in its ten minutes, so every earlier verification code is dead;
    rows of the other types, such as a pending password reset, are as
    before. *)
Theorem resendVerificationEmail_contract env email w :
  (userByEmail w email = None ->
     resendVerificationEmail env email w
     = (w, Throw (NotFoundException "User not found")))
  /\ (forall u, userByEmail w email = Some u ->
      User.isEmailVerified u = true ->
      resendVerificationEmail env email w
      = (w, Throw (BadRequestException "Email is already verified")))
  /\ (forall u, userByEmail w email = Some u ->
      User.isEmailVerified u = false ->
      let w1 := fst (resendVerificationEmail env email w) in
      (forall env' otpCode,
         isOk (snd (verifyEmail env' email otpCode w1)) = true
         <-> otpCode = generateOtpCode (random env)
             /\ now env' < now env + 600000)
      /\ (forall o, Otp.type o <> VERIFICATION ->
            (In o (otps w1) <-> In o (otps w)))).
Proof.
  split; [|split].
  - intros H. unfold resendVerificationEmail. run. now rewrite H.
  - intros u Hu Hv. unfold resendVerificationEmail. run. now rewrite Hu, Hv.
  - intros u Hu Hv. cbv zeta.
    rewrite (resendVerificationEmail_unverified env email w u Hu Hv).
    cbn [fst]. set (w1 := mkWorld _ _ _ _ _).
    assert (Hu1 : userByEmail w1 email = Some u) by exact Hu.
    split.
    + intros env' otpCode.
      destruct (verifyEmail_validation env' email otpCode w1 u Hu1 Hv)
        as (Hiff & _ & _).
      rewrite Hiff. split.
      * intros (o & Hin & Ho1 & Ho2 & Ho3 & Ho4 & Ho5).
        assert (o = newOtpRow env (nextId w) VERIFICATION (User.id u)).
        { refine (issued_is_only_unused _
                    (fun y => N.eqb (Otp.userId y) (User.id u)
                              && OtpType_eqb (Otp.type y) VERIFICATION)
                    _ _ _ _ Hin _ _ _).
          - intros y Hy Hy'. now rewrite Hy, Hy'.
          - rewrite Ho1, Ho5, N.eqb_refl. reflexivity.
          - exact Ho3.
          - reflexivity. }
        subst o. cbn in Ho2, Ho4. unfold TEN_MINUTES in Ho4.
        split; [congruence | lia].
      * intros H.
        exists (newOtpRow env (nextId w) VERIFICATION (User.id u)).
        split; [apply in_or_app; right; now left|].
        apply (newOtpRow_matches env (nextId w) VERIFICATION (User.id u))
          in H.
        apply typedOtpWhere_spec in H. tauto.
    + intros o Ho. unfold w1. cbn [otps].
      apply untouched_outside_scope.
      * destruct (OtpType_eqb (Otp.type o) VERIFICATION) eqn:E.
        -- apply OtpType_eqb_eq in E. contradiction.
        -- now rewrite andb_false_r.
      * intros y Hy E. apply andb_true_iff in Hy as [Hy _].
        apply andb_true_iff in Hy as [_ Hy]. apply OtpType_eqb_eq in Hy.
        subst o. now apply Ho.
      * intros ->. now apply Ho.
Qed.
End IssueThenValidate.

(** ** Purging rows: [cleanupExpiredOtps], [cleanupExpiredRefreshTokens] *)

Lemma find_deleteWhere_kept {A} (q p : A -> bool) (l : list A) :
  (forall x, q x = true -> p x = false) ->
  find q (deleteWhere p l) = find q l.
Proof.
  intros H. unfold deleteWhere. induction l as [|x l IH]; simpl; [reflexivity|].
  destruct (q x) eqn:Eq.
  - rewrite (H x Eq). simpl. now rewrite Eq.
  - destruct (p x); simpl; [exact IH | now rewrite Eq].
Qed.

Lemma find_deleteWhere_found {A} (q p : A -> bool) (l : list A) x :
  find q l = Some x -> p x = false -> find q (deleteWhere p l) = Some x.
Proof.
  unfold deleteWhere. induction l as [|y l IH]; simpl; [discriminate|].
  destruct (q y) eqn:Eq.
  - intros [= ->] Hp. rewrite Hp. simpl. now rewrite Eq.
  - intros Hf Hp. destruct (p y); simpl; [|rewrite Eq]; now apply IH.
Qed.

Lemma deleteWhere_idempotent {A} (p : A -> bool) (l : list A) :
  deleteWhere p (deleteWhere p l) = deleteWhere p l.
Proof.
  unfold deleteWhere. induction l as [|x l IH]; simpl; [reflexivity|].
  destruct (p x) eqn:E; simpl; [exact IH | now rewrite E, IH].
Qed.

Lemma length_deleteWhere {A} (p : A -> bool) (l : list A) :
  countWhere p l = (List.length l - List.length (deleteWhere p l))%nat
  /\ (List.length (deleteWhere p l) <= List.length l)%nat.
Proof.
  unfold countWhere, deleteWhere.
  induction l as [|x l [IH1 IH2]]; cbn [filter List.length];
    [split; reflexivity|].
  destruct (p x); cbn [negb List.length]; lia.
Qed.

Lemma In_deleteWhere {A} (p : A -> bool) (l : list A) x :
  In x (deleteWhere p l) <-> In x l /\ p x = false.
Proof.
  unfold deleteWhere. rewrite filter_In. now rewrite negb_true_iff.
Qed.

Lemma cleanupExpiredOtps_run env w :
  cleanupExpiredOtps env w
  = (with_otps (deleteWhere (otpPurge env) (otps w)) w,
     Ok ("Cleaned up "
         ++ toString (Z.of_nat (countWhere (otpPurge env) (otps w)))
         ++ " expired OTPs")).
Proof. reflexivity. Qed.

Lemma valid_later_is_not_purged env t o :
  now env <= t -> Otp.isUsed o = false -> Otp.expiresAt o > t ->
  otpPurge env o = false.
Proof.
  intros Ht Hu He. unfold otpPurge. rewrite Hu. cbn.
  rewrite orb_false_r. apply Z.ltb_ge. lia.
Qed.

Section Purging.
Context {jwtService : JwtService} {bcrypt : Bcrypt}.

Lemma login_result env u ua ip w :
  snd (login env u ua ip w)
  = if existsb (fun r => String.eqb (RefreshToken.token r)
                           (sign (RefreshClaims (User.id u)) "7d" (now env)))
               (refreshTokens w)
    then Throw (PrismaClientKnownRequestError "P2002")
    else Ok (mkSession
               (sign (AccessClaims (User.email u) (User.id u) (User.role u))
                     "1d" (now env))
               (sign (RefreshClaims (User.id u)) "7d" (now env))
               (mkSessionUser (User.id u) (User.email u) (User.firstName u)
                  (User.lastName u) (User.role u) (User.isEmailVerified u))).
Proof. unfold login. run. now destruct (existsb _ (refreshTokens w)). Qed.

(** X10. [cleanupExpiredOtps] reports how many rows it deleted, touches
    no other table, and deletes no row that is unused and not yet past
    its [expiresAt]; so it never changes what a validation at the same or
    a later time answers: [verifyEmail], [resetPassword] and [verifyOtp]
    return the same result on the purged store.  Purging again at the
    same instant deletes nothing more. *)
Theorem cleanupExpiredOtps_contract env w :
  let w' := fst (cleanupExpiredOtps env w) in
  snd (cleanupExpiredOtps env w)
  = Ok ("Cleaned up "
        ++ toString (Z.of_nat (List.length (otps w) - List.length (otps w')))
        ++ " expired OTPs")
  /\ users w' = users w /\ refreshTokens w' = refreshTokens w
  /\ (forall o, In o (otps w') -> In o (otps w))
  /\ (forall o, In o (otps w) -> Otp.isUsed o = false ->
        now env <= Otp.expiresAt o -> In o (otps w'))
  /\ (forall env' email otpCode, now env <= now env' ->
        snd (verifyEmail env' email otpCode w')
        = snd (verifyEmail env' email otpCode w))
  /\ (forall env' email otpCode newPassword, now env <= now env' ->
        snd (resetPassword env' email otpCode newPassword w')
        = snd (resetPassword env' email otpCode newPassword w))
  /\ (forall env' email otpCode ua ip, now env <= now env' ->
        snd (verifyOtp env' email otpCode ua ip w')
        = snd (verifyOtp env' email otpCode ua ip w))
  /\ fst (cleanupExpiredOtps env w') = w'.
Proof.
  cbv zeta. rewrite cleanupExpiredOtps_run. cbn [fst snd].
  set (w' := with_otps _ w).
  assert (Htyped : forall env' userId otpCode type, now env <= now env' ->
            find (typedOtpWhere userId otpCode type (now env')) (otps w')
            = find (typedOtpWhere userId otpCode type (now env')) (otps w)).
  { intros env' userId otpCode type Ht. unfold w'. cbn [otps with_otps].
    apply find_deleteWhere_kept. intros x Hx.
    apply typedOtpWhere_spec in Hx as (_ & _ & _ & Hu & He).
    now apply (valid_later_is_not_purged env (now env')). }
  assert (Hany : forall env' userId otpCode, now env <= now env' ->
            find (anyOtpWhere userId otpCode (now env')) (otps w')
            = find (anyOtpWhere userId otpCode (now env')) (otps w)).
  { intros env' userId otpCode Ht. unfold w'. cbn [otps with_otps].
    apply find_deleteWhere_kept. intros x Hx.
    apply anyOtpWhere_spec in Hx as (_ & _ & Hu & He).
    now apply (valid_later_is_not_purged env (now env')). }
  split.
  { unfold w'. cbn [otps with_otps].
    now rewrite (proj1 (length_deleteWhere (otpPurge env) (otps w))). }
  split; [reflexivity|]. split; [reflexivity|].
  split; [intros o Ho; now apply In_deleteWhere in Ho|].
  split.
  { intros o Ho Hu He. apply In_deleteWhere. split; [exact Ho|].
    unfold otpPurge. rewrite Hu. cbn. rewrite orb_false_r.
    apply Z.ltb_ge. exact He. }
  split; [|split; [|split]].
  - intros env' email otpCode Ht.
    destruct (userByEmail w email) as [u|] eqn:Hu.
    + assert (Hu' : userByEmail w' email = Some u) by exact Hu.
      destruct (User.isEmailVerified u) eqn:Hv.
      * now rewrite (verifyEmail_already_verified env' email otpCode w u Hu Hv),
          (verifyEmail_already_verified env' email otpCode w' u Hu' Hv).
      * specialize (Htyped env' (User.id u) otpCode VERIFICATION Ht).
        destruct (find (typedOtpWhere (User.id u) otpCode VERIFICATION
                          (now env')) (otps w)) as [o|] eqn:Hf.
        -- now rewrite (verifyEmail_match env' email otpCode w u o Hu Hv Hf),
             (verifyEmail_match env' email otpCode w' u o Hu' Hv Htyped).
        -- now rewrite (verifyEmail_no_match env' email otpCode w u Hu Hv Hf),
             (verifyEmail_no_match env' email otpCode w' u Hu' Hv Htyped).
    + unfold verifyEmail. run. cbn [users with_otps w']. now rewrite Hu.
  - intros env' email otpCode newPassword Ht.
    destruct (userByEmail w email) as [u|] eqn:Hu.
    + assert (Hu' : userByEmail w' email = Some u) by exact Hu.
      specialize (Htyped env' (User.id u) otpCode PASSWORD_RESET Ht).
      destruct (find (typedOtpWhere (User.id u) otpCode PASSWORD_RESET
                        (now env')) (otps w)) as [o|] eqn:Hf.
      * now rewrite
          (resetPassword_match env' email otpCode newPassword w u o Hu Hf),
          (resetPassword_match env' email otpCode newPassword w' u o Hu'
             Htyped).
      * now rewrite
          (resetPassword_no_match env' email otpCode newPassword w u Hu Hf),
          (resetPassword_no_match env' email otpCode newPassword w' u Hu'
             Htyped).
    + unfold resetPassword. run. cbn [users with_otps w']. now rewrite Hu.
  - intros env' email otpCode ua ip Ht.
    destruct (userByEmail w email) as [u|] eqn:Hu.
    + assert (Hu' : userByEmail w' email = Some u) by exact Hu.
      specialize (Hany env' (User.id u) otpCode Ht).
      destruct (find (anyOtpWhere (User.id u) otpCode (now env')) (otps w))
        as [o|] eqn:Hf.
      * rewrite (verifyOtp_match env' email otpCode ua ip w u o Hu Hf),
          (verifyOtp_match env' email otpCode ua ip w' u o Hu' Hany).
        now rewrite !login_result.
      * now rewrite (verifyOtp_no_match env' email otpCode ua ip w u Hu Hf),
          (verifyOtp_no_match env' email otpCode ua ip w' u Hu' Hany).
    + unfold verifyOtp. run. cbn [users with_otps w']. now rewrite Hu.
  - rewrite cleanupExpiredOtps_run. cbn [fst]. unfold w', with_otps.
    cbn [users otps refreshTokens nextId outbox].
    now rewrite deleteWhere_idempotent.
Qed.
End Purging.

Lemma cleanupExpiredRefreshTokens_run env w :
  cleanupExpiredRefreshTokens env w
  = (with_refreshTokens (deleteWhere (tokenPurge env) (refreshTokens w)) w,
     Ok ("Cleaned up "
         ++ toString (Z.of_nat (countWhere (tokenPurge env) (refreshTokens w)))
         ++ " expired refresh tokens")).
Proof. reflexivity. Qed.

Section PurgingTokens.
Context {jwtService : JwtService}.

(** What a successful refresh says about the store it ran on. *)
Lemma refreshAccessToken_ok_inv env token ua ip w :
  isOk (snd (refreshAccessToken env token ua ip w)) = true ->
  exists r u,
    verify token (now env) <> None
    /\ storedToken w token = Some r
    /\ RefreshToken.isRevoked r = false
    /\ now env <= RefreshToken.expiresAt r
    /\ userById w (RefreshToken.userId r) = Some u
    /\ freshToken (sign (RefreshClaims (User.id u)) "7d" (now env)) w.
Proof.
  unfold refreshAccessToken. run.
  destruct (verify token (now env)) eqn:Hv; [|discriminate].
  destruct (find (fun r => String.eqb (RefreshToken.token r) token)
                 (refreshTokens w)) as [r|] eqn:Hs; cbn [fst snd];
    [|discriminate].
  destruct (RefreshToken.isRevoked r) eqn:Hr; [discriminate|].
  destruct (RefreshToken.expiresAt r <? now env) eqn:He; [discriminate|].
  destruct (find _ (users w)) as [u|] eqn:Hu; cbn [fst snd]; [|discriminate].
  destruct (find (fun x => N.eqb (RefreshToken.id x) (RefreshToken.id r))
                 (refreshTokens w)) as [r0|] eqn:Hr0; cbn [fst snd];
    [|discriminate].
  cbn [with_refreshTokens refreshTokens].
  destruct (existsb _ _) eqn:Hex; cbn [fst snd]; [discriminate|].
  intros _. exists r, u. split; [congruence|].
  apply Z.ltb_ge in He.
  do 4 (split; [first [reflexivity | assumption]|]).
  intros x Hx E.
  assert (Hin : In (if N.eqb (RefreshToken.id x) (RefreshToken.id r)
                    then RefreshToken.set_isRevoked true x else x)
                   (updateWhere
                      (fun r1 => N.eqb (RefreshToken.id r1) (RefreshToken.id r))
                      (RefreshToken.set_isRevoked true) (refreshTokens w))).
  { apply In_updateWhere. now exists x. }
  assert (Htrue : existsb
                    (fun r1 => String.eqb (RefreshToken.token r1)
                                 (sign (RefreshClaims (User.id u)) "7d"
                                       (now env)))
                    (updateWhere
                       (fun r1 => N.eqb (RefreshToken.id r1)
                                        (RefreshToken.id r))
                       (RefreshToken.set_isRevoked true) (refreshTokens w))
                  = true).
  { apply existsb_exists. eexists. split; [exact Hin|].
    destruct (N.eqb (RefreshToken.id x) (RefreshToken.id r)); cbn;
      rewrite E; apply String.eqb_refl. }
  rewrite Hex in Htrue. discriminate.
Qed.

(** X11. [cleanupExpiredRefreshTokens] reports how many rows it deleted,
    touches no other table, keeps every row that is not revoked and not
    past its [expiresAt], and deletes only rows that are past it or
    revoked more than 30 days after their creation; so a token that
    refreshes at the same or a later time still refreshes on the purged
    store.  Purging again at the same instant deletes nothing more. *)
Theorem cleanupExpiredRefreshTokens_contract env w :
  let w' := fst (cleanupExpiredRefreshTokens env w) in
  snd (cleanupExpiredRefreshTokens env w)
  = Ok ("Cleaned up "
        ++ toString (Z.of_nat (List.length (refreshTokens w)
                               - List.length (refreshTokens w')))
        ++ " expired refresh tokens")
  /\ users w' = users w /\ otps w' = otps w
  /\ (forall r, In r (refreshTokens w) ->
        RefreshToken.isRevoked r = false ->
        now env <= RefreshToken.expiresAt r -> In r (refreshTokens w'))
  /\ (forall r, In r (refreshTokens w) -> ~ In r (refreshTokens w') ->
        RefreshToken.expiresAt r < now env
        \/ (RefreshToken.isRevoked r = true
            /\ RefreshToken.createdAt r < now env - 2592000000))
  /\ (forall env' token ua ip, now env <= now env' ->
        isOk (snd (refreshAccessToken env' token ua ip w)) = true ->
        isOk (snd (refreshAccessToken env' token ua ip w')) = true)
  /\ fst (cleanupExpiredRefreshTokens env w') = w'.
Proof.
  cbv zeta. rewrite cleanupExpiredRefreshTokens_run. cbn [fst snd].
  set (w' := with_refreshTokens _ w).
  assert (Hlive : forall r, RefreshToken.isRevoked r = false ->
                    now env <= RefreshToken.expiresAt r ->
                    tokenPurge env r = false).
  { intros r Hr He. unfold tokenPurge. rewrite Hr. cbn.
    rewrite orb_false_r. now apply Z.ltb_ge. }
  split.
  { unfold w'. cbn [refreshTokens with_refreshTokens].
    now rewrite (proj1 (length_deleteWhere (tokenPurge env)
                          (refreshTokens w))). }
  split; [reflexivity|]. split; [reflexivity|]. split.
  { intros r Hin Hr He. apply In_deleteWhere. split; [exact Hin|].
    now apply Hlive. }
  split.
  { intros r Hin Hnot. destruct (tokenPurge env r) eqn:E.
    - unfold tokenPurge in E. apply orb_true_iff in E as [E | E].
      + left. now apply Z.ltb_lt.
      + right. apply andb_true_iff in E as [E1 E2]. split; [exact E1|].
        now apply Z.ltb_lt.
    - exfalso. apply Hnot. now apply In_deleteWhere. }
  split.
  - intros env' token ua ip Ht Hok.
    apply refreshAccessToken_ok_inv in Hok
      as (r & u & Hv & Hs & Hr & He & Hu & Hfresh).
    rewrite (refreshAccessToken_accepted env' token ua ip w' r u);
      [reflexivity | exact Hv | | exact Hr | exact He | exact Hu |].
    + unfold storedToken, w'. cbn [refreshTokens with_refreshTokens].
      apply find_deleteWhere_found; [exact Hs|]. apply Hlive; [exact Hr|lia].
    + intros x Hx. unfold w' in Hx.
      cbn [refreshTokens with_refreshTokens] in Hx.
      apply In_deleteWhere in Hx as [Hx _]. now apply Hfresh.
  - rewrite cleanupExpiredRefreshTokens_run. cbn [fst].
    unfold w', with_refreshTokens.
    cbn [users otps refreshTokens nextId outbox].
    now rewrite deleteWhere_idempotent.
Qed.

(** X12. [login] stores the refresh token and nothing else: when the
    refresh token it signs is not stored yet, the call returns the pair
    and appends one row, unrevoked, owned by the user, expiring seven
    calendar days later at the same local time of day (604800000 ms
    later when the offset of the host's zone is then what it is now) and
    carrying the device data (the access token gets no row);
    when the string is stored already the insert is refused and nothing
    is written.  A logout with the returned refresh token then succeeds
    and the token no longer refreshes. *)
Theorem login_then_logout env u ua ip w :
  let access := sign (AccessClaims (User.email u) (User.id u) (User.role u))
                     "1d" (now env) in
  let refresh := sign (RefreshClaims (User.id u)) "7d" (now env) in
  (storedToken w refresh <> None ->
     login env u ua ip w
     = (w, Throw (PrismaClientKnownRequestError "P2002")))
  /\ (storedToken w refresh = None ->
      let w1 := fst (login env u ua ip w) in
      let w2 := fst (revokeRefreshToken refresh w1) in
      snd (login env u ua ip w)
      = Ok (mkSession access refresh
              (mkSessionUser (User.id u) (User.email u) (User.firstName u)
                 (User.lastName u) (User.role u) (User.isEmailVerified u)))
      /\ refreshTokens w1
         = (refreshTokens w
            ++ [RefreshToken.mk (nextId w) refresh (sevenDaysFromNow env)
                  false ua ip (now env) (User.id u)])%list
      /\ users w1 = users w /\ otps w1 = otps w /\ outbox w1 = outbox w
      /\ snd (revokeRefreshToken refresh w1)
         = Ok "Refresh token revoked successfully"
      /\ (forall env' ua' ip',
            exists m, refreshAccessToken env' refresh ua' ip' w2
                      = (w2, Throw (UnauthorizedException m))))
  /\ sevenDaysFromNow env
     = now env + 604800000
       + (localTZA env (now env) true
          - localTZA env (now env + localTZA env (now env) true + 604800000)
              false).
Proof.
  cbv zeta. split; [|split; [|apply sevenDaysFromNow_offsets]].
  - intros H. unfold login. run. unfold storedToken in H.
    destruct (existsb _ (refreshTokens w)) eqn:E; [reflexivity|].
    exfalso. apply H. apply find_none_all. intros x Hx.
    destruct (String.eqb (RefreshToken.token x) _) eqn:Ex; [|reflexivity].
    assert (existsb
              (fun r => String.eqb (RefreshToken.token r)
                          (sign (RefreshClaims (User.id u)) "7d" (now env)))
              (refreshTokens w) = true)
      by (apply existsb_exists; now exists x).
    congruence.
  - intros H. apply freshToken_find in H.
    rewrite (login_fresh env u ua ip w H). cbn [fst snd].
    set (row := RefreshToken.mk _ _ _ _ _ _ _ _).
    set (w1 := mkWorld _ _ _ _ _).
    assert (Hs : storedToken w1
                   (sign (RefreshClaims (User.id u)) "7d" (now env))
                 = Some row).
    { unfold storedToken, w1. cbn [refreshTokens].
      apply find_app_fresh; [now apply freshToken_find|].
      apply String.eqb_refl. }
    split; [reflexivity|]. split; [reflexivity|].
    do 3 (split; [reflexivity|]).
    rewrite (revokeRefreshToken_found _ w1 row Hs). cbn [fst snd].
    split; [reflexivity|].
    intros env' ua' ip'.
    apply refresh_of_revoked_row
      with (r := RefreshToken.set_isRevoked true row);
      [|reflexivity].
    exact (storedToken_after_revoke _ w1 row Hs).
Qed.
End PurgingTokens.

(** ** What no request does to a stored row *)

Lemma otpRows_same next l : otpRowsEvolve next l l.
Proof. intros o Ho. left. exists o. auto. Qed.

Lemma otpRows_marked next p l :
  otpRowsEvolve next l (updateWhere p (Otp.set_isUsed true) l).
Proof.
  intros o Ho. apply In_updateWhere in Ho as (x & Hx & ->).
  left. exists x. split; [exact Hx|]. destruct (p x); auto.
Qed.

Lemma otpRows_deleted next p l : otpRowsEvolve next l (deleteWhere p l).
Proof.
  intros o Ho. apply In_deleteWhere in Ho as [Ho _]. left. exists o. auto.
Qed.

Lemma otpRows_issued next p l o :
  Otp.isUsed o = false -> (next <= Otp.id o)%N ->
  otpRowsEvolve next l (updateWhere p (Otp.set_isUsed true) l ++ [o]).
Proof.
  intros Hu Hid x Hx. apply in_app_or in Hx as [Hx | [<- | []]].
  - exact (otpRows_marked next p l x Hx).
  - right. now split.
Qed.

Lemma otpRows_inserted next l o :
  Otp.isUsed o = false -> (next <= Otp.id o)%N ->
  otpRowsEvolve next l (l ++ [o]).
Proof.
  intros Hu Hid x Hx. apply in_app_or in Hx as [Hx | [<- | []]].
  - left. exists x. auto.
  - right. now split.
Qed.

Lemma tokenRows_same next l : tokenRowsEvolve next l l.
Proof. intros r Hr. left. exists r. auto. Qed.

Lemma tokenRows_revoked next p l :
  tokenRowsEvolve next l (updateWhere p (RefreshToken.set_isRevoked true) l).
Proof.
  intros r Hr. apply In_updateWhere in Hr as (x & Hx & ->).
  left. exists x. split; [exact Hx|]. destruct (p x); auto.
Qed.

Lemma tokenRows_deleted next p l : tokenRowsEvolve next l (deleteWhere p l).
Proof.
  intros r Hr. apply In_deleteWhere in Hr as [Hr _]. left. exists r. auto.
Qed.

Lemma tokenRows_issued next l l' r :
  tokenRowsEvolve next l l' ->
  RefreshToken.isRevoked r = false -> (next <= RefreshToken.id r)%N ->
  tokenRowsEvolve next l (l' ++ [r]).
Proof.
  intros H Hr Hid x Hx. apply in_app_or in Hx as [Hx | [<- | []]].
  - now apply H.
  - right. now split.
Qed.

Lemma rowsEvolve_same w : rowsEvolve w w.
Proof. split; [apply otpRows_same | apply tokenRows_same]. Qed.

Lemma rowsEvolve_afterValidation w t o userId data :
  rowsEvolve w (afterValidation w t o userId data).
Proof. split; [apply otpRows_marked | apply tokenRows_same]. Qed.

Lemma rowsEvolve_issue w p o ob :
  Otp.isUsed o = false -> Otp.id o = nextId w ->
  rowsEvolve w
    (mkWorld (users w)
       (updateWhere p (Otp.set_isUsed true) (otps w) ++ [o])
       (refreshTokens w) (N.succ (nextId w)) ob).
Proof.
  intros Hu Hid. split; [|apply tokenRows_same].
  apply otpRows_issued; [exact Hu | rewrite Hid; lia].
Qed.

Section RowsEvolve.
Context {jwtService : JwtService} {bcrypt : Bcrypt}.

Lemma login_rows env u ua ip w : rowsEvolve w (fst (login env u ua ip w)).
Proof.
  unfold login. run.
  destruct (existsb _ (refreshTokens w)); cbn [fst];
    [apply rowsEvolve_same|].
  split; [apply otpRows_same|].
  cbn [refreshTokens with_nextId with_refreshTokens].
  apply tokenRows_issued; [apply tokenRows_same | reflexivity | cbn; lia].
Qed.

Lemma register_rows env dto w : rowsEvolve w (fst (register env dto w)).
Proof.
  destruct (userByEmail w (dto_email dto)) as [u|] eqn:Hu.
  - rewrite register_known_email by congruence. apply rowsEvolve_same.
  - rewrite (register_new_email env dto w Hu). cbn [fst].
    split; [|apply tokenRows_same]. cbn [otps].
    apply otpRows_inserted; [reflexivity | cbn; lia].
Qed.

Lemma verifyEmail_rows env email otpCode w :
  rowsEvolve w (fst (verifyEmail env email otpCode w)).
Proof.
  destruct (userByEmail w email) as [u|] eqn:Hu.
  - destruct (User.isEmailVerified u) eqn:Hv.
    + rewrite (verifyEmail_already_verified env email otpCode w u Hu Hv).
      apply rowsEvolve_same.
    + destruct (find (typedOtpWhere (User.id u) otpCode VERIFICATION (now env))
                     (otps w)) as [o|] eqn:Hf.
      * rewrite (verifyEmail_match env email otpCode w u o Hu Hv Hf).
        apply rowsEvolve_afterValidation.
      * rewrite (verifyEmail_no_match env email otpCode w u Hu Hv Hf).
        apply rowsEvolve_same.
  - unfold verifyEmail. run. rewrite Hu. apply rowsEvolve_same.
Qed.

Lemma resetPassword_rows env email otpCode newPassword w :
  rowsEvolve w (fst (resetPassword env email otpCode newPassword w)).
Proof.
  destruct (userByEmail w email) as [u|] eqn:Hu.
  - destruct (find (typedOtpWhere (User.id u) otpCode PASSWORD_RESET (now env))
                   (otps w)) as [o|] eqn:Hf.
    + rewrite (resetPassword_match env email otpCode newPassword w u o Hu Hf).
      apply rowsEvolve_afterValidation.
    + rewrite (resetPassword_no_match env email otpCode newPassword w u Hu Hf).
      apply rowsEvolve_same.
  - unfold resetPassword. run. rewrite Hu. apply rowsEvolve_same.
Qed.

Lemma verifyOtp_rows env email otpCode ua ip w :
  rowsEvolve w (fst (verifyOtp env email otpCode ua ip w)).
Proof.
  destruct (userByEmail w email) as [u|] eqn:Hu.
  - destruct (find (anyOtpWhere (User.id u) otpCode (now env)) (otps w))
      as [o|] eqn:Hf.
    + rewrite (verifyOtp_match env email otpCode ua ip w u o Hu Hf).
      destruct (login_tables env u ua ip
                  (afterValidation w (now env) o (User.id u)
                     (User.set_lastLoginAt (now env)))) as [_ Hotps].
      split.
      * rewrite Hotps. apply otpRows_marked.
      * exact (proj2 (login_rows env u ua ip
                        (afterValidation w (now env) o (User.id u)
                           (User.set_lastLoginAt (now env))))).
    + rewrite (verifyOtp_no_match env email otpCode ua ip w u Hu Hf).
      apply rowsEvolve_same.
  - unfold verifyOtp. run. rewrite Hu. apply rowsEvolve_same.
Qed.

Lemma issuing_rows env email w :
  rowsEvolve w (fst (sendOtp env email w))
  /\ rowsEvolve w (fst (forgotPassword env email w))
  /\ rowsEvolve w (fst (resendVerificationEmail env email w)).
Proof.
  destruct (userByEmail w email) as [u|] eqn:Hu.
  - rewrite (sendOtp_known_email env email w u Hu),
      (forgotPassword_known_email env email w u Hu). cbn [fst].
    split; [now apply rowsEvolve_issue|]. split; [now apply rowsEvolve_issue|].
    destruct (User.isEmailVerified u) eqn:Hv.
    + unfold resendVerificationEmail. run. rewrite Hu, Hv.
      apply rowsEvolve_same.
    + rewrite (resendVerificationEmail_unverified env email w u Hu Hv).
      now apply rowsEvolve_issue.
  - rewrite (forgotPassword_unknown_email env email w Hu).
    unfold sendOtp, resendVerificationEmail. run. rewrite Hu.
    repeat split; apply rowsEvolve_same.
Qed.

Lemma changePassword_rows env userId dto w :
  rowsEvolve w (fst (changePassword env userId dto w)).
Proof.
  unfold changePassword. run.
  destruct (find _ (users w)) as [u|] eqn:Hu; cbn [fst];
    [|apply rowsEvolve_same].
  destruct (bcrypt_compare _ _); cbn [fst]; [|apply rowsEvolve_same].
  rewrite Hu. cbn [fst]. split; [apply otpRows_same | apply tokenRows_same].
Qed.

Lemma refreshAccessToken_rows env token ua ip w :
  rowsEvolve w (fst (refreshAccessToken env token ua ip w)).
Proof.
  unfold refreshAccessToken. run.
  destruct (verify token (now env)); [|apply rowsEvolve_same].
  destruct (find (fun r => String.eqb (RefreshToken.token r) token)
                 (refreshTokens w)) as [r|]; cbn [fst];
    [|apply rowsEvolve_same].
  destruct (RefreshToken.isRevoked r); [apply rowsEvolve_same|].
  destruct (RefreshToken.expiresAt r <? now env); [apply rowsEvolve_same|].
  destruct (find _ (users w)) as [u|]; cbn [fst]; [|apply rowsEvolve_same].
  destruct (find (fun x => N.eqb (RefreshToken.id x) (RefreshToken.id r))
                 (refreshTokens w)); cbn [fst]; [|apply rowsEvolve_same].
  cbn [with_refreshTokens refreshTokens].
  destruct (existsb _ _); cbn [fst].
  - split; [apply otpRows_same | apply tokenRows_revoked].
  - split; [apply otpRows_same|].
    cbn [refreshTokens with_nextId with_refreshTokens users otps nextId outbox].
    apply tokenRows_issued; [apply tokenRows_revoked | reflexivity | cbn; lia].
Qed.

Lemma revoking_rows token userId w :
  rowsEvolve w (fst (revokeRefreshToken token w))
  /\ rowsEvolve w (fst (revokeAllUserRefreshTokens userId w)).
Proof.
  split.
  - unfold revokeRefreshToken. run.
    destruct (find (fun r => String.eqb (RefreshToken.token r) token)
                   (refreshTokens w)) as [r|]; cbn [fst];
      [|apply rowsEvolve_same].
    destruct (find _ (refreshTokens w)); cbn [fst]; [|apply rowsEvolve_same].
    split; [apply otpRows_same | apply tokenRows_revoked].
  - split; [apply otpRows_same | apply tokenRows_revoked].
Qed.

Lemma serve_rows env rq w : rowsEvolve w (serve env rq w).
Proof.
  destruct rq; cbn [serve].
  - destruct (userByEmail w email); [|apply rowsEvolve_same].
    destruct (bcrypt_compare _ _); [apply login_rows | apply rowsEvolve_same].
  - apply register_rows.
  - apply verifyEmail_rows.
  - apply issuing_rows.
  - apply issuing_rows.
  - apply resetPassword_rows.
  - apply changePassword_rows.
  - apply issuing_rows.
  - apply verifyOtp_rows.
  - apply refreshAccessToken_rows.
  - apply (revoking_rows refreshToken 0%N).
  - apply (revoking_rows "" userId).
  - split; [apply otpRows_deleted | apply tokenRows_same].
  - split; [apply otpRows_same | apply tokenRows_deleted].
Qed.

(** X13. No request revives or rewrites an OTP: after any request, with
    any outcome, each stored OTP row is a row that was stored before,
    unchanged or only marked used, or a row inserted unused by this
    request.  So a used code stays used, and the code, expiry, type and
    owner of a stored row never change. *)
Theorem serve_never_rewrites_otps env rq w :
  otpRowsEvolve (nextId w) (otps w) (otps (serve env rq w))
  /\ (forall o', In o' (otps (serve env rq w)) ->
      (Otp.id o' < nextId w)%N ->
      exists o, In o (otps w)
        /\ Otp.id o' = Otp.id o /\ Otp.code o' = Otp.code o
        /\ Otp.expiresAt o' = Otp.expiresAt o /\ Otp.type o' = Otp.type o
        /\ Otp.userId o' = Otp.userId o
        /\ (Otp.isUsed o = true -> Otp.isUsed o' = true)).
Proof.
  destruct (serve_rows env rq w) as [H _]. split; [exact H|].
  intros o' Hin Hid. destruct (H o' Hin) as [(o & Ho & [-> | ->]) | [_ Hnew]].
  - exists o. repeat split; auto.
  - exists o. repeat split; auto.
  - lia.
Qed.

(** X14. No request revives or rewrites a refresh token: after any
    request, with any outcome, each stored refresh-token row is a row that
    was stored before, unchanged or only revoked, or a row inserted
    unrevoked by this request.  So a revoked token stays revoked, and no
    request extends the expiry of a stored token or changes its string,
    owner or device data. *)
Theorem serve_never_rewrites_tokens env rq w :
  tokenRowsEvolve (nextId w) (refreshTokens w)
    (refreshTokens (serve env rq w))
  /\ (forall r', In r' (refreshTokens (serve env rq w)) ->
      (RefreshToken.id r' < nextId w)%N ->
      exists r, In r (refreshTokens w)
        /\ RefreshToken.id r' = RefreshToken.id r
        /\ RefreshToken.token r' = RefreshToken.token r
        /\ RefreshToken.expiresAt r' = RefreshToken.expiresAt r
        /\ RefreshToken.userId r' = RefreshToken.userId r
        /\ RefreshToken.userAgent r' = RefreshToken.userAgent r
        /\ RefreshToken.ipAddress r' = RefreshToken.ipAddress r
        /\ (RefreshToken.isRevoked r = true ->
            RefreshToken.isRevoked r' = true)).
Proof.
  destruct (serve_rows env rq w) as [_ H]. split; [exact H|].
  intros r' Hin Hid. destruct (H r' Hin) as [(r & Hr & [-> | ->]) | [_ Hnew]].
  - exists r. repeat split; auto.
  - exists r. repeat split; auto.
  - lia.
Qed.
End RowsEvolve.

(** X15. A failed delivery is loud on the other two issuing calls too:
    with the transport down, [sendOtp] and [resendVerificationEmail]
    throw the mail error, deliver nothing, and have by then stored the
    new code and used up the earlier unused codes in their scope. *)
Theorem issuing_with_transport_down env email w u :
  smtpUp env = false ->
  userByEmail w email = Some u ->
  (snd (sendOtp env email w) = Throw (Error "Failed to send OTP email")
   /\ outbox (fst (sendOtp env email w)) = outbox w
   /\ In (newOtpRow env (nextId w) LOGIN (User.id u))
         (otps (fst (sendOtp env email w)))
   /\ (forall o, In o (otps w) -> Otp.userId o = User.id u ->
         In (Otp.set_isUsed true o) (otps (fst (sendOtp env email w)))))
  /\ (User.isEmailVerified u = false ->
      snd (resendVerificationEmail env email w)
      = Throw (Error "Failed to send verification email")
      /\ outbox (fst (resendVerificationEmail env email w)) = outbox w
      /\ In (newOtpRow env (nextId w) VERIFICATION (User.id u))
            (otps (fst (resendVerificationEmail env email w)))
      /\ (forall o, In o (otps w) -> Otp.userId o = User.id u ->
            Otp.type o = VERIFICATION ->
            In (Otp.set_isUsed true o)
               (otps (fst (resendVerificationEmail env email w))))).
Proof.
  intros Hdown Hu. split.
  - rewrite (sendOtp_known_email env email w u Hu). cbn [fst snd outbox otps].
    rewrite Hdown. split; [reflexivity|]. split; [reflexivity|].
    split; [apply in_or_app; right; now left|].
    intros o Hin Ho. apply in_or_app. left. apply In_updateWhere.
    exists o. split; [exact Hin|]. rewrite Ho, N.eqb_refl. cbn.
    destruct (Otp.isUsed o) eqn:E; cbn; [|reflexivity].
    destruct o; cbn in *. now subst.
  - intros Hv.
    rewrite (resendVerificationEmail_unverified env email w u Hu Hv).
    cbn [fst snd outbox otps].
    rewrite Hdown. split; [reflexivity|]. split; [reflexivity|].
    split; [apply in_or_app; right; now left|].
    intros o Hin Ho Hty. apply in_or_app. left. apply In_updateWhere.
    exists o. split; [exact Hin|]. rewrite Ho, Hty, N.eqb_refl. cbn.
    destruct (Otp.isUsed o) eqn:E; cbn; [|reflexivity].
    destruct o; cbn in *. now subst.
Qed.

(** ** The response layer *)

(** X16. Every returned value leaves the interceptor as an envelope: an
    object that has [status] and [message] passes unchanged, anything
    else (a primitive, [null], an array, an object lacking one of the
    two) becomes the [data] of a success envelope with the default
    message; and intercepting twice is intercepting once. *)
Theorem intercept_envelope data :
  let r := ResponseInterceptor.intercept data in
  (exists fields, r = Js.object fields
                  /\ Js.hasField "status" fields = true
                  /\ Js.hasField "message" fields = true)
  /\ ResponseInterceptor.intercept r = r
  /\ (forall fields, data = Js.object fields ->
      Js.hasField "status" fields = true ->
      Js.hasField "message" fields = true -> r = data)
  /\ ((forall fields, data = Js.object fields ->
       Js.hasField "status" fields = false
       \/ Js.hasField "message" fields = false) ->
      r = wrapped data /\ Js.get "data" r = data).
Proof.
  cbv zeta. unfold ResponseInterceptor.intercept.
  destruct data as [| |b|n|s|items|fields];
    try (cbn; rewrite ?andb_false_r; cbn;
         split; [eexists; repeat split|];
         split; [reflexivity|]; split; [discriminate|];
         intros _; split; reflexivity).
  cbn [Js.truthy ResponseInterceptor.isObjectType ResponseInterceptor.has andb].
  destruct (Js.hasField "status" fields) eqn:Hs,
           (Js.hasField "message" fields) eqn:Hm; cbn [andb].
  - split; [exists fields; auto|]. split; [cbn; now rewrite Hs, Hm|].
    split; [reflexivity|]. intros H.
    destruct (H fields eq_refl); congruence.
  - split; [eexists; repeat split|]. split; [reflexivity|].
    split; [intros f [= <-]; congruence|]. intros _. split; reflexivity.
  - split; [eexists; repeat split|]. split; [reflexivity|].
    split; [intros f [= <-]; congruence|]. intros _. split; reflexivity.
  - split; [eexists; repeat split|]. split; [reflexivity|].
    split; [intros f [= <-]; congruence|]. intros _. split; reflexivity.
Qed.

(** X17. What [ResponseHelper] builds is what the client gets: the
    results of [success], [error] and [paginated] pass the interceptor
    unchanged, with the message given (or the default when none is
    given) and the data as handed in. *)
Theorem helper_results_pass_interceptor data items message meta text code
    details total page limit :
  ResponseInterceptor.intercept (ResponseHelper.success data message meta)
  = ResponseHelper.success data message meta
  /\ ResponseInterceptor.intercept (ResponseHelper.error text code details)
     = ResponseHelper.error text code details
  /\ ResponseInterceptor.intercept
       (ResponseHelper.paginated items total page limit message)
     = ResponseHelper.paginated items total page limit message
  /\ Js.get "data" (ResponseHelper.success data message meta) = data
  /\ Js.get "message" (ResponseHelper.success data None meta)
     = Js.str DEFAULT_MESSAGE
  /\ Js.get "data" (ResponseHelper.error text code details) = Js.null
  /\ Js.get "code" (Js.get "error" (ResponseHelper.error text code details))
     = Js.number code
  /\ Js.get "data" (ResponseHelper.paginated items total page limit message)
     = Js.array items
  /\ Js.get "total"
       (Js.get "meta"
          (ResponseHelper.paginated items total page limit message))
     = Js.number total.
Proof. repeat split. Qed.

(** X19. [GlobalExceptionFilter.catch] always answers an error envelope
    whose [error.code] is the HTTP status it sets, with [data] null.  The
    status is the exception's own for an [HttpException] and 500 for
    anything else.  The message is the string response, or the [message]
    of an object response when that is truthy and the exception's message
    otherwise; a thrown value that is no [Error] gets "Internal server
    error"; and the stack of an [Error] is in the details only when
    [NODE_ENV] is "development". *)
Theorem catch_envelope nodeEnv exception :
  let status := fst (GlobalExceptionFilter.catch nodeEnv exception) in
  let body := snd (GlobalExceptionFilter.catch nodeEnv exception) in
  Js.get "status" body = Js.str "error"
  /\ Js.get "data" body = Js.null
  /\ Js.get "code" (Js.get "error" body) = Js.number status
  /\ match exception with
     | GlobalExceptionFilter.HttpException s (inl text) _ =>
         status = s /\ body = ResponseHelper.error text s Js.null
     | GlobalExceptionFilter.HttpException s (inr fields) m =>
         status = s
         /\ Js.get "message" body
            = (if Js.truthy (Js.field "message" fields)
               then Js.field "message" fields else Js.str m)
         /\ Js.get "details" (Js.get "error" body) = Js.object fields
     | GlobalExceptionFilter.OtherError m stack =>
         status = 500
         /\ Js.get "message" body = Js.str m
         /\ Js.get "details" (Js.get "error" body)
            = Js.object
                [("stack",
                  if match nodeEnv with
                     | Some e => String.eqb e "development"
                     | None => false
                     end
                  then stack else Js.null)]
     | GlobalExceptionFilter.NotAnError _ =>
         status = 500
         /\ body = ResponseHelper.error "Internal server error" 500 Js.null
     end.
Proof.
  cbv zeta. destruct exception as [s [text|fields] m | m stack | v]; cbn.
  - repeat split.
  - repeat split.
  - repeat split. destruct nodeEnv as [e|]; [|reflexivity].
    now destruct (String.eqb e "development").
  - repeat split.
Qed.

(** X20. [getProfile] answers a success envelope, which the interceptor
    leaves as it is, whose data has exactly the eight properties [id],
    [email], [firstName], [lastName], [role], [isActive], [avatar] and
    [createdAt], read from [req.user]: whatever else [req.user] carries,
    a [password] included, is not in the answer. *)
Theorem getProfile_whitelist reqUser :
  let r := AuthController.getProfile reqUser in
  ResponseInterceptor.intercept r = r
  /\ Js.get "message" r = Js.str "Profile retrieved successfully"
  /\ (exists fields,
        Js.get "data" r = Js.object fields
        /\ map fst fields
           = ["id"; "email"; "firstName"; "lastName"; "role"; "isActive";
              "avatar"; "createdAt"])
  /\ Js.get "password" (Js.get "data" r) = Js.undefined
  /\ Js.get "isEmailVerified" (Js.get "data" r) = Js.undefined
  /\ (forall u, reqUser = userObject u ->
      Js.get "password" (Js_ofObject reqUser) = Js.str (User.password u)
      /\ Js.get "email" (Js.get "data" r) = Js.str (User.email u)
      /\ Js.get "id" (Js.get "data" r) = Js.number (Z.of_N (User.id u))
      /\ Js.get "isActive" (Js.get "data" r) = Js.boolean (User.isActive u)
      /\ Js.get "createdAt" (Js.get "data" r)
         = Js.number (User.createdAt u)).
Proof.
  cbv zeta. split; [reflexivity|]. split; [reflexivity|].
  split; [eexists; split; reflexivity|].
  split; [reflexivity|]. split; [reflexivity|].
  intros u ->. repeat split.
Qed.

Lemma handlerOf_bind {A} (toJs : A -> Js.any) (service : M A) :
  handlerOf toJs service (bind service (fun result => ret (toJs result))).
Proof.
  intros w. unfold bind, ret. now destruct (service w) as [w' [a|e]].
Qed.

Section ControllerHandlers.
Context {jwtService : JwtService} {bcrypt : Bcrypt}.

(** X18. The handlers that return the service's result as it is
    ([register] and the eight that answer [{ message }]) add nothing of
    their own: same writes, same exception.  The client then receives
    the result wrapped by the interceptor: the envelope's [message] is
    the default text and the service's message is at [data.message]. *)
Theorem message_handlers_are_wrapped env email otpCode newPassword userId
    dto registerDto token :
  handlerOf registeredObject (register env registerDto)
    (AuthController.register env registerDto)
  /\ handlerOf messageObject (verifyEmail env email otpCode)
       (AuthController.verifyEmail env email otpCode)
  /\ handlerOf messageObject (resendVerificationEmail env email)
       (AuthController.resendVerificationEmail env email)
  /\ handlerOf messageObject (forgotPassword env email)
       (AuthController.forgotPassword env email)
  /\ handlerOf messageObject (resetPassword env email otpCode newPassword)
       (AuthController.resetPassword env email otpCode newPassword)
  /\ handlerOf messageObject (changePassword env userId dto)
       (AuthController.changePassword env userId dto)
  /\ handlerOf messageObject (sendOtp env email)
       (AuthController.sendOtp env email)
  /\ handlerOf messageObject (revokeRefreshToken token)
       (AuthController.logout token)
  /\ handlerOf messageObject (revokeAllUserRefreshTokens userId)
       (AuthController.logoutAll userId)
  /\ (forall message,
        respond (Ok (messageObject message))
        = Ok (wrapped (messageObject message))
        /\ Js.get "message" (wrapped (messageObject message))
           = Js.str DEFAULT_MESSAGE
        /\ Js.get "message" (Js.get "data" (wrapped (messageObject message)))
           = Js.str message)
  /\ (forall result,
        respond (Ok (registeredObject result))
        = Ok (wrapped (registeredObject result))
        /\ Js.get "message"
             (Js.get "data" (wrapped (registeredObject result)))
           = Js.str (reg_message result)).
Proof.
  repeat (split; [apply handlerOf_bind|]).
  split; intros x; repeat split.
Qed.

(** X21. The three handlers that issue tokens add nothing to the
    service's writes and exceptions, and the client finds the tokens at
    [data.access_token] and [data.refresh_token] in each case: [login]
    and [refreshToken] build the envelope themselves, with their own
    message, and [verifyOtp] returns the bare session, which the
    interceptor wraps under the default message. *)
Theorem token_handlers_envelope env reqUser email otpCode token ua ip :
  handlerOf
    (fun s => ResponseHelper.success (sessionObject s)
                (Some "Login successful") Js.undefined)
    (login env reqUser ua ip) (AuthController.login env reqUser ua ip)
  /\ handlerOf
       (fun p => ResponseHelper.success (tokenPairObject p)
                   (Some "Token refreshed successfully") Js.undefined)
       (refreshAccessToken env token ua ip)
       (AuthController.refreshToken env token ua ip)
  /\ handlerOf sessionObject (verifyOtp env email otpCode ua ip)
       (AuthController.verifyOtp env email otpCode ua ip)
  /\ (forall s,
        let viaLogin :=
          ResponseInterceptor.intercept
            (ResponseHelper.success (sessionObject s)
               (Some "Login successful") Js.undefined) in
        let viaOtp := ResponseInterceptor.intercept (sessionObject s) in
        Js.get "message" viaLogin = Js.str "Login successful"
        /\ Js.get "message" viaOtp = Js.str DEFAULT_MESSAGE
        /\ Js.get "data" viaLogin = Js.get "data" viaOtp
        /\ Js.get "access_token" (Js.get "data" viaOtp)
           = Js.str (access_token s)
        /\ Js.get "refresh_token" (Js.get "data" viaOtp)
           = Js.str (refresh_token s))
  /\ (forall p,
        let viaRefresh :=
          ResponseInterceptor.intercept
            (ResponseHelper.success (tokenPairObject p)
               (Some "Token refreshed successfully") Js.undefined) in
        Js.get "message" viaRefresh = Js.str "Token refreshed successfully"
        /\ Js.get "access_token" (Js.get "data" viaRefresh)
           = Js.str (pair_access_token p)
        /\ Js.get "refresh_token" (Js.get "data" viaRefresh)
           = Js.str (pair_refresh_token p)).
Proof.
  split; [apply (handlerOf_bind
                   (fun s => ResponseHelper.success (sessionObject s)
                               (Some "Login successful") Js.undefined))|].
  split; [apply (handlerOf_bind
                   (fun p => ResponseHelper.success (tokenPairObject p)
                               (Some "Token refreshed successfully")
                               Js.undefined))|].
  split; [apply handlerOf_bind|].
  split; intros x; repeat split.
Qed.
End ControllerHandlers.

(** ** The seed script *)

Lemma find_app_other {A} (p : A -> bool) (l : list A) x :
  find p l = None -> p x = false -> find p (l ++ [x]) = None.
Proof.
  induction l as [|y l IH]; cbn; intros Hn Hp.
  - now rewrite Hp.
  - destruct (p y); [discriminate | now apply IH].
Qed.

Lemma upsert_run now email password firstName lastName role
    verified active w :
  let w' := fst (seed.upsert now email password firstName lastName role
                   verified active w) in
  (exists u, snd (seed.upsert now email password firstName lastName role
                    verified active w) = Ok u
             /\ userByEmail w' email = Some u
             /\ (userByEmail w email = None ->
                 u = User.mk (nextId w) email password firstName lastName
                       None role active verified None None None None
                       now now))
  /\ (forall e u, userByEmail w e = Some u -> userByEmail w' e = Some u)
  /\ (userByEmail w email <> None -> w' = w)
  /\ otps w' = otps w /\ refreshTokens w' = refreshTokens w
  /\ outbox w' = outbox w.
Proof.
  cbv zeta. unfold seed.upsert, userByEmail.
  destruct (find (fun u => String.eqb (User.email u) email) (users w))
    as [u|] eqn:Hf; cbn [fst snd].
  - split; [exists u; repeat split; [exact Hf | discriminate]|].
    split; [auto|]. repeat split.
  - split.
    + eexists. split; [reflexivity|]. split; [|reflexivity].
      cbn [users with_nextId with_users].
      apply find_app_fresh; [exact Hf|]. cbn. apply String.eqb_refl.
    + split; [|split; [congruence | repeat split]].
      intros e u Hu. cbn [users with_nextId with_users].
      now apply find_app_found.
Qed.

Section Seeding.
Context {bcrypt : Bcrypt}.

(** X22. The seed script creates the two default accounts and never
    overwrites one: it cannot fail, touches only the [users] table,
    leaves every stored account as found by its email, and a second run
    writes nothing.  On a store that has neither email, with a hasher
    whose hashes compare equal to their plain text, the documented
    credentials then pass [validateUser], as an ADMIN and a CUSTOMER with
    a verified email. *)
Theorem seed_contract env w :
  let w' := fst (seed.main env w) in
  snd (seed.main env w) = Ok tt
  /\ otps w' = otps w /\ refreshTokens w' = refreshTokens w
  /\ outbox w' = outbox w
  /\ (forall email u, userByEmail w email = Some u ->
        userByEmail w' email = Some u)
  /\ userByEmail w' "admin@example.com" <> None
  /\ userByEmail w' "customer@example.com" <> None
  /\ (forall env', fst (seed.main env' w') = w')
  /\ (bcryptVerifies bcrypt ->
      userByEmail w "admin@example.com" = None ->
      userByEmail w "customer@example.com" = None ->
      exists admin customer,
        snd (validateUser "admin@example.com" "Admin@123" w')
        = Ok (Some admin)
        /\ getProperty "role" admin = Some (JsString "ADMIN")
        /\ getProperty "isEmailVerified" admin = Some (JsBoolean true)
        /\ snd (validateUser "customer@example.com" "Customer@123" w')
           = Ok (Some customer)
        /\ getProperty "role" customer = Some (JsString "CUSTOMER")
        /\ getProperty "isEmailVerified" customer = Some (JsBoolean true)).
Proof.
  cbv zeta.
  assert (Hmain : forall env0 w0,
    fst (seed.main env0 w0)
    = fst (seed.upsert (now env0) "customer@example.com"
             (bcrypt_hash "Customer@123" 10) (Some "John") (Some "Doe")
             CUSTOMER true true
             (fst (seed.upsert (now env0) "admin@example.com"
                     (bcrypt_hash "Admin@123" 10) (Some "Admin")
                     (Some "User") ADMIN true true w0)))
    /\ snd (seed.main env0 w0) = Ok tt).
  { intros env0 w0. unfold seed.main, bind, ret.
    destruct (upsert_run (now env0) "admin@example.com"
                (bcrypt_hash "Admin@123" 10) (Some "Admin") (Some "User")
                ADMIN true true w0) as ((a & Ha & _) & _).
    destruct (seed.upsert (now env0) "admin@example.com" _ _ _ _ _ _ w0)
      as [w1 r1]. cbn [fst snd] in *. subst r1.
    destruct (upsert_run (now env0) "customer@example.com"
                (bcrypt_hash "Customer@123" 10) (Some "John") (Some "Doe")
                CUSTOMER true true w1) as ((c & Hc & _) & _).
    destruct (seed.upsert (now env0) "customer@example.com" _ _ _ _ _ _ w1)
      as [w2 r2]. cbn [fst snd] in *. subst r2. split; reflexivity. }
  destruct (Hmain env w) as [-> ->].
  set (w1 := fst (seed.upsert (now env) "admin@example.com"
                    (bcrypt_hash "Admin@123" 10) (Some "Admin")
                    (Some "User") ADMIN true true w)).
  destruct (upsert_run (now env) "admin@example.com"
              (bcrypt_hash "Admin@123" 10) (Some "Admin") (Some "User")
              ADMIN true true w)
    as ((a & _ & Ha & Hanew) & Hkeep1 & _ & Ho1 & Hr1 & Hb1).
  fold w1 in Ha, Hkeep1, Ho1, Hr1, Hb1.
  set (w2 := fst (seed.upsert (now env) "customer@example.com"
                    (bcrypt_hash "Customer@123" 10) (Some "John")
                    (Some "Doe") CUSTOMER true true w1)).
  destruct (upsert_run (now env) "customer@example.com"
              (bcrypt_hash "Customer@123" 10) (Some "John") (Some "Doe")
              CUSTOMER true true w1)
    as ((c & _ & Hc & Hcnew) & Hkeep2 & _ & Ho2 & Hr2 & Hb2).
  fold w2 in Hc, Hkeep2, Ho2, Hr2, Hb2.
  assert (Ha2 : userByEmail w2 "admin@example.com" = Some a)
    by now apply Hkeep2.
  split; [reflexivity|]. split; [congruence|]. split; [congruence|].
  split; [congruence|]. split; [auto|]. split; [congruence|].
  split; [congruence|]. split.
  - intros env'. rewrite (proj1 (Hmain env' w2)).
    destruct (upsert_run (now env') "admin@example.com"
                (bcrypt_hash "Admin@123" 10) (Some "Admin") (Some "User")
                ADMIN true true w2) as (_ & _ & Hsame & _).
    rewrite Hsame by congruence.
    destruct (upsert_run (now env') "customer@example.com"
                (bcrypt_hash "Customer@123" 10) (Some "John") (Some "Doe")
                CUSTOMER true true w2) as (_ & _ & Hsame' & _).
    apply Hsame'. congruence.
  - intros Hb Hna Hnc.
    assert (Hnc1 : userByEmail w1 "customer@example.com" = None).
    { unfold w1, seed.upsert. unfold userByEmail in Hna. rewrite Hna.
      cbn [fst]. unfold userByEmail in *. cbn [users with_nextId with_users].
      now apply find_app_other. }
    specialize (Hanew Hna). specialize (Hcnew Hnc1).
    exists (omit "password" (userObject a)),
           (omit "password" (userObject c)).
    unfold validateUser, bind, ret, prisma.user.findUnique.
    unfold userByEmail in Ha2, Hc. rewrite Ha2, Hc. cbn [fst snd].
    rewrite Hanew, Hcnew. cbn [User.password].
    rewrite !Hb. cbn [snd]. repeat split.
Qed.
End Seeding.

(** ** The further properties at the run of [Example] *)

Lemma bc_verifies : bcryptVerifies bc.
Proof. intros plain. exact (String.eqb_refl _). Qed.

(** X1 at Alice's registration: her password, another password and an
    email that is not stored. *)
Lemma validateUser_contract_witness :
  snd (validateUser (bcrypt := bc) "a@x.com" "Pw1@aaaa" registered)
  = Ok (Some (omit "password" (userObject newAliceRow)))
  /\ snd (validateUser (bcrypt := bc) "a@x.com" "Pw1@bbbb" registered)
     = Ok None
  /\ snd (validateUser (bcrypt := bc) "b@x.com" "Pw1@aaaa" registered)
     = Ok None.
Proof.
  split; [|split].
  - destruct (validateUser_contract (bcrypt := bc) "a@x.com" "Pw1@aaaa"
                registered) as (_ & _ & _ & H & _).
    apply H; vm_compute; reflexivity.
  - destruct (validateUser_contract (bcrypt := bc) "a@x.com" "Pw1@bbbb"
                registered) as (_ & _ & H & _).
    apply (H newAliceRow); vm_compute; reflexivity.
  - destruct (validateUser_contract (bcrypt := bc) "b@x.com" "Pw1@aaaa"
                registered) as (_ & H & _).
    apply H. vm_compute. reflexivity.
Defined.

(** X2 at Alice's registration on the empty store. *)
Lemma register_then_validateUser_witness :
  bcryptVerifies bc
  /\ userByEmail initialWorld (dto_email alice) = None
  /\ snd (validateUser (bcrypt := bc) (dto_email alice) (dto_password alice)
            (fst (register (bcrypt := bc) (online 1500) alice initialWorld)))
     = Ok (Some (omit "password" (userObject newAliceRow))).
Proof.
  split; [exact bc_verifies|]. split; [reflexivity|].
  exact (register_then_validateUser (bcrypt := bc) (online 1500) alice
           initialWorld bc_verifies eq_refl).
Defined.

(** X3 at Alice's key and at a key that is not stored. *)
Lemma findById_contract_witness :
  snd (findById 0%N registered)
  = Ok (Some (omit "password" (userObject newAliceRow)))
  /\ snd (findById 7%N registered) = Ok None.
Proof.
  split.
  - destruct (findById_contract 0%N registered) as (_ & _ & H & _).
    apply (H newAliceRow). vm_compute. reflexivity.
  - destruct (findById_contract 7%N registered) as (_ & H & _).
    apply H. vm_compute. reflexivity.
Defined.


(** X5 at Alice's reset code, issued at 4 s: accepted at 5 s, refused at
    its [expiresAt], and another code is refused at 5 s. *)
Lemma forgotPassword_then_resetPassword_witness :
  userByEmail registered "a@x.com" = Some newAliceRow
  /\ isOk (snd (resetPassword (bcrypt := bc) (online 5000) "a@x.com" code
                  "Pw2@bbbb"
                  (fst (forgotPassword (online 4000) "a@x.com" registered))))
     = true
  /\ isOk (snd (resetPassword (bcrypt := bc) (online 604000) "a@x.com" code
                  "Pw2@bbbb"
                  (fst (forgotPassword (online 4000) "a@x.com" registered))))
     = false
  /\ isOk (snd (resetPassword (bcrypt := bc) (online 5000) "a@x.com" "101234"
                  "Pw2@bbbb"
                  (fst (forgotPassword (online 4000) "a@x.com" registered))))
     = false.
Proof.
  assert (Hu : userByEmail registered "a@x.com" = Some newAliceRow)
    by (vm_compute; reflexivity).
  split; [exact Hu|]. split; [|split].
  - pose proof (forgotPassword_then_resetPassword (bcrypt := bc) (online 4000)
                  (online 5000) "a@x.com" code "Pw2@bbbb" registered
                  newAliceRow Hu) as H.
    cbv zeta in H. destruct H as (Hiff & _). apply Hiff.
    split; vm_compute; reflexivity.
  - pose proof (forgotPassword_then_resetPassword (bcrypt := bc) (online 4000)
                  (online 604000) "a@x.com" code "Pw2@bbbb" registered
                  newAliceRow Hu) as H.
    cbv zeta in H. destruct H as (Hiff & _).
    apply not_true_is_false. intros Hok. apply Hiff in Hok.
    destruct Hok as [_ Hlate]. vm_compute in Hlate. discriminate.
  - pose proof (forgotPassword_then_resetPassword (bcrypt := bc) (online 4000)
                  (online 5000) "a@x.com" "101234" "Pw2@bbbb" registered
                  newAliceRow Hu) as H.
    cbv zeta in H. destruct H as (Hiff & _).
    apply not_true_is_false. intros Hok. apply Hiff in Hok.
    destruct Hok as [Hcode _]. vm_compute in Hcode. discriminate.
Defined.

(** X6 at Alice's registration on the empty store: her code verifies
    the email at 2 s, not at its [expiresAt], and a verified Alice is
    refused another code. *)
Lemma register_then_verifyEmail_witness :
  integrity initialWorld
  /\ userByEmail initialWorld (dto_email alice) = None
  /\ isOk (snd (verifyEmail (online 2000) "a@x.com" code registered)) = true
  /\ isOk (snd (verifyEmail (online 601500) "a@x.com" code registered))
     = false
  /\ resendVerificationEmail (online 3000) "a@x.com"
       (fst (verifyEmail (online 2000) "a@x.com" code registered))
     = (fst (verifyEmail (online 2000) "a@x.com" code registered),
        Throw (BadRequestException "Email is already verified")).
Proof.
  assert (Hi : integrity initialWorld) by (constructor; intros x []).
  assert (Hn : userByEmail initialWorld (dto_email alice) = None)
    by reflexivity.
  split; [exact Hi|]. split; [exact Hn|].
  pose proof (register_then_verifyEmail (bcrypt := bc) (online 1500)
                (online 2000) alice code initialWorld Hi Hn) as H.
  cbv zeta in H. destruct H as (Hiff & Hthen).
  assert (Hok : isOk (snd (verifyEmail (online 2000) (dto_email alice) code
                             (fst (register (bcrypt := bc) (online 1500)
                                     alice initialWorld)))) = true)
    by (apply Hiff; split; vm_compute; reflexivity).
  split; [exact Hok|]. split.
  - pose proof (register_then_verifyEmail (bcrypt := bc) (online 1500)
                  (online 601500) alice code initialWorld Hi Hn) as H.
    cbv zeta in H. destruct H as (Hiff' & _).
    apply not_true_is_false. intros Hok'. apply Hiff' in Hok'.
    destruct Hok' as [_ Hlate]. vm_compute in Hlate. discriminate.
  - exact (proj2 (Hthen Hok) (online 3000)).
Defined.

(** X7 at Alice's pending reset: [sendOtp] at 6 s leaves the LOGIN row
    as her only unused code, and the reset code no longer resets. *)
Lemma sendOtp_supersedes_all_codes_witness :
  sendOtp (online 6000) "b@x.com" twoCodes
  = (twoCodes, Throw (NotFoundException "User not found"))
  /\ In (newOtpRow (online 6000) (nextId twoCodes) LOGIN 0%N)
        (otps (fst (sendOtp (online 6000) "a@x.com" twoCodes)))
  /\ resetPassword (bcrypt := bc) (online 7000) "a@x.com" code "Pw2@bbbb"
       (fst (sendOtp (online 6000) "a@x.com" twoCodes))
     = (fst (sendOtp (online 6000) "a@x.com" twoCodes),
        Throw (BadRequestException "Invalid or expired reset code"))
  /\ isOk (snd (verifyEmail (online 7000) "a@x.com" code
                  (fst (sendOtp (online 6000) "a@x.com" twoCodes)))) = false.
Proof.
  assert (Hu : userByEmail twoCodes "a@x.com" = Some newAliceRow)
    by (vm_compute; reflexivity).
  split.
  - destruct (sendOtp_supersedes_all_codes (bcrypt := bc) (online 6000)
                "b@x.com" twoCodes) as (H & _).
    apply H. vm_compute. reflexivity.
  - destruct (sendOtp_supersedes_all_codes (bcrypt := bc) (online 6000)
                "a@x.com" twoCodes) as (_ & H).
    destruct (H newAliceRow Hu) as (Hin & _ & _ & Hreset & Hverify).
    split; [exact Hin|]. split; [exact (Hreset (online 7000) code "Pw2@bbbb")|].
    exact (Hverify (online 7000) code).
Defined.

(** X8 at Alice's login code, issued at 3 s: it opens the session at
    4 s, and another code is refused. *)
Lemma sendOtp_then_verifyOtp_witness :
  userByEmail registered "a@x.com" = Some newAliceRow
  /\ isOk (snd (verifyOtp (jwtService := jwt) (online 4000) "a@x.com" code
                  None None
                  (fst (sendOtp (online 3000) "a@x.com" registered)))) = true
  /\ snd (verifyOtp (jwtService := jwt) (online 4000) "a@x.com" "101234"
            None None (fst (sendOtp (online 3000) "a@x.com" registered)))
     = Throw (BadRequestException "Invalid or expired OTP").
Proof.
  assert (Hu : userByEmail registered "a@x.com" = Some newAliceRow)
    by (vm_compute; reflexivity).
  split; [exact Hu|]. split.
  - pose proof (sendOtp_then_verifyOtp (jwtService := jwt) (online 3000)
                  (online 4000) "a@x.com" code None None registered
                  newAliceRow Hu) as H.
    cbv zeta in H. destruct H as (_ & Hok). apply Hok.
    + vm_compute. reflexivity.
    + vm_compute. reflexivity.
    + apply freshToken_find. vm_compute. reflexivity.
  - pose proof (sendOtp_then_verifyOtp (jwtService := jwt) (online 3000)
                  (online 4000) "a@x.com" "101234" None None registered
                  newAliceRow Hu) as H.
    cbv zeta in H. destruct H as (Hiff & _). apply Hiff.
    intros [Hcode _]. vm_compute in Hcode. discriminate.
Defined.

(** X9 at Alice's second verification code, drawn as 100000 at 3 s: it
    verifies at 4 s and the first code no longer does; an email that is
    not stored and a verified Alice are refused. *)
Lemma resendVerificationEmail_contract_witness :
  resendVerificationEmail (online 3000) "b@x.com" registered
  = (registered, Throw (NotFoundException "User not found"))
  /\ isOk (snd (verifyEmail (online 4000) "a@x.com" "100000"
                  (fst (resendVerificationEmail (mkEnv 3000 0 true utc) "a@x.com"
                          registered)))) = true
  /\ isOk (snd (verifyEmail (online 4000) "a@x.com" code
                  (fst (resendVerificationEmail (mkEnv 3000 0 true utc) "a@x.com"
                          registered)))) = false.
Proof.
  assert (Hu : userByEmail registered "a@x.com" = Some newAliceRow)
    by (vm_compute; reflexivity).
  split.
  - destruct (resendVerificationEmail_contract (online 3000) "b@x.com"
                registered) as (H & _).
    apply H. vm_compute. reflexivity.
  - destruct (resendVerificationEmail_contract (mkEnv 3000 0 true utc) "a@x.com"
                registered) as (_ & _ & H).
    pose proof (H newAliceRow Hu eq_refl) as H'. cbv zeta in H'.
    destruct H' as (Hiff & _). split.
    + apply Hiff. split; vm_compute; reflexivity.
    + apply not_true_is_false. intros Hok. apply Hiff in Hok.
      destruct Hok as [Hcode _]. vm_compute in Hcode. discriminate.
Defined.

(** X10 at Alice's verification code: a purge at 2 s keeps it and
    [verifyEmail] at 3 s answers as before. *)
Lemma cleanupExpiredOtps_contract_witness :
  In codeRow (otps (fst (cleanupExpiredOtps (online 2000) registered)))
  /\ snd (verifyEmail (online 3000) "a@x.com" code
            (fst (cleanupExpiredOtps (online 2000) registered)))
     = snd (verifyEmail (online 3000) "a@x.com" code registered)
  /\ snd (cleanupExpiredOtps (online 700000) registered)
     = Ok "Cleaned up 1 expired OTPs".
Proof.
  split; [|split].
  - pose proof (cleanupExpiredOtps_contract (jwtService := jwt)
                  (bcrypt := bc) (online 2000) registered) as H.
    cbv zeta in H. destruct H as (_ & _ & _ & _ & Hkeep & _).
    apply Hkeep.
    + vm_compute. left; reflexivity.
    + reflexivity.
    + vm_compute. discriminate.
  - pose proof (cleanupExpiredOtps_contract (jwtService := jwt)
                  (bcrypt := bc) (online 2000) registered) as H.
    cbv zeta in H. destruct H as (_ & _ & _ & _ & _ & Hsame & _).
    apply Hsame. vm_compute. discriminate.
  - pose proof (cleanupExpiredOtps_contract (jwtService := jwt)
                  (bcrypt := bc) (online 700000) registered) as H.
    cbv zeta in H. destruct H as (Hmsg & _).
    rewrite Hmsg. vm_compute. reflexivity.
Defined.

(** X11 at Alice's session: a purge at 5 s keeps the row of [R1], and
    [R1] still refreshes at 6 s. *)
Lemma cleanupExpiredRefreshTokens_contract_witness :
  In R1Row
     (refreshTokens (fst (cleanupExpiredRefreshTokens (online 5000) loggedIn)))
  /\ isOk (snd (refreshAccessToken (jwtService := jwt) (online 6000) R1 None
                  None
                  (fst (cleanupExpiredRefreshTokens (online 5000) loggedIn))))
     = true.
Proof.
  pose proof (cleanupExpiredRefreshTokens_contract (jwtService := jwt)
                (online 5000) loggedIn) as H.
  cbv zeta in H. destruct H as (_ & _ & _ & Hkeep & _ & Hstill & _).
  split.
  - apply Hkeep.
    + vm_compute. left; reflexivity.
    + reflexivity.
    + vm_compute. discriminate.
  - apply Hstill.
    + vm_compute. discriminate.
    + vm_compute. reflexivity.
Defined.

(** X12 at Alice's row: a login at 2.5 s stores [R1], a logout with it
    succeeds and [R1] no longer refreshes; a second login in the same
    second is refused by the unique column. *)
Lemma login_then_logout_witness :
  login (jwtService := jwt) (online 2900) aliceRow None None loggedIn
  = (loggedIn, Throw (PrismaClientKnownRequestError "P2002"))
  /\ refreshTokens
       (fst (login (jwtService := jwt) (online 2500) newAliceRow None None
               registered))
     = [RefreshToken.mk 2%N R1 604802500 false None None 2500 0%N]
  /\ snd (revokeRefreshToken R1
            (fst (login (jwtService := jwt) (online 2500) newAliceRow None
                    None registered)))
     = Ok "Refresh token revoked successfully"
  /\ isOk (snd (refreshAccessToken (jwtService := jwt) (online 5000) R1 None
                  None
                  (fst (revokeRefreshToken R1
                          (fst (login (jwtService := jwt) (online 2500)
                                  newAliceRow None None registered))))))
     = false.
Proof.
  split.
  - pose proof (login_then_logout (jwtService := jwt) (online 2900) aliceRow
                  None None loggedIn) as H.
    cbv zeta in H. destruct H as (H & _). apply H.
    vm_compute. discriminate.
  - pose proof (login_then_logout (jwtService := jwt) (online 2500)
                  newAliceRow None None registered) as H.
    cbv zeta in H. destruct H as (_ & H & _).
    assert (Hn : storedToken registered
                   (sign (JwtService := jwt)
                      (RefreshClaims (User.id newAliceRow)) "7d"
                      (now (online 2500))) = None)
      by (vm_compute; reflexivity).
    destruct (H Hn) as (_ & Hrows & _ & _ & _ & Hout & Hdead).
    split; [rewrite Hrows; vm_compute; reflexivity|].
    split; [exact Hout|].
    destruct (Hdead (online 5000) None None) as [m Hm].
    change (sign (JwtService := jwt) (RefreshClaims (User.id newAliceRow))
              "7d" (now (online 2500))) with R1 in Hm.
    now rewrite Hm.
Defined.

(** X13 at Alice's verification: the row of her code is the stored row,
    marked used. *)
Lemma serve_never_rewrites_otps_witness :
  In (Otp.set_isUsed true codeRow)
     (otps (serve (jwtService := jwt) (bcrypt := bc) (online 2000)
              (VerifyEmail "a@x.com" code) registered))
  /\ exists o, In o (otps registered)
       /\ Otp.id (Otp.set_isUsed true codeRow) = Otp.id o
       /\ Otp.code (Otp.set_isUsed true codeRow) = Otp.code o
       /\ Otp.expiresAt (Otp.set_isUsed true codeRow) = Otp.expiresAt o
       /\ Otp.type (Otp.set_isUsed true codeRow) = Otp.type o
       /\ Otp.userId (Otp.set_isUsed true codeRow) = Otp.userId o
       /\ (Otp.isUsed o = true ->
           Otp.isUsed (Otp.set_isUsed true codeRow) = true).
Proof.
  assert (Hin : In (Otp.set_isUsed true codeRow)
                  (otps (serve (jwtService := jwt) (bcrypt := bc)
                           (online 2000) (VerifyEmail "a@x.com" code)
                           registered)))
    by (vm_compute; left; reflexivity).
  split; [exact Hin|].
  destruct (serve_never_rewrites_otps (jwtService := jwt) (bcrypt := bc)
              (online 2000) (VerifyEmail "a@x.com" code) registered)
    as (_ & H).
  apply (H _ Hin). vm_compute. reflexivity.
Defined.

(** X14 at the rotation of [R1]: its row is the stored row, revoked. *)
Lemma serve_never_rewrites_tokens_witness :
  In (RefreshToken.set_isRevoked true R1Row)
     (refreshTokens
        (serve (jwtService := jwt) (bcrypt := bc) (online 5000)
           (RefreshTokenRequest R1 None None) loggedIn))
  /\ exists r, In r (refreshTokens loggedIn)
       /\ RefreshToken.id (RefreshToken.set_isRevoked true R1Row)
          = RefreshToken.id r
       /\ RefreshToken.token (RefreshToken.set_isRevoked true R1Row)
          = RefreshToken.token r
       /\ RefreshToken.expiresAt (RefreshToken.set_isRevoked true R1Row)
          = RefreshToken.expiresAt r
       /\ RefreshToken.userId (RefreshToken.set_isRevoked true R1Row)
          = RefreshToken.userId r
       /\ RefreshToken.userAgent (RefreshToken.set_isRevoked true R1Row)
          = RefreshToken.userAgent r
       /\ RefreshToken.ipAddress (RefreshToken.set_isRevoked true R1Row)
          = RefreshToken.ipAddress r
       /\ (RefreshToken.isRevoked r = true ->
           RefreshToken.isRevoked (RefreshToken.set_isRevoked true R1Row)
           = true).
Proof.
  assert (Hin : In (RefreshToken.set_isRevoked true R1Row)
                  (refreshTokens
                     (serve (jwtService := jwt) (bcrypt := bc) (online 5000)
                        (RefreshTokenRequest R1 None None) loggedIn)))
    by (vm_compute; left; reflexivity).
  split; [exact Hin|].
  destruct (serve_never_rewrites_tokens (jwtService := jwt) (bcrypt := bc)
              (online 5000) (RefreshTokenRequest R1 None None) loggedIn)
    as (_ & H).
  apply (H _ Hin). vm_compute. reflexivity.
Defined.

(** X15 at Alice's store with the transport down at 3 s. *)
Lemma issuing_with_transport_down_witness :
  smtpUp (offline 3000) = false
  /\ userByEmail registered "a@x.com" = Some newAliceRow
  /\ snd (sendOtp (offline 3000) "a@x.com" registered)
     = Throw (Error "Failed to send OTP email")
  /\ In (Otp.set_isUsed true codeRow)
        (otps (fst (sendOtp (offline 3000) "a@x.com" registered)))
  /\ snd (resendVerificationEmail (offline 3000) "a@x.com" registered)
     = Throw (Error "Failed to send verification email")
  /\ outbox (fst (resendVerificationEmail (offline 3000) "a@x.com"
                    registered))
     = outbox registered.
Proof.
  assert (Hu : userByEmail registered "a@x.com" = Some newAliceRow)
    by (vm_compute; reflexivity).
  split; [reflexivity|]. split; [exact Hu|].
  destruct (issuing_with_transport_down (offline 3000) "a@x.com" registered
              newAliceRow eq_refl Hu) as ((Hs & _ & _ & Hused) & Hr).
  destruct (Hr eq_refl) as (Hr1 & Hr2 & _).
  split; [exact Hs|]. split; [|split; [exact Hr1|exact Hr2]].
  apply Hused.
  - vm_compute. left; reflexivity.
  - reflexivity.
Defined.

(** X16 at three results: a service's [{ message }] is wrapped, [null]
    is wrapped, and an envelope of [ResponseHelper] passes. *)
Lemma intercept_envelope_witness :
  ResponseInterceptor.intercept (messageObject "OTP sent successfully")
  = wrapped (messageObject "OTP sent successfully")
  /\ ResponseInterceptor.intercept Js.null = wrapped Js.null
  /\ ResponseInterceptor.intercept
       (ResponseHelper.success Js.null (Some "Login successful")
          Js.undefined)
     = ResponseHelper.success Js.null (Some "Login successful") Js.undefined.
Proof.
  split; [|split].
  - destruct (intercept_envelope (messageObject "OTP sent successfully"))
      as (_ & _ & _ & H).
    apply H. intros fields [= <-]. now left.
  - destruct (intercept_envelope Js.null) as (_ & _ & _ & H).
    apply H. intros fields Heq. discriminate Heq.
  - destruct (intercept_envelope
                (ResponseHelper.success Js.null (Some "Login successful")
                   Js.undefined)) as (_ & _ & H & _).
    apply (H _ eq_refl); reflexivity.
Defined.

(** X20 at Alice's row as [req.user]: the profile has her email and key,
    and no password although [req.user] carries one. *)
Lemma getProfile_whitelist_witness :
  Js.get "password" (Js_ofObject (userObject newAliceRow))
  = Js.str "$2a$10$Pw1@aaaa"
  /\ Js.get "email"
       (Js.get "data" (AuthController.getProfile (userObject newAliceRow)))
     = Js.str "a@x.com"
  /\ Js.get "password"
       (Js.get "data" (AuthController.getProfile (userObject newAliceRow)))
     = Js.undefined.
Proof.
  pose proof (getProfile_whitelist (userObject newAliceRow)) as H.
  cbv zeta in H. destruct H as (_ & _ & _ & Hpw & _ & Hu).
  destruct (Hu newAliceRow eq_refl) as (Hhas & Hemail & _).
  split; [exact Hhas|]. split; [exact Hemail|exact Hpw].
Defined.

(** X22 on the empty store seeded at 1 s: the documented credentials log
    in, and a second run at 2 s writes nothing. *)
Lemma seed_contract_witness :
  (exists admin customer,
     snd (validateUser (bcrypt := bc) "admin@example.com" "Admin@123"
            (fst (seed.main (bcrypt := bc) (online 1000) initialWorld)))
     = Ok (Some admin)
     /\ getProperty "role" admin = Some (JsString "ADMIN")
     /\ getProperty "isEmailVerified" admin = Some (JsBoolean true)
     /\ snd (validateUser (bcrypt := bc) "customer@example.com"
               "Customer@123"
               (fst (seed.main (bcrypt := bc) (online 1000) initialWorld)))
        = Ok (Some customer)
     /\ getProperty "role" customer = Some (JsString "CUSTOMER")
     /\ getProperty "isEmailVerified" customer = Some (JsBoolean true))
  /\ fst (seed.main (bcrypt := bc) (online 2000)
            (fst (seed.main (bcrypt := bc) (online 1000) initialWorld)))
     = fst (seed.main (bcrypt := bc) (online 1000) initialWorld).
Proof.
  pose proof (seed_contract (bcrypt := bc) (online 1000) initialWorld) as H.
  cbv zeta in H.
  destruct H as (_ & _ & _ & _ & _ & _ & _ & Hagain & Hlogin).
  split; [|exact (Hagain (online 2000))].
  apply Hlogin; [exact bc_verifies | reflexivity | reflexivity].
Defined.
